(** * ollama-ticket-summary: the paginated fetch loop and the ticket projection

    A shallow embedding of [jira_fetcher.py] (class [JiraTicketFetcher]) and
    [ticket_analyzer.py] (class [TicketAnalyzer]).

    Tickets are the objects that [json.load] / [response.json()] build, so
    they are modelled as dynamically typed Python values ([pyval]); every
    probe the code makes ([d.get(k, default)], [d[k]], [len], slicing,
    truth tests, f-string formatting) is a function on [pyval] that raises
    where Python raises.  Console output, requests to the search API and to
    the text-completion service are recorded as traces. *)

From Stdlib Require Import List String Ascii ZArith Lia Bool Arith DecimalString.
Import ListNotations.
Local Open Scope list_scope.
Local Open Scope string_scope.


(* ------------------------------------------------------------------ *)
(** ** Strings                                                          *)
(* ------------------------------------------------------------------ *)

(** A Python [str] is a sequence of characters; one [ascii] stands for one
    character, so [String.length] is Python's [len]. *)

Definition nl : string := String (ascii_of_nat 10) "".

(** [s[:n]] for [0 <= n]. *)
Fixpoint str_take (n : nat) (s : string) : string :=
  match n, s with
  | O, _ => ""
  | S _, EmptyString => ""
  | S n', String c s' => String c (str_take n' s')
  end.

(** [s[n:]] for [0 <= n]. *)
Fixpoint str_drop (n : nat) (s : string) : string :=
  match n, s with
  | O, _ => s
  | S _, EmptyString => ""
  | S n', String _ s' => str_drop n' s'
  end.

(** [s[-n:]] for [0 < n]. *)
Definition str_last (n : nat) (s : string) : string :=
  str_drop (String.length s - n) s.

(** [l[-n:]] for [0 < n]. *)
Definition lastn {A} (n : nat) (l : list A) : list A :=
  skipn (List.length l - n) l.

(** [needle in hay] on two strings. *)
Definition str_contains (needle hay : string) : bool :=
  match String.index 0 needle hay with
  | Some _ => true
  | None => false
  end.

Definition str_mem (c : ascii) (s : string) : bool :=
  existsb (Ascii.eqb c) (list_ascii_of_string s).

(* ------------------------------------------------------------------ *)
(** ** Python values and exceptions                                     *)
(* ------------------------------------------------------------------ *)

(** The image of [json.load]: [None], [bool], [int], [str], [list] and
    [dict] with string keys (in insertion order).  JSON numbers with a
    fraction ([float]) are outside the model. *)
#[warning="-register-all"] Inductive pyval : Type :=
| PNone
| PBool (b : bool)
| PInt (z : Z)
| PStr (s : string)
| PList (l : list pyval)
| PDict (kv : list (string * pyval)).

Inductive exn : Type :=
| KeyError
| TypeError
| AttributeError.

Inductive result (A : Type) : Type :=
| Ok (a : A)
| Raise (e : exn).
Arguments Ok {A} a.
Arguments Raise {A} e.

Definition bind {A B} (m : result A) (f : A -> result B) : result B :=
  match m with
  | Ok a => f a
  | Raise e => Raise e
  end.

Declare Scope py_scope.
Delimit Scope py_scope with py.
Notation "x <- m ;; k" := (bind m (fun x => k))
  (at level 61, m at next level, right associativity) : py_scope.
Local Open Scope py_scope.

(** The body of a [for] loop that appends one item per element. *)
Fixpoint mapM {A B} (f : A -> result B) (l : list A) : result (list B) :=
  match l with
  | [] => Ok []
  | x :: xs => y <- f x ;; ys <- mapM f xs ;; Ok (y :: ys)
  end.

(** *** Dictionaries *)

Fixpoint lookup (k : string) (kv : list (string * pyval)) : option pyval :=
  match kv with
  | [] => None
  | (k', v) :: rest => if String.eqb k k' then Some v else lookup k rest
  end.

(** [d.get(k, default)]: only a [dict] has the method. *)
Definition py_get (d : pyval) (k : string) (default : pyval) : result pyval :=
  match d with
  | PDict kv => Ok (match lookup k kv with Some v => v | None => default end)
  | _ => Raise AttributeError
  end.

(** [d[k]] with a string [k]. *)
Definition py_getitem (d : pyval) (k : string) : result pyval :=
  match d with
  | PDict kv => match lookup k kv with Some v => Ok v | None => Raise KeyError end
  | _ => Raise TypeError
  end.

(** *** Truth value, length, slices, membership, iteration *)

Definition py_truthy (v : pyval) : bool :=
  match v with
  | PNone => false
  | PBool b => b
  | PInt z => negb (Z.eqb z 0)
  | PStr s => negb (String.eqb s "")
  | PList l => match l with [] => false | _ => true end
  | PDict kv => match kv with [] => false | _ => true end
  end.

Definition py_len (v : pyval) : result nat :=
  match v with
  | PStr s => Ok (String.length s)
  | PList l => Ok (List.length l)
  | PDict kv => Ok (List.length kv)
  | _ => Raise TypeError
  end.

(** [v[:n]].  A [dict] rejects the slice as a key ([TypeError] up to
    Python 3.11, [KeyError] from 3.12 on). *)
Definition py_slice_to (n : nat) (v : pyval) : result pyval :=
  match v with
  | PStr s => Ok (PStr (str_take n s))
  | PList l => Ok (PList (firstn n l))
  | _ => Raise TypeError
  end.

(** [v[-n:]]. *)
Definition py_slice_last (n : nat) (v : pyval) : result pyval :=
  match v with
  | PStr s => Ok (PStr (str_last n s))
  | PList l => Ok (PList (lastn n l))
  | _ => Raise TypeError
  end.

(** ['k' in v]. *)
Definition py_contains (k : string) (v : pyval) : result bool :=
  match v with
  | PDict kv => Ok (match lookup k kv with Some _ => true | None => false end)
  | PList l =>
      Ok (existsb (fun x => match x with PStr s => String.eqb s k | _ => false end) l)
  | PStr s => Ok (str_contains k s)
  | _ => Raise TypeError
  end.

(** The elements a [for] loop visits. *)
Definition py_iter (v : pyval) : result (list pyval) :=
  match v with
  | PList l => Ok l
  | PStr s => Ok (map (fun c => PStr (String c "")) (list_ascii_of_string s))
  | PDict kv => Ok (map (fun p => PStr (fst p)) kv)
  | _ => Raise TypeError
  end.

(** [v + s] with a string literal [s]. *)
Definition py_add_str (v : pyval) (s : string) : result pyval :=
  match v with
  | PStr s0 => Ok (PStr (s0 ++ s))
  | _ => Raise TypeError
  end.

(** *** [repr] and [str] *)

Definition dquote : ascii := ascii_of_nat 34.
Definition squote : ascii := ascii_of_nat 39.
Definition backslash : ascii := ascii_of_nat 92.

Definition hex_digit (n : nat) : ascii :=
  nth n (list_ascii_of_string "0123456789abcdef") "0"%char.

Definition hex_escape (n : nat) : string :=
  String backslash
    (String "x"%char (String (hex_digit (n / 16)) (String (hex_digit (n mod 16)) ""))).

(** One character of [repr(s)], [q] being the quote chosen for [s]. *)
Definition repr_char (q c : ascii) : string :=
  let n := nat_of_ascii c in
  if Ascii.eqb c q || Ascii.eqb c backslash then String backslash (String c "")
  else if Nat.eqb n 9 then String backslash "t"
  else if Nat.eqb n 10 then String backslash "n"
  else if Nat.eqb n 13 then String backslash "r"
  else if Nat.ltb n 32 || Nat.eqb n 127 then hex_escape n
  else if (Nat.leb 128 n && Nat.leb n 160) || Nat.eqb n 173 then hex_escape n
  else String c "".

(** [repr] of a [str]: single quotes, unless the text holds a single quote
    and no double quote. *)
Definition py_repr_str (s : string) : string :=
  let q := if str_mem squote s && negb (str_mem dquote s) then dquote else squote in
  String q (String.concat "" (map (repr_char q) (list_ascii_of_string s)))
    ++ String q "".

Definition py_repr_int (z : Z) : string := NilZero.string_of_int (Z.to_int z).

Fixpoint py_repr (v : pyval) : string :=
  match v with
  | PNone => "None"
  | PBool true => "True"
  | PBool false => "False"
  | PInt z => py_repr_int z
  | PStr s => py_repr_str s
  | PList l => "[" ++ String.concat ", " (map py_repr l) ++ "]"
  | PDict kv =>
      "{" ++ String.concat ", "
               (map (fun p => py_repr_str (fst p) ++ ": " ++ py_repr (snd p)) kv)
          ++ "}"
  end.

(** [str(v)], which is what an f-string field [{v}] inserts. *)
Definition py_str (v : pyval) : string :=
  match v with
  | PStr s => s
  | _ => py_repr v
  end.

(* ------------------------------------------------------------------ *)
(** ** ticket_analyzer.py: the ticket projection                        *)
(* ------------------------------------------------------------------ *)

(** [x.get(k, {}).get('name', 'Unknown')] and its [displayName] sibling. *)
Definition get_nested (d : pyval) (k sub : string) (default : string) : result pyval :=
  inner <- py_get d k (PDict []) ;;
  py_get inner sub (PStr default).

(** [a.get('displayName', placeholder) if a else placeholder]. *)
Definition display_name_or (a : pyval) (placeholder : string) : result pyval :=
  if py_truthy a then py_get a "displayName" (PStr placeholder)
  else Ok (PStr placeholder).

(** [if len(v) > n: v = v[:n] + "..."]. *)
Definition truncate (n : nat) (v : pyval) : result pyval :=
  len <- py_len v ;;
  if Nat.ltb n len then (cut <- py_slice_to n v ;; py_add_str cut "...")
  else Ok v.

(** [if description and len(description) > 300: ...]. *)
Definition truncate_description (description : pyval) : result pyval :=
  if py_truthy description then truncate 300 description else Ok description.

(** One round of the loop over the kept comments. *)
Definition comment_line (comment : pyval) : result string :=
  author <- get_nested comment "author" "displayName" "Unknown" ;;
  body <- py_get comment "body" (PStr "") ;;
  body <- truncate 150 body ;;
  Ok ("  " ++ py_str author ++ ": " ++ py_str body).

Definition extract_comments (fields : pyval) : result (list string) :=
  comment_field <- py_get fields "comment" (PDict []) ;;
  if py_truthy comment_field then
    has <- py_contains "comments" comment_field ;;
    if has then
      all <- py_getitem comment_field "comments" ;;
      kept <- py_slice_last 3 all ;;
      kept <- py_iter kept ;;
      mapM comment_line kept
    else Ok []
  else Ok [].

(** One round of the inner loop over the items of a history entry. *)
Definition history_item_line (author : pyval) (item : pyval) : result string :=
  field <- py_get item "field" (PStr "") ;;
  from_val <- py_get item "fromString" (PStr "") ;;
  to_val <- py_get item "toString" (PStr "") ;;
  Ok ("  " ++ py_str author ++ ": " ++ py_str field ++ " changed from '"
        ++ py_str from_val ++ "' to '" ++ py_str to_val ++ "'").

(** One round of the loop over the kept history entries. *)
Definition history_lines (history : pyval) : result (list string) :=
  author <- get_nested history "author" "displayName" "Unknown" ;;
  items <- py_get history "items" (PList []) ;;
  items <- py_iter items ;;
  mapM (history_item_line author) items.

Definition extract_history (ticket : pyval) : result (list string) :=
  changelog <- py_get ticket "changelog" (PDict []) ;;
  if py_truthy changelog then
    has <- py_contains "histories" changelog ;;
    if has then
      all <- py_getitem changelog "histories" ;;
      kept <- py_slice_last 2 all ;;
      kept <- py_iter kept ;;
      per_entry <- mapM history_lines kept ;;
      Ok (List.concat per_entry)
    else Ok []
  else Ok [].

(** ['\n'.join(lines) if lines else placeholder]. *)
Definition join_or (lines : list string) (placeholder : string) : string :=
  match lines with
  | [] => placeholder
  | _ => String.concat nl lines
  end.

(** The values the f-string template of one ticket inserts. *)
Record Projected : Type := {
  p_key : string;
  p_summary : string;
  p_issue_type : string;
  p_status : string;
  p_priority : string;
  p_assignee_name : string;
  p_reporter_name : string;
  p_created : string;
  p_updated : string;
  p_description : string;
  p_comments : list string;
  p_history : list string
}.

Definition p_comments_text (p : Projected) : string :=
  join_or (p_comments p) "No comments".

Definition p_history_text (p : Projected) : string :=
  join_or (p_history p) "No recent changes".

(** The body of the loop of [prepare_ticket_data_for_analysis], up to the
    f-string. *)
Definition project_ticket (ticket : pyval) : result Projected :=
  fields <- py_getitem ticket "fields" ;;
  key <- py_getitem ticket "key" ;;
  summary <- py_get fields "summary" (PStr "") ;;
  description <- py_get fields "description" (PStr "") ;;
  status <- get_nested fields "status" "name" "Unknown" ;;
  priority <- get_nested fields "priority" "name" "Unknown" ;;
  issue_type <- get_nested fields "issuetype" "name" "Unknown" ;;
  assignee <- py_get fields "assignee" PNone ;;
  assignee_name <- display_name_or assignee "Unassigned" ;;
  reporter <- py_get fields "reporter" PNone ;;
  reporter_name <- display_name_or reporter "Unknown" ;;
  created <- (c <- py_get fields "created" (PStr "") ;; py_slice_to 10 c) ;;
  updated <- (u <- py_get fields "updated" (PStr "") ;; py_slice_to 10 u) ;;
  description <- truncate_description description ;;
  comments <- extract_comments fields ;;
  history_items <- extract_history ticket ;;
  Ok {| p_key := py_str key;
        p_summary := py_str summary;
        p_issue_type := py_str issue_type;
        p_status := py_str status;
        p_priority := py_str priority;
        p_assignee_name := py_str assignee_name;
        p_reporter_name := py_str reporter_name;
        p_created := py_str created;
        p_updated := py_str updated;
        p_description :=
          if py_truthy description then py_str description else "No description";
        p_comments := comments;
        p_history := history_items |}.

(** The f-string template. *)
Definition render (p : Projected) : string :=
  nl ++ "Ticket: " ++ p_key p ++ nl
     ++ "Title: " ++ p_summary p ++ nl
     ++ "Type: " ++ p_issue_type p ++ nl
     ++ "Status: " ++ p_status p ++ nl
     ++ "Priority: " ++ p_priority p ++ nl
     ++ "Assignee: " ++ p_assignee_name p ++ nl
     ++ "Reporter: " ++ p_reporter_name p ++ nl
     ++ "Created: " ++ p_created p ++ nl
     ++ "Updated: " ++ p_updated p ++ nl
     ++ "Description: " ++ p_description p ++ nl
     ++ "Recent Comments:" ++ nl
     ++ p_comments_text p ++ nl
     ++ "Recent History:" ++ nl
     ++ p_history_text p ++ nl
     ++ "---" ++ nl.

Definition ticket_summary (ticket : pyval) : result string :=
  p <- project_ticket ticket ;; Ok (render p).

(** [prepare_ticket_data_for_analysis], on the value of [self.tickets]. *)
Definition prepare_ticket_data_for_analysis (tickets : pyval) : result string :=
  ts <- py_iter tickets ;;
  ticket_summaries <- mapM ticket_summary ts ;;
  Ok (String.concat nl ticket_summaries).

(** A computation that does not raise [KeyError]. *)
Definition never_key_error {A} (m : result A) : Prop := m <> Raise KeyError.

(** *** The record shape of the data model

    A ticket has a string [key] and a [fields] mapping; in [fields], summary
    and the two timestamps are strings, status, priority and issue type are
    records with a [name], assignee and reporter are null or a record with a
    [displayName], the description is null or a string, and [comment] holds
    the sequence of comments (author record, string body).  The [changelog]
    holds the history entries (author record, sequence of items whose field
    name is a string and whose previous and new values are null or strings).
    A key that is absent is accepted wherever the code supplies a default. *)

Definition is_str (v : pyval) : bool :=
  match v with PStr _ => true | _ => false end.

Definition nullable (ok : pyval -> bool) (v : pyval) : bool :=
  match v with PNone => true | _ => ok v end.

Definition list_of (ok : pyval -> bool) (v : pyval) : bool :=
  match v with PList l => forallb ok l | _ => false end.

(** The entry [k] is absent or satisfies [ok]. *)
Definition opt_key (k : string) (ok : pyval -> bool) (kv : list (string * pyval)) : bool :=
  match lookup k kv with
  | None => true
  | Some v => ok v
  end.

Definition dict_of (ok : list (string * pyval) -> bool) (v : pyval) : bool :=
  match v with PDict kv => ok kv | _ => false end.

(** A record whose entry [sub], when present, is a string. *)
Definition named (sub : string) : pyval -> bool :=
  dict_of (opt_key sub is_str).

Definition comment_ok : pyval -> bool :=
  dict_of (fun kv =>
    opt_key "author" (named "displayName") kv && opt_key "body" is_str kv).

Definition item_ok : pyval -> bool :=
  dict_of (fun kv =>
    opt_key "field" is_str kv
    && opt_key "fromString" (nullable is_str) kv
    && opt_key "toString" (nullable is_str) kv).

Definition history_ok : pyval -> bool :=
  dict_of (fun kv =>
    opt_key "author" (named "displayName") kv
    && opt_key "items" (list_of item_ok) kv).

Definition fields_ok : pyval -> bool :=
  dict_of (fun kv =>
    opt_key "summary" is_str kv
    && opt_key "description" (nullable is_str) kv
    && opt_key "status" (named "name") kv
    && opt_key "priority" (named "name") kv
    && opt_key "issuetype" (named "name") kv
    && opt_key "assignee" (nullable (named "displayName")) kv
    && opt_key "reporter" (nullable (named "displayName")) kv
    && opt_key "created" is_str kv
    && opt_key "updated" is_str kv
    && opt_key "comment" (dict_of (opt_key "comments" (list_of comment_ok))) kv).

Definition well_shaped : pyval -> bool :=
  dict_of (fun kv =>
    match lookup "key" kv, lookup "fields" kv with
    | Some (PStr _), Some fields =>
        fields_ok fields
        && opt_key "changelog" (dict_of (opt_key "histories" (list_of history_ok))) kv
    | _, _ => false
    end).

(** *** What the rules of the projection say, on a well-shaped ticket *)

(** The entry [k] of a record, [default] when there is none. *)
Definition entry (k : string) (default : pyval) (d : pyval) : pyval :=
  match d with
  | PDict kv => match lookup k kv with Some v => v | None => default end
  | _ => default
  end.

(** The entry [k] of the [fields] of a ticket, if any. *)
Definition field_of (ticket : pyval) (k : string) : option pyval :=
  match entry "fields" PNone ticket with
  | PDict kv => lookup k kv
  | _ => None
  end.

(** The stored comments and history entries of a ticket. *)
Definition comments_of (ticket : pyval) : list pyval :=
  match entry "comments" (PList []) (entry "comment" (PDict []) (entry "fields" PNone ticket)) with
  | PList l => l
  | _ => []
  end.

Definition histories_of (ticket : pyval) : list pyval :=
  match entry "histories" (PList []) (entry "changelog" (PDict []) ticket) with
  | PList l => l
  | _ => []
  end.

Definition items_of (history : pyval) : list pyval :=
  match entry "items" (PList []) history with
  | PList l => l
  | _ => []
  end.

Definition author_name (holder : pyval) : string :=
  py_str (entry "displayName" (PStr "Unknown") (entry "author" (PDict []) holder)).

(** The first [n] characters and an ellipsis marker, for a text longer
    than [n]. *)
Definition ellipsize (n : nat) (s : string) : string :=
  if Nat.ltb n (String.length s) then str_take n s ++ "..." else s.

Definition spec_comment_line (comment : pyval) : string :=
  "  " ++ author_name comment ++ ": "
       ++ ellipsize 150 (py_str (entry "body" (PStr "") comment)).

Definition spec_history_line (history item : pyval) : string :=
  "  " ++ author_name history ++ ": "
       ++ py_str (entry "field" (PStr "") item) ++ " changed from '"
       ++ py_str (entry "fromString" (PStr "") item) ++ "' to '"
       ++ py_str (entry "toString" (PStr "") item) ++ "'".

Definition spec_history_lines (history : pyval) : list string :=
  map (spec_history_line history) (items_of history).

(** The description line: the placeholder for a missing, null or empty
    description, else the text cut at 300 characters. *)
Definition spec_description (ticket : pyval) : string :=
  match field_of ticket "description" with
  | Some (PStr d) => if String.eqb d "" then "No description" else ellipsize 300 d
  | _ => "No description"
  end.

(** An optional field that is missing or null. *)
Definition missing_or_null (ticket : pyval) (k : string) : Prop :=
  field_of ticket k = None \/ field_of ticket k = Some PNone.

(** The text of the entry [k] of the [fields] of a ticket, empty when the
    entry is absent. *)
Definition text_field (ticket : pyval) (k : string) : string :=
  match field_of ticket k with
  | Some (PStr s) => s
  | _ => ""
  end.

(** The [name] of the entry [k] of the [fields] of a ticket, "Unknown" when
    the entry or its name is absent. *)
Definition name_of (ticket : pyval) (k : string) : string :=
  py_str (entry "name" (PStr "Unknown")
            (entry k (PDict []) (entry "fields" PNone ticket))).

(** The display name of the person in the entry [k] of the [fields] of a
    ticket; [placeholder] when the entry is missing, null or an empty record,
    or when the record has no display name. *)
Definition person_of (ticket : pyval) (k placeholder : string) : string :=
  match field_of ticket k with
  | Some (PDict (e :: kv)) =>
      py_str (entry "displayName" (PStr placeholder) (PDict (e :: kv)))
  | _ => placeholder
  end.

(** The text has [line] as one of its lines, with a line end before and
    after it. *)
Definition has_line (line text : string) : Prop :=
  exists before after, text = before ++ nl ++ line ++ nl ++ after.

(* ------------------------------------------------------------------ *)
(** ** jira_fetcher.py: the paginated fetch loop                        *)
(* ------------------------------------------------------------------ *)

(** One page request: the [startAt] and [maxResults] parameters (the query,
    the field list and the credentials are the same in every request). *)
Record Request : Type := { startAt : Z; maxResults : Z }.

(** What [response.json()] gives: it raises or does not give an object
    ([Malformed]), or it gives an object whose [issues] (a list) and [total]
    (an integer) may be absent.  Payloads whose [issues] or [total] are of
    another type are outside the model. *)
Inductive Body : Type :=
| Malformed
| Payload (issues : option (list pyval)) (total : option Z).

(** What [requests.get] gives: it raises, or a response with a status. *)
Inductive Response : Type :=
| TransportError
| Http (status_code : Z) (body : Body).

(** The search endpoint, as the loop sees it: the answer to the [n]-th
    request issued (counted from 0). *)
Definition Server : Type := nat -> Request -> Response.

(** The console lines of [fetch_tickets]. *)
Inductive FetchMsg : Type :=
| MsgFetchFailed (status_code : Z)
| MsgProgress (fetched : nat) (total : Z)
| MsgFetchedTotal (fetched : nat)
| MsgMoreAvailable (remaining : Z)
| MsgFetchError.

Record FetchState : Type := {
  all_tickets : list pyval;
  start_at : Z;
  total_available : option Z;
  issued : list Request;
  console : list FetchMsg
}.

Definition batch_size : Z := 100.

Definition fetch_init : FetchState :=
  {| all_tickets := []; start_at := 0; total_available := None;
     issued := []; console := [] |}.

(** [l[:m]] for any integer [m]: a negative [m] counts from the end. *)
Definition slice_to (m : Z) (l : list pyval) : list pyval :=
  if (m <? 0)%Z then firstn (Z.to_nat (Z.of_nat (List.length l) + m)) l
  else firstn (Z.to_nat m) l.

(** [max_results and len(all_tickets) >= max_results], [n] being the
    length: a cap of [None] or [0] is never reached. *)
Definition cap_reached (max_results : option Z) (n : nat) : bool :=
  match max_results with
  | Some c => negb (c =? 0)%Z && (c <=? Z.of_nat n)%Z
  | None => false
  end.

Inductive Step : Type :=
| Continue (st : FetchState)
| Break (st : FetchState)
| Except (st : FetchState).

(** One round of the [while True] loop. *)
Definition iteration (server : Server) (max_results : option Z) (st : FetchState) : Step :=
  let req := {| startAt := start_at st; maxResults := batch_size |} in
  let n := List.length (issued st) in
  let sent := (issued st ++ [req])%list in
  match server n req with
  | TransportError =>
      Except {| all_tickets := all_tickets st; start_at := start_at st;
                total_available := total_available st;
                issued := sent; console := console st |}
  | Http status_code body =>
      if negb (status_code =? 200)%Z then
        Break {| all_tickets := all_tickets st; start_at := start_at st;
                 total_available := total_available st;
                 issued := sent;
                 console := (console st ++ [MsgFetchFailed status_code])%list |}
      else
        match body with
        | Malformed =>
            Except {| all_tickets := all_tickets st; start_at := start_at st;
                      total_available := total_available st;
                      issued := sent; console := console st |}
        | Payload issues total =>
            let batch_tickets := match issues with Some l => l | None => [] end in
            let total := match total with Some t => t | None => 0%Z end in
            match batch_tickets with
            | [] =>
                Break {| all_tickets := all_tickets st; start_at := start_at st;
                         total_available := Some total;
                         issued := sent; console := console st |}
            | _ =>
                let all := (all_tickets st ++ batch_tickets)%list in
                let out := (console st ++ [MsgProgress (List.length all) total])%list in
                if cap_reached max_results (List.length all) then
                  Break {| all_tickets :=
                             slice_to (match max_results with Some c => c | None => 0%Z end) all;
                           start_at := start_at st;
                           total_available := Some total;
                           issued := sent; console := out |}
                else if (total <=? Z.of_nat (List.length all))%Z then
                  Break {| all_tickets := all; start_at := start_at st;
                           total_available := Some total;
                           issued := sent; console := out |}
                else
                  Continue {| all_tickets := all;
                              start_at := (start_at st + batch_size)%Z;
                              total_available := Some total;
                              issued := sent; console := out |}
            end
        end
  end.

(** The loop, run for at most [fuel] rounds: [None] when it is still going. *)
Fixpoint fetch_loop (fuel : nat) (server : Server) (max_results : option Z)
    (st : FetchState) : option Step :=
  match fuel with
  | O => None
  | S fuel' =>
      match iteration server max_results st with
      | Continue st' => fetch_loop fuel' server max_results st'
      | stop => Some stop
      end
  end.

(** What follows the loop, and the [except] clause. *)
Definition fetch_finish (stop : Step) : list pyval * FetchState :=
  match stop with
  | Except st =>
      (match all_tickets st with [] => [] | l => l end,
       {| all_tickets := all_tickets st; start_at := start_at st;
          total_available := total_available st; issued := issued st;
          console := (console st ++ [MsgFetchError])%list |})
  | Break st | Continue st =>
      let n := List.length (all_tickets st) in
      let shortfall :=
        match total_available st with
        | Some t =>
            if negb (t =? 0)%Z && (Z.of_nat n <? t)%Z
            then [MsgMoreAvailable (t - Z.of_nat n)] else []
        | None => []
        end in
      (all_tickets st,
       {| all_tickets := all_tickets st; start_at := start_at st;
          total_available := total_available st; issued := issued st;
          console := (console st ++ [MsgFetchedTotal n] ++ shortfall)%list |})
  end.

(** [fetch_tickets(max_results)]: the tickets returned and the final state
    (requests issued, console lines), or [None] when [fuel] rounds do not
    end the loop. *)
Definition fetch_tickets (fuel : nat) (server : Server) (max_results : option Z)
    : option (list pyval * FetchState) :=
  match fetch_loop fuel server max_results fetch_init with
  | Some stop => Some (fetch_finish stop)
  | None => None
  end.

(** The state after [n] rounds that all went on to the next one. *)
Fixpoint after_rounds (n : nat) (server : Server) (max_results : option Z)
    (st : FetchState) : option FetchState :=
  match n with
  | O => Some st
  | S n' =>
      match iteration server max_results st with
      | Continue st' => after_rounds n' server max_results st'
      | _ => None
      end
  end.

(** The simulated server of the testable properties: it holds the matching
    tickets in its declared order, and answers every page request with
    status 200, the page at the requested offset and the total. *)
Definition page (db : list pyval) (req : Request) : list pyval :=
  firstn (Z.to_nat (maxResults req)) (skipn (Z.to_nat (startAt req)) db).

Definition simulated_server (db : list pyval) : Server :=
  fun _ req => Http 200 (Payload (Some (page db req)) (Some (Z.of_nat (List.length db)))).

(** A response that ends the loop as a failed page request: a transport
    error, a status other than 200, or a payload that cannot be read. *)
Definition failed (r : Response) : bool :=
  match r with
  | TransportError => true
  | Http status_code body =>
      negb (status_code =? 200)%Z
      || match body with Malformed => true | Payload _ _ => false end
  end.

(** The request for the page of index [k]. *)
Definition page_request (k : nat) : Request :=
  {| startAt := Z.of_nat (100 * k); maxResults := batch_size |}.

(** The request the loop sends next. *)
Definition next_request (st : FetchState) : Request :=
  {| startAt := start_at st; maxResults := batch_size |}.

(** The loop at the start of round [k] against the simulated server. *)
Definition at_round (db : list pyval) (k : nat) (st : FetchState) : Prop :=
  all_tickets st = firstn (100 * k) db
  /\ start_at st = Z.of_nat (100 * k)
  /\ issued st = map page_request (seq 0 k).

(** No cap, or one that does not cut a result of [total] tickets short. *)
Definition no_smaller_cap (max_results : option Z) (total : Z) : Prop :=
  match max_results with
  | None => True
  | Some c => c = 0%Z \/ (total <= c)%Z
  end.

(** The tickets a cap leaves of the matching ones. *)
Definition capped (max_results : option Z) (db : list pyval) : list pyval :=
  match max_results with
  | Some c => if (c =? 0)%Z then db else firstn (Z.to_nat c) db
  | None => db
  end.

(** The tickets a response adds to the accumulator: those of a readable
    payload with status 200, none otherwise. *)
Definition issues_of (r : Response) : list pyval :=
  match r with
  | Http status_code (Payload (Some l) _) =>
      if (status_code =? 200)%Z then l else []
  | _ => []
  end.

(** The total a response declares, if it declares one the loop reads. *)
Definition declared_total (r : Response) : option Z :=
  match r with
  | Http status_code (Payload _ total) =>
      if (status_code =? 200)%Z
      then Some (match total with Some t => t | None => 0%Z end)
      else None
  | _ => None
  end.

(** The tickets of the pages that the first [n] requests of the loop
    receive, in order. *)
Definition pages_received (server : Server) (n : nat) : list pyval :=
  flat_map (fun i => issues_of (server i (page_request i))) (seq 0 n).

(** The loop before its request of index [k]: it has sent the [k] requests
    before it and holds the pages they received. *)
Definition paging (server : Server) (k : nat) (st : FetchState) : Prop :=
  issued st = map page_request (seq 0 k)
  /\ start_at st = Z.of_nat (100 * k)
  /\ all_tickets st = pages_received server k.

(** The state a round ends in. *)
Definition step_state (s : Step) : FetchState :=
  match s with
  | Continue st | Break st | Except st => st
  end.

(* ------------------------------------------------------------------ *)
(** ** The snapshot file: [save_tickets_to_json] and [load_ticket_data] *)
(* ------------------------------------------------------------------ *)

Definition DEFAULT_JQL : string :=
  "project = L2 AND updated >= -300d ORDER BY updated DESC".

(** The readings of [datetime.now()] a call uses: [strftime] with
    [%Y%m%d_%H%M%S], [isoformat()], and [strftime] with
    [%Y-%m-%d %H:%M:%S]. *)
Record Clock : Type := {
  now_stamp : string;
  now_iso : string;
  now_pretty : string
}.

(** The object [save_tickets_to_json] serializes. *)
Definition snapshot (now : Clock) (tickets : list pyval) : pyval :=
  PDict [("fetch_timestamp", PStr (now_iso now));
         ("jql_query", PStr DEFAULT_JQL);
         ("total_tickets", PInt (Z.of_nat (List.length tickets)));
         ("tickets", PList tickets)].

Inductive SaveMsg : Type :=
| MsgSaved (filename : string)
| MsgSaveFailed.

Inductive LoadMsg : Type :=
| MsgLoaded (count : nat)
| MsgDataInfo (fetched jql total : string)
| MsgFileNotFound
| MsgInvalidJson
| MsgLoadError.

(** The state of a [TicketAnalyzer]. *)
Record Analyzer : Type := {
  ollama_model : string;
  ticket_data : pyval;
  tickets : pyval
}.

Section Persistence.

(** The text of a file, and the [json] module: [dumps] writes an object,
    [loads] reads one back or raises [JSONDecodeError] ([None]). *)
Variable Text : Type.
Variable dumps : pyval -> Text.
Variable loads : Text -> option pyval.

(** What [open(name, 'r', encoding='utf-8')] and the read that follows
    give: [FileNotFoundError]; another exception ([PermissionError],
    [IsADirectoryError], [UnicodeDecodeError], ...); or the text of the
    file. *)
Inductive Reading : Type :=
| NoSuchFile
| Unreadable
| Holds (text : Text).

(** What [open(name, 'w', encoding='utf-8')] and the writes that follow do:
    the writes complete; or [open] raises, and the file is as before; or
    [open] creates or empties the file and a write raises, which leaves the
    file with the part written by then. *)
Inductive Writing : Type :=
| Completes
| OpenFails
| WriteFails (left_in_file : Text).

(** The files by name, the log file [jira_requests.log] apart: what reading
    a name gives now, and what writing to it would do. *)
Record Files : Type := {
  reading : string -> Reading;
  writing : string -> Writing
}.

(** The text of a file that can be read. *)
Definition file_text (fs : Files) (name : string) : option Text :=
  match reading fs name with
  | Holds text => Some text
  | _ => None
  end.

(** The names to which a write completes. *)
Definition writable (fs : Files) (name : string) : bool :=
  match writing fs name with
  | Completes => true
  | _ => false
  end.

Definition write_file (fs : Files) (name : string) (text : Text) : Files :=
  {| reading := fun n => if String.eqb n name then Holds text else reading fs n;
     writing := writing fs |}.

(** [save_tickets_to_json(tickets, filename)]: the files afterwards, the
    name returned (empty on failure) and the console line. *)
Definition save_tickets_to_json (now : Clock) (fs : Files) (tickets : list pyval)
    (filename : option string) : Files * string * SaveMsg :=
  let filename :=
    match filename with
    | Some name => if String.eqb name "" then "jira_tickets_" ++ now_stamp now ++ ".json"
                   else name
    | None => "jira_tickets_" ++ now_stamp now ++ ".json"
    end in
  match writing fs filename with
  | Completes =>
      (write_file fs filename (dumps (snapshot now tickets)), filename, MsgSaved filename)
  | OpenFails => (fs, "", MsgSaveFailed)
  | WriteFails left_in_file => (write_file fs filename left_in_file, "", MsgSaveFailed)
  end.

(** [load_ticket_data(filename)]: the value returned, the analyzer
    afterwards and the console lines. *)
Definition load_ticket_data (fs : Files) (an : Analyzer) (filename : string)
    : bool * Analyzer * list LoadMsg :=
  match reading fs filename with
  | NoSuchFile => (false, an, [MsgFileNotFound])
  | Unreadable => (false, an, [MsgLoadError])
  | Holds text =>
      match loads text with
      | None => (false, an, [MsgInvalidJson])
      | Some data =>
          let an1 := {| ollama_model := ollama_model an; ticket_data := data;
                        tickets := tickets an |} in
          match py_get data "tickets" (PList []) with
          | Raise _ => (false, an1, [MsgLoadError])
          | Ok ts =>
              let an2 := {| ollama_model := ollama_model an; ticket_data := data;
                            tickets := ts |} in
              match py_len ts with
              | Raise _ => (false, an2, [MsgLoadError])
              | Ok n =>
                  (true, an2,
                   [MsgLoaded n;
                    MsgDataInfo
                      (py_str (entry "fetch_timestamp" (PStr "Unknown") data))
                      (py_str (entry "jql_query" (PStr "Unknown") data))
                      (py_str (entry "total_tickets" (PInt 0) data))])
              end
          end
      end
  end.

End Persistence.

Arguments NoSuchFile {Text}.
Arguments Unreadable {Text}.
Arguments Holds {Text} _.
Arguments Completes {Text}.
Arguments OpenFails {Text}.
Arguments WriteFails {Text} _.
Arguments reading {Text} _ _.
Arguments writing {Text} _ _.
Arguments file_text {Text} _ _.
Arguments writable {Text} _ _.
Arguments write_file {Text} _ _ _.
Arguments save_tickets_to_json {Text} _ _ _ _ _.
Arguments load_ticket_data {Text} _ _ _ _.

(** The number of tickets and the keys of the first and the last one. *)
Definition ticket_count (ts : pyval) : option nat :=
  match ts with PList l => Some (List.length l) | _ => None end.

Definition first_key (ts : pyval) : option pyval :=
  match ts with
  | PList (t :: _) => Some (entry "key" PNone t)
  | _ => None
  end.

Definition last_key (ts : pyval) : option pyval :=
  match ts with
  | PList (t :: l) => Some (entry "key" PNone (last l t))
  | _ => None
  end.

(** The values [len] accepts. *)
Definition has_len (v : pyval) : bool :=
  match v with
  | PStr _ | PList _ | PDict _ => true
  | _ => false
  end.

(* ------------------------------------------------------------------ *)
(** ** ticket_analyzer.py: the analyses                                 *)
(* ------------------------------------------------------------------ *)

Definition dq : string := String dquote "".

(** The instruction templates (a character outside ASCII stands here as the
    bytes of its UTF-8 encoding). *)
Definition prompt_summary : string :=
  "
Please analyze these Jira tickets and provide:

1. **Executive Summary** (2-3 sentences about the overall state)
2. **Key Statistics** (count by status, priority, type)
3. **Main Themes** (what are the common issues/topics)
4. **Priority Issues** (highlight high-priority or urgent items)
5. **Recommendations** (actionable insights for the team/manager)

Keep the analysis concise and manager-friendly. Focus on actionable insights.

Ticket Data:
".

Definition prompt_detailed : string :=
  "
You are a senior analyst reviewing 600 Level 2 tech support Jira tickets. Your goal is to extract operational and team performance insights. Provide specific, data-driven answers. Be concise, but insightful. Avoid generic statements.

Analyze the following:

1. 🔁 **Recurring Issues & Technical Trends**
   - Cluster similar tickets by keywords or symptoms (e.g. " ++ dq ++ "timeout" ++ dq ++ ", " ++ dq ++ "duplicate entry" ++ dq ++ ", " ++ dq ++ "3DS failure" ++ dq ++ ")
   - Give counts per cluster and example ticket IDs
   - Identify what systems/modules cause the most trouble

2. 👤 **Most Valuable Personnel**
   - Who resolves the most tickets?
   - Who handles the most complex tickets? (longest descriptions, critical priority)
   - Who closes tickets fastest (median resolution time)?
   - Who gets stuck most often? (tickets blocked or not updated >7 days)

3. 🧱 **Bottlenecks & Risks**
   - Where are tickets getting stuck? (statuses, handoffs, specific assignees)
   - Are there neglected tickets (e.g., open for >14 days)?
   - Are high-priority tickets resolved faster than low-priority ones?

4. 🗓️ **Time-Based Trends**
   - Ticket volume by week/month
   - Resolution time trends: is it improving?
   - Peaks in ticket creation or slowdowns in resolution — identify and explain

5. 📈 **Process and Workflow Patterns**
   - Average number of status transitions per ticket
   - Any patterns in ticket reopenings?
   - Any assignee-specific patterns? (e.g. " ++ dq ++ "Assignee X always gets API errors" ++ dq ++ ")

6. 🚨 **Actionable Recommendations**
   - Suggest team/process improvements
   - Propose which recurring issues should be fixed at the root
   - Identify where automation could reduce ticket load

Be specific. Use bullet points and tables where appropriate. Include counts, percentages, and ticket IDs. This analysis is for a support team manager who wants to improve efficiency, identify top performers, and reduce recurring problems.

Ticket Data:
".

Definition prompt_trends : string :=
  "
Analyze these Jira tickets for detailed trends and actionable insights. Provide specific data points, numbers, and examples where possible:

## 1. **TEMPORAL ANALYSIS**
- **Ticket Volume by Time**: Count tickets created per day/week/month. Identify peak periods and quiet times.
- **Time-to-Resolution**: Calculate average time from creation to resolution for different ticket types and priorities.
- **Age Analysis**: Identify tickets that have been open for unusually long periods.

## 2. **WORKFLOW & STATUS ANALYSIS**
- **Status Distribution**: Current count of tickets in each status (To Do, In Progress, Pending, Blocked, Done, etc.)
- **Stuck Tickets Analysis**: 
  - List tickets in " ++ dq ++ "Pending" ++ dq ++ " status for >X days with specific ticket IDs
  - List tickets in " ++ dq ++ "Blocked" ++ dq ++ " status for >X days with specific ticket IDs
  - Identify which tickets haven't been updated recently
- **Status Transition Patterns**: How tickets typically flow through statuses

## 3. **WORKLOAD & ASSIGNEE ANALYSIS**
- **Tickets per Assignee**: Count and percentage breakdown by team member
- **Assignee Performance Patterns**: 
  - Who has the most open tickets?
  - Who resolves tickets fastest/slowest?
  - Which assignees have tickets stuck in specific statuses?
- **Workload Balance**: Identify overloaded vs underutilized team members

## 4. **PROBLEM PATTERN ANALYSIS**
- **Similar Issue Clustering**: Group tickets with very similar titles, descriptions, or error patterns
  - Example: " ++ dq ++ "Payment processing errors" ++ dq ++ " (count: X tickets)
  - Example: " ++ dq ++ "API timeout issues" ++ dq ++ " (count: X tickets)  
  - Example: " ++ dq ++ "Database connection problems" ++ dq ++ " (count: X tickets)
- **Recurring Keywords**: Most frequent words/phrases in ticket descriptions
- **Error Pattern Detection**: Common error codes, system names, or technical issues

## 5. **DEPENDENCY & CORRELATION ANALYSIS**
- **Assignee-Specific Patterns**: 
  - Does Assignee X always get certain types of tickets?
  - Which assignees have recurring similar problems?
  - Are some team members specialists in specific areas?
- **Subject-Matter Dependencies**: 
  - Which topics/systems generate the most tickets?
  - Are certain subjects always assigned to the same people?
  - What are the most problematic systems/features?

## 6. **PRIORITY & IMPACT ANALYSIS**
- **Priority Distribution**: Breakdown by High/Medium/Low priority
- **Priority vs Time-to-Resolution**: Do high-priority tickets actually get resolved faster?
- **Escalation Patterns**: Which types of tickets tend to get escalated?

## 7. **ACTIONABLE RECOMMENDATIONS**
Based on the patterns found, provide specific recommendations:
- Which processes need improvement?
- Where are the bottlenecks?
- What training might be needed?
- How to better distribute workload?
- Which recurring issues need permanent fixes?

**IMPORTANT**: For each insight, provide:
- Specific numbers and percentages
- Actual ticket IDs as examples where relevant
- Clear actionable recommendations
- Potential root causes for identified problems

Ticket Data:
".

Definition prompts : list (string * string) :=
  [("summary", prompt_summary); ("detailed", prompt_detailed); ("trends", prompt_trends)].

Fixpoint assoc (k : string) (table : list (string * string)) : option string :=
  match table with
  | [] => None
  | (k', v) :: rest => if String.eqb k k' then Some v else assoc k rest
  end.

(** The console lines of the analyzer. *)
Inductive AnalyzerMsg : Type :=
| MsgNoTicketsToDisplay
| MsgTicketOverview
| MsgGeneratingQuickSummary
| MsgAnalyzing (model : string)
| MsgMayTakeAMoment
| MsgAnalysisError
| MsgQuickSummary
| MsgText (text : string)
| MsgAnalysisSaved (filename : string)
| MsgSaveAnalysisFailed.

(** What an analysis does to the outside, in order. *)
Inductive Event : Type :=
| Say (line : AnalyzerMsg)
| ShowTable (rows : list (list pyval))
| Chat (model content : string)
| Ask
| FileWrite (filename content : string).

(** The outside: the text-completion service ([None] when the call
    raises), the reply to the save prompt after [strip().lower()], the
    clock, and the names that [open(name, 'w')] accepts. *)
Record Env : Type := {
  ollama_chat : string -> string -> option string;
  save_answer : string;
  clock : Clock;
  can_write : string -> bool
}.

(** One row of [display_ticket_table]. *)
Definition table_row (ticket : pyval) : result (list pyval) :=
  fields <- py_getitem ticket "fields" ;;
  key <- py_getitem ticket "key" ;;
  s <- py_get fields "summary" (PStr "") ;;
  n <- py_len s ;;
  summary <- (if Nat.ltb 50 n
              then (s <- py_get fields "summary" (PStr "") ;;
                    cut <- py_slice_to 50 s ;; py_add_str cut "...")
              else py_get fields "summary" (PStr "")) ;;
  status <- get_nested fields "status" "name" "Unknown" ;;
  priority <- get_nested fields "priority" "name" "Unknown" ;;
  assignee <- py_get fields "assignee" PNone ;;
  assignee_name <- display_name_or assignee "Unassigned" ;;
  updated <- (u <- py_get fields "updated" (PStr "") ;; py_slice_to 10 u) ;;
  Ok [key; summary; status; priority; assignee_name; updated].

Definition display_ticket_table (an : Analyzer) : list Event * result unit :=
  if negb (py_truthy (tickets an)) then ([Say MsgNoTicketsToDisplay], Ok tt)
  else
    match (ts <- py_iter (tickets an) ;; mapM table_row ts) with
    | Ok rows => ([Say MsgTicketOverview; ShowTable rows], Ok tt)
    | Raise e => ([], Raise e)
    end.

Definition analysis_failed : string :=
  "Analysis failed. Please check Ollama connection.".

(** [analyze_with_ollama(ticket_data, analysis_type)]. *)
Definition analyze_with_ollama (an : Analyzer) (env : Env) (ticket_data : string)
    (analysis_type : string) : list Event * string :=
  let prompt :=
    match assoc analysis_type prompts with
    | Some p => p
    | None => prompt_summary
    end ++ ticket_data in
  let called := [Say (MsgAnalyzing (ollama_model an)); Say MsgMayTakeAMoment;
                 Chat (ollama_model an) prompt] in
  match ollama_chat env (ollama_model an) prompt with
  | Some content => (called, content)
  | None => ((called ++ [Say MsgAnalysisError])%list, analysis_failed)
  end.

(** [str.title()] on ASCII letters. *)
Definition is_lower (c : ascii) : bool :=
  let n := nat_of_ascii c in Nat.leb 97 n && Nat.leb n 122.
Definition is_upper (c : ascii) : bool :=
  let n := nat_of_ascii c in Nat.leb 65 n && Nat.leb n 90.
Definition to_upper (c : ascii) : ascii :=
  if is_lower c then ascii_of_nat (nat_of_ascii c - 32) else c.
Definition to_lower (c : ascii) : ascii :=
  if is_upper c then ascii_of_nat (nat_of_ascii c + 32) else c.

Fixpoint title_from (in_word : bool) (s : string) : string :=
  match s with
  | EmptyString => ""
  | String c s' =>
      if is_lower c || is_upper c
      then String (if in_word then to_lower c else to_upper c) (title_from true s')
      else String c (title_from false s')
  end.

Definition title (s : string) : string := title_from false s.

Fixpoint str_repeat (c : ascii) (n : nat) : string :=
  match n with
  | O => ""
  | S n' => String c (str_repeat c n')
  end.

(** [save_analysis(analysis, analysis_type)]: an exception in the middle of
    the writes leaves what was written before it. *)
Definition save_analysis (an : Analyzer) (env : Env) (analysis analysis_type : string)
    : list Event :=
  let filename :=
    "ticket_analysis_" ++ analysis_type ++ "_" ++ now_stamp (clock env) ++ ".txt" in
  let rule := str_repeat "="%char 60 in
  let head :=
    "Ticket Analysis (" ++ title analysis_type ++ ") - " ++ now_pretty (clock env) ++ nl
      ++ rule ++ nl ++ nl in
  if can_write env filename then
    match
      (source <- py_get (ticket_data an) "fetch_timestamp" (PStr "Unknown") ;;
       jql <- py_get (ticket_data an) "jql_query" (PStr "Unknown") ;;
       Ok (head ++ "Source data: " ++ py_str source ++ nl
                ++ "JQL Query: " ++ py_str jql ++ nl))
    with
    | Raise _ => [FileWrite filename head; Say MsgSaveAnalysisFailed]
    | Ok part =>
        match py_len (tickets an) with
        | Raise _ => [FileWrite filename part; Say MsgSaveAnalysisFailed]
        | Ok n =>
            [FileWrite filename
               (part ++ "Total tickets analyzed: " ++ py_repr_int (Z.of_nat n) ++ nl
                     ++ "AI Model: " ++ ollama_model an ++ nl
                     ++ nl ++ rule ++ nl ++ nl
                     ++ analysis);
             Say (MsgAnalysisSaved filename)]
        end
    end
  else [Say MsgSaveAnalysisFailed].

(** [quick_summary()]: the events, and whether it returns or raises. *)
Definition quick_summary (an : Analyzer) (env : Env) : list Event * result unit :=
  let start := [Say MsgGeneratingQuickSummary] in
  match display_ticket_table an with
  | (shown, Raise e) => ((start ++ shown)%list, Raise e)
  | (shown, Ok _) =>
      match prepare_ticket_data_for_analysis (tickets an) with
      | Raise e => ((start ++ shown)%list, Raise e)
      | Ok ticket_data =>
          let (analyzed, analysis) := analyze_with_ollama an env ticket_data "summary" in
          let asked :=
            (start ++ shown ++ analyzed
               ++ [Say MsgQuickSummary; Say (MsgText analysis); Ask])%list in
          if String.eqb (save_answer env) "y"
          then ((asked ++ save_analysis an env analysis "summary")%list, Ok tt)
          else (asked, Ok tt)
      end
  end.

(** The completion requests among the events. *)
Definition completion_requests (events : list Event) : list Event :=
  filter (fun e => match e with Chat _ _ => true | _ => false end) events.

(* ------------------------------------------------------------------ *)
(** ** jira_fetcher.py: the connection test and [run]                   *)
(* ------------------------------------------------------------------ *)

(** What the request to the "current user" endpoint gives: it raises, or a
    status and the object [response.json()] reads ([None] when that
    raises). *)
Inductive Probe : Type :=
| ProbeError
| ProbeAnswer (status_code : Z) (user_info : option pyval).

(** The console lines of the fetcher outside [fetch_tickets]. *)
Inductive FetcherMsg : Type :=
| MsgFetcherBanner
| MsgConnected (name : string)
| MsgConnectionFailed (status_code : Z)
| MsgConnectionError
| MsgHowMany
| MsgWillFetch (max_results : Z)
| MsgWillFetchAll
| MsgInvalidInput
| MsgFetching
| MsgFetch (line : FetchMsg)
| MsgNoTicketsTable
| MsgOverview (rows : list (list pyval))
| MsgSave (line : SaveMsg)
| MsgDataSaved (filename : string)
| MsgNoTicketsFetched.

(** [test_jira_connection()]. *)
Definition test_jira_connection (probe : Probe) : bool * list FetcherMsg :=
  match probe with
  | ProbeError => (false, [MsgConnectionError])
  | ProbeAnswer status_code user_info =>
      if (status_code =? 200)%Z then
        match user_info with
        | Some info =>
            match py_get info "displayName" (PStr "Unknown") with
            | Ok name => (true, [MsgConnected (py_str name)])
            | Raise _ => (false, [MsgConnectionError])
            end
        | None => (false, [MsgConnectionError])
        end
      else (false, [MsgConnectionFailed status_code])
  end.

(** [display_ticket_summary(tickets)]: the rows are those of the table of
    the analyzer. *)
Definition display_ticket_summary (tickets : list pyval) : result (list FetcherMsg) :=
  match tickets with
  | [] => Ok [MsgNoTicketsTable]
  | _ => rows <- mapM table_row tickets ;; Ok [MsgOverview rows]
  end.

(** The records that the [logger] calls of the fetcher append to the log
    file [jira_requests.log], which the module opens when it is loaded (the
    [StreamHandler] shows the same records on the console).  A constructor
    stands for the records of consecutive calls: three for the start of a
    fetch (query, cap or ALL, URL), two for a page request (batch number,
    parameters), two for a failed status (status, response text), three for
    a batch (its size, the total, the start index that the payload echoes)
    and four for the summary that ends a run. *)
Inductive LogRecord : Type :=
| LogTesting
| LogConnectionStatus (status_code : Z)
| LogConnectedAs (name : string)
| LogConnectionFailed (status_code : Z)
| LogConnectionError
| LogExiting
| LogFetchStart (max_results : option Z)
| LogRequest (batch : nat) (req : Request)
| LogStatus (status_code : Z)
| LogFetchFailed (status_code : Z)
| LogBatch (fetched : nat) (total : Z)
| LogNoMore
| LogReachedLimit (max_results : Z)
| LogFetchedAll
| LogFetchedTotal (fetched : nat)
| LogFetchException
| LogSaved (filename : string)
| LogSaveFailed
| LogSummary (fetched : nat) (saved_file : string)
| LogNoTickets.

(** The records of [test_jira_connection()]. *)
Definition connection_log (probe : Probe) : list LogRecord :=
  LogTesting ::
  match probe with
  | ProbeError => [LogConnectionError]
  | ProbeAnswer status_code user_info =>
      LogConnectionStatus status_code ::
      if (status_code =? 200)%Z then
        match user_info with
        | Some info =>
            match py_get info "displayName" (PStr "Unknown") with
            | Ok name => [LogConnectedAs (py_str name)]
            | Raise _ => [LogConnectionError]
            end
        | None => [LogConnectionError]
        end
      else [LogConnectionFailed status_code]
  end.

(** The records of one round of the loop of [fetch_tickets], which starts
    in the state [st]. *)
Definition round_log (server : Server) (max_results : option Z) (st : FetchState)
    : list LogRecord :=
  let req := {| startAt := start_at st; maxResults := batch_size |} in
  let asked := LogRequest (List.length (all_tickets st) / 100 + 1) req in
  match server (List.length (issued st)) req with
  | TransportError => [asked]
  | Http status_code body =>
      if negb (status_code =? 200)%Z then
        [asked; LogStatus status_code; LogFetchFailed status_code]
      else
        match body with
        | Malformed => [asked; LogStatus status_code]
        | Payload issues total =>
            let batch_tickets := match issues with Some l => l | None => [] end in
            let total := match total with Some t => t | None => 0%Z end in
            let got :=
              [asked; LogStatus status_code;
               LogBatch (List.length batch_tickets) total] in
            match batch_tickets with
            | [] => (got ++ [LogNoMore])%list
            | _ =>
                let n := List.length (all_tickets st ++ batch_tickets)%list in
                if cap_reached max_results n then
                  (got ++ [LogReachedLimit
                             (match max_results with Some c => c | None => 0%Z end)])%list
                else if (total <=? Z.of_nat n)%Z then (got ++ [LogFetchedAll])%list
                else got
            end
        end
  end.

(** The records of the rounds of the loop, run for at most [fuel] rounds
    from the state [st]. *)
Fixpoint loop_log (fuel : nat) (server : Server) (max_results : option Z)
    (st : FetchState) : list LogRecord :=
  match fuel with
  | O => []
  | S fuel' =>
      (round_log server max_results st
         ++ match iteration server max_results st with
            | Continue st' => loop_log fuel' server max_results st'
            | _ => []
            end)%list
  end.

(** The records of [fetch_tickets(max_results)]. *)
Definition fetch_log (fuel : nat) (server : Server) (max_results : option Z)
    : list LogRecord :=
  (LogFetchStart max_results :: loop_log fuel server max_results fetch_init
     ++ match fetch_loop fuel server max_results fetch_init with
        | Some (Except _) => [LogFetchException]
        | Some (Break st) | Some (Continue st) =>
            [LogFetchedTotal (List.length (all_tickets st))]
        | None => []
        end)%list.

(** The record of [save_tickets_to_json], which goes with its console
    line. *)
Definition save_log (line : SaveMsg) : LogRecord :=
  match line with
  | MsgSaved filename => LogSaved filename
  | MsgSaveFailed => LogSaveFailed
  end.

Section Run.

Variable Text : Type.
Variable dumps : pyval -> Text.

(** [int(s)] on a reply that is not empty: [None] when it raises
    [ValueError]. *)
Variable py_int : string -> option Z.

(** What a run leaves behind: the files other than the log file, the
    records appended to the log file, whether the connection test passed,
    the page requests sent, the tickets fetched, the name of the file saved
    (empty when none was), the exception that ended the run, if any, and
    the console. *)
Record RunOutcome : Type := {
  files_after : Files Text;
  logged : list LogRecord;
  connected : bool;
  requests_sent : list Request;
  fetched : list pyval;
  saved_as : string;
  run_raised : option exn;
  run_console : list FetcherMsg
}.

(** The cap that [run] reads from the reply to its prompt (after
    [strip()]), with the console line that tells it. *)
Definition read_cap (reply : string) : option Z * FetcherMsg :=
  if String.eqb reply "" then (None, MsgWillFetchAll)
  else
    match py_int reply with
    | Some c => (Some c, MsgWillFetch c)
    | None => (None, MsgInvalidInput)
    end.

(** [run()]: [None] when [fuel] rounds do not end the fetch loop. *)
Definition run (fuel : nat) (probe : Probe) (reply : string) (server : Server)
    (now : Clock) (fs : Files Text) : option RunOutcome :=
  match test_jira_connection probe with
  | (false, lines) =>
      Some {| files_after := fs;
              logged := (connection_log probe ++ [LogExiting])%list;
              connected := false; requests_sent := [];
              fetched := []; saved_as := ""; run_raised := None;
              run_console := MsgFetcherBanner :: lines |}
  | (true, lines) =>
      let (max_results, told) := read_cap reply in
      match fetch_tickets fuel server max_results with
      | None => None
      | Some (tickets, st) =>
          let before :=
            (MsgFetcherBanner :: lines ++ [MsgHowMany; told; MsgFetching]
               ++ map MsgFetch (console st))%list in
          let log_before :=
            (connection_log probe ++ fetch_log fuel server max_results)%list in
          match tickets with
          | [] =>
              Some {| files_after := fs;
                      logged := (log_before ++ [LogNoTickets])%list;
                      connected := true;
                      requests_sent := issued st; fetched := tickets;
                      saved_as := ""; run_raised := None;
                      run_console := (before ++ [MsgNoTicketsFetched])%list |}
          | _ =>
              match display_ticket_summary tickets with
              | Raise e =>
                  Some {| files_after := fs; logged := log_before;
                          connected := true;
                          requests_sent := issued st; fetched := tickets;
                          saved_as := ""; run_raised := Some e;
                          run_console := before |}
              | Ok table =>
                  let '(fs', saved_file, line) :=
                    save_tickets_to_json dumps now fs tickets None in
                  Some {| files_after := fs';
                          logged :=
                            (log_before
                               ++ [save_log line;
                                   LogSummary (List.length tickets) saved_file])%list;
                          connected := true;
                          requests_sent := issued st; fetched := tickets;
                          saved_as := saved_file; run_raised := None;
                          run_console :=
                            (before ++ table ++ [MsgSave line]
                               ++ (if String.eqb saved_file "" then []
                                   else [MsgDataSaved saved_file]))%list |}
              end
          end
      end
  end.

End Run.

Arguments files_after {Text} _.
Arguments logged {Text} _.
Arguments connected {Text} _.
Arguments requests_sent {Text} _.
Arguments fetched {Text} _.
Arguments saved_as {Text} _.
Arguments run_raised {Text} _.
Arguments run_console {Text} _.
Arguments run {Text} _ _ _ _ _ _ _ _.

(* ------------------------------------------------------------------ *)
(** ** ticket_analyzer.py: the connection test and the entry points     *)
(* ------------------------------------------------------------------ *)

(** The console lines of the connection test, of the other two analyses
    and of the entry points. *)
Inductive RunMsg : Type :=
| MsgModelAvailable (model : string)
| MsgModelNotFound (model : string) (available : list string)
| MsgUsingInstead (model : string)
| MsgNoModels
| MsgOllamaError
| MsgGeneratingDetailed
| MsgDetailedAnalysis
| MsgGeneratingTrends
| MsgTrendAnalysis
| MsgRunning (analysis_type : string)
| MsgUnknownType (analysis_type : string)
| MsgBanner
| MsgOptions
| MsgGoodbye
| MsgInvalidChoice.

(** What an entry point does to the outside: an event of an analysis, a
    console line, a call of [ollama.list()]. *)
Inductive Action : Type :=
| Did (e : Event)
| Told (line : RunMsg)
| ListModels.

(** The completion requests among the actions. *)
Definition requests_of (actions : list Action) : list Event :=
  flat_map (fun a => match a with
                     | Did (Chat model content) => [Chat model content]
                     | _ => []
                     end) actions.

(** [test_ollama_connection()], on what [ollama.list()] gives: the names of
    the models, or [None] when the call or the reading of its answer
    raises.  It returns the value, the analyzer afterwards and the console
    lines. *)
Definition test_ollama_connection (an : Analyzer) (listing : option (list string))
    : bool * Analyzer * list RunMsg :=
  match listing with
  | None => (false, an, [MsgOllamaError])
  | Some available_models =>
      if existsb (String.eqb (ollama_model an)) available_models then
        (true, an, [MsgModelAvailable (ollama_model an)])
      else
        match available_models with
        | first :: _ =>
            (true,
             {| ollama_model := first; ticket_data := ticket_data an;
                tickets := tickets an |},
             [MsgModelNotFound (ollama_model an) available_models;
              MsgUsingInstead first])
        | [] =>
            (false, an,
             [MsgModelNotFound (ollama_model an) available_models; MsgNoModels])
        end
  end.

(** [detailed_analysis()] and [trend_analysis()] differ from
    [quick_summary()] in their two console lines, in the name of the
    analysis, and in that the trend analysis shows no table. *)
Definition other_analysis (opening heading : RunMsg) (shows_table : bool)
    (analysis_type : string) (an : Analyzer) (env : Env)
    : list Action * result unit :=
  let start := [Told opening] in
  match (if shows_table then display_ticket_table an else ([], Ok tt)) with
  | (shown, Raise e) => ((start ++ map Did shown)%list, Raise e)
  | (shown, Ok _) =>
      match prepare_ticket_data_for_analysis (tickets an) with
      | Raise e => ((start ++ map Did shown)%list, Raise e)
      | Ok ticket_data =>
          let (analyzed, analysis) :=
            analyze_with_ollama an env ticket_data analysis_type in
          let asked :=
            (start ++ map Did shown ++ map Did analyzed
               ++ [Told heading; Did (Say (MsgText analysis)); Did Ask])%list in
          if String.eqb (save_answer env) "y"
          then ((asked ++ map Did (save_analysis an env analysis analysis_type))%list,
                Ok tt)
          else (asked, Ok tt)
      end
  end.

Definition detailed_analysis : Analyzer -> Env -> list Action * result unit :=
  other_analysis MsgGeneratingDetailed MsgDetailedAnalysis true "detailed".

Definition trend_analysis : Analyzer -> Env -> list Action * result unit :=
  other_analysis MsgGeneratingTrends MsgTrendAnalysis false "trends".

(** The analysis a name or a menu choice selects. *)
Definition summary_actions (an : Analyzer) (env : Env) : list Action * result unit :=
  (map Did (fst (quick_summary an env)), snd (quick_summary an env)).

(** [run_single_analysis(analysis_type)]. *)
Definition run_single_analysis (an : Analyzer) (listing : option (list string))
    (env : Env) (analysis_type : string) : list Action * result unit :=
  match test_ollama_connection an listing with
  | (false, _, lines) => ((ListModels :: map Told lines)%list, Ok tt)
  | (true, an', lines) =>
      let before := (ListModels :: map Told lines ++ [Told (MsgRunning analysis_type)])%list in
      let (done, outcome) :=
        if String.eqb analysis_type "summary" then summary_actions an' env
        else if String.eqb analysis_type "detailed" then detailed_analysis an' env
        else if String.eqb analysis_type "trends" then trend_analysis an' env
        else ([Told (MsgUnknownType analysis_type)], Ok tt) in
      ((before ++ done)%list, outcome)
  end.

(** One round of the menu of [run_interactive]: the choice typed (after
    [strip()]) and the outside that an analysis chosen in it meets. *)
Record Round : Type := { choice : string; round_env : Env }.

(** The menu loop on the rounds typed: [None] when the rounds run out
    before the choice "5". *)
Fixpoint menu_loop (an : Analyzer) (rounds : list Round)
    : option (list Action * result unit) :=
  match rounds with
  | [] => None
  | r :: rest =>
      let shown := [Told MsgOptions; Did Ask] in
      let go_on (done : list Action * result unit) :=
        match done with
        | (actions, Raise e) => Some ((shown ++ actions)%list, Raise e)
        | (actions, Ok _) =>
            match menu_loop an rest with
            | Some (later, outcome) => Some ((shown ++ actions ++ later)%list, outcome)
            | None => None
            end
        end in
      if String.eqb (choice r) "1" then go_on (summary_actions an (round_env r))
      else if String.eqb (choice r) "2" then go_on (detailed_analysis an (round_env r))
      else if String.eqb (choice r) "3" then go_on (trend_analysis an (round_env r))
      else if String.eqb (choice r) "4" then
        go_on (map Did (fst (display_ticket_table an)), snd (display_ticket_table an))
      else if String.eqb (choice r) "5" then
        Some ((shown ++ [Told MsgGoodbye])%list, Ok tt)
      else go_on ([Told MsgInvalidChoice], Ok tt)
  end.

(** [run_interactive()]. *)
Definition run_interactive (an : Analyzer) (listing : option (list string))
    (rounds : list Round) : option (list Action * result unit) :=
  match test_ollama_connection an listing with
  | (false, _, lines) => Some ((Told MsgBanner :: ListModels :: map Told lines)%list, Ok tt)
  | (true, an', lines) =>
      match menu_loop an' rounds with
      | Some (actions, outcome) =>
          Some ((Told MsgBanner :: ListModels :: map Told lines ++ actions)%list, outcome)
      | None => None
      end
  end.

(** The instruction template an analysis type selects. *)
Definition template_of (analysis_type : string) : string :=
  match assoc analysis_type prompts with
  | Some p => p
  | None => prompt_summary
  end.

(** The events among the actions. *)
Definition events_of (actions : list Action) : list Event :=
  flat_map (fun a => match a with Did e => [e] | _ => [] end) actions.

(** The name of the file [save_analysis] writes. *)
Definition analysis_file (analysis_type : string) (env : Env) : string :=
  "ticket_analysis_" ++ analysis_type ++ "_" ++ now_stamp (clock env) ++ ".txt".

(** The rounds of the menu that choose an analysis. *)
Definition chooses_analysis (r : Round) : bool :=
  String.eqb (choice r) "1" || String.eqb (choice r) "2" || String.eqb (choice r) "3".

(** The row of the table for a well-shaped ticket, [assignee] being the
    name shown for its assignee: key, summary cut at 50 characters, status,
    priority, assignee, date of the last update. *)
Definition spec_row (ticket : pyval) (assignee : string) : list pyval :=
  [entry "key" PNone ticket;
   PStr (ellipsize 50 (text_field ticket "summary"));
   PStr (name_of ticket "status");
   PStr (name_of ticket "priority");
   PStr assignee;
   PStr (str_take 10 (text_field ticket "updated"))].

(** The files an analysis writes. *)
Definition file_writes (events : list Event) : list Event :=
  filter (fun e => match e with FileWrite _ _ => true | _ => false end) events.

(* ------------------------------------------------------------------ *)
(** ** Sample data                                                      *)
(* ------------------------------------------------------------------ *)

Definition person (name : string) : pyval := PDict [("displayName", PStr name)].

Definition sample_comment (author body : string) : pyval :=
  PDict [("author", person author); ("body", PStr body)].

Definition sample_history (author : string) (changes : list (string * string * string))
    : pyval :=
  PDict [("author", person author);
         ("items",
          PList (map (fun c => PDict [("field", PStr (fst (fst c)));
                                      ("fromString", PStr (snd (fst c)));
                                      ("toString", PStr (snd c))])
                     changes))].

(** A ticket with a 500-character description, a null assignee, no
    reporter, five comments (the fourth of 200 characters) and three
    history entries. *)
Definition sample_ticket : pyval :=
  PDict [("key", PStr "L2-7");
         ("fields",
          PDict [("summary", PStr "Card payment times out");
                 ("description", PStr (str_repeat "d"%char 500));
                 ("status", PDict [("name", PStr "Open")]);
                 ("priority", PDict [("name", PStr "High")]);
                 ("assignee", PNone);
                 ("created", PStr "2024-06-20T09:15:00.000+0000");
                 ("updated", PStr "2024-06-24T16:30:00.000+0000");
                 ("comment",
                  PDict [("comments",
                          PList [sample_comment "Ann" "first";
                                 sample_comment "Bob" "second";
                                 sample_comment "Cid" "third";
                                 sample_comment "Dee" (str_repeat "x"%char 200);
                                 sample_comment "Eve" "fifth"])])]);
         ("changelog",
          PDict [("histories",
                  PList [sample_history "Ann" [("status", "New", "Open")];
                         sample_history "Bob" [("priority", "Low", "High");
                                               ("assignee", "Bob", "Cid")];
                         sample_history "Cid" [("assignee", "Cid", "")]])])].

(** A ticket with nothing but a key and empty fields. *)
Definition bare_ticket : pyval :=
  PDict [("key", PStr "L2-9"); ("fields", PDict [])].

(** The same ticket with a null status, as the search API sends for a field
    that has no value. *)
Definition null_status_ticket : pyval :=
  PDict [("key", PStr "L2-8"); ("fields", PDict [("status", PNone)])].

(** A server's tickets [L2-1] ... [L2-n]. *)
Definition sample_db (n : nat) : list pyval :=
  map (fun i => PDict [("key", PStr ("L2-" ++ NilZero.string_of_uint (Nat.to_uint i)));
                       ("fields", PDict [])])
      (seq 1 n).

(** A server that serves at most [limit] tickets per page, whatever
    [maxResults] asks for. *)
Definition short_page_server (limit : nat) (db : list pyval) : Server :=
  fun _ req =>
    Http 200
      (Payload
         (Some (firstn (Nat.min limit (Z.to_nat (maxResults req)))
                       (skipn (Z.to_nat (startAt req)) db)))
         (Some (Z.of_nat (List.length db)))).

(** A server that holds [db] and serves its pages faithfully, but declares
    [extra] tickets more than it holds (tickets counted that no page
    delivers). *)
Definition overstating_server (db : list pyval) (extra : nat) : Server :=
  fun _ req =>
    Http 200
      (Payload (Some (page db req))
               (Some (Z.of_nat (List.length db + extra)))).

(** A server of 250 tickets whose every request after the first fails in
    transport. *)
Definition flaky_server : Server :=
  fun n req =>
    match n with
    | O => simulated_server (sample_db 250) n req
    | S _ => TransportError
    end.

Definition after_first_page : FetchState :=
  match after_rounds 1 flaky_server None fetch_init with
  | Some st => st
  | None => fetch_init
  end.

(** An analyzer whose snapshot holds no ticket, and an outside where the
    service answers and the user declines to save. *)
Definition empty_analyzer : Analyzer :=
  {| ollama_model := "llama3.2";
     ticket_data := PDict [("total_tickets", PInt 0); ("tickets", PList [])];
     tickets := PList [] |}.

Definition sample_clock : Clock :=
  {| now_stamp := "20240624_163000";
     now_iso := "2024-06-24T16:30:00";
     now_pretty := "2024-06-24 16:30:00" |}.

Definition sample_env : Env :=
  {| ollama_chat := fun _ _ => Some "Nothing to report.";
     save_answer := "n";
     clock := sample_clock;
     can_write := fun _ => true |}.

(** Files none of which exists yet, all of which can be written. *)
Definition no_files (Text : Type) : Files Text :=
  {| reading := fun _ => NoSuchFile; writing := fun _ => Completes |}.

Definition fresh_analyzer : Analyzer :=
  {| ollama_model := "llama3.2"; ticket_data := PNone; tickets := PList [] |}.

(** The files after a snapshot of three tickets was saved, and the load of
    that snapshot. *)
(** A file that holds a list of tickets, not a snapshot. *)
Definition list_file : Files pyval :=
  write_file (no_files pyval) "list.json" (PList [sample_ticket]).

(** The analyzer after a load of that file. *)
Definition list_loaded : Analyzer :=
  {| ollama_model := ollama_model fresh_analyzer;
     ticket_data := PList [sample_ticket];
     tickets := tickets fresh_analyzer |}.

Definition saved_files : Files pyval :=
  write_file (no_files pyval) "snapshot.json" (snapshot sample_clock (sample_db 3)).

Definition loaded_sample : bool * Analyzer * list LoadMsg :=
  load_ticket_data (fun v => Some v) saved_files fresh_analyzer "snapshot.json".

(** A fetch of at most 120 of 250 tickets, and the fetch that the flaky
    server cuts short. *)
Definition capped_fetch : list pyval * FetchState :=
  match fetch_tickets 5 (simulated_server (sample_db 250)) (Some 120%Z) with
  | Some r => r
  | None => ([], fetch_init)
  end.

Definition flaky_fetch_result : list pyval * FetchState :=
  match fetch_tickets 2 flaky_server None with
  | Some r => r
  | None => ([], fetch_init)
  end.

(** An outside where the user asks for the analysis to be saved. *)
Definition saving_env : Env :=
  {| ollama_chat := fun _ _ => Some "Two tickets need attention.";
     save_answer := "y";
     clock := sample_clock;
     can_write := fun _ => true |}.

(** An analyzer that holds the sample ticket. *)
Definition sample_analyzer : Analyzer :=
  {| ollama_model := "llama3.2";
     ticket_data := snapshot sample_clock [sample_ticket];
     tickets := PList [sample_ticket] |}.

(** The text of the file the summary of the sample analyzer is saved to. *)
Definition saved_summary_text : string :=
  match nth 9 (fst (quick_summary sample_analyzer saving_env)) Ask with
  | FileWrite _ content => content
  | _ => ""
  end.

(** The content of the request the summary of the sample analyzer sends. *)
Definition sample_request_content : string :=
  match prepare_ticket_data_for_analysis (tickets sample_analyzer) with
  | Ok ticket_text => prompt_summary ++ ticket_text
  | Raise _ => ""
  end.

(** Rounds of the menu: an invalid choice, the table, the exit, and a
    choice typed after the exit. *)
Definition sample_rounds : list Round :=
  [{| choice := "9"; round_env := sample_env |};
   {| choice := "4"; round_env := sample_env |}].

Definition exit_round : Round := {| choice := "5"; round_env := sample_env |}.

Definition late_round : Round := {| choice := "1"; round_env := sample_env |}.

(** A run of the fetcher: the connection test passes, the user asks for 2
    tickets, the server holds 3. *)
Definition sample_probe : Probe := ProbeAnswer 200 (Some (person "Ann")).

Definition sample_int (s : string) : option Z :=
  if String.eqb s "2" then Some 2%Z else None.

Definition sample_run : option (RunOutcome pyval) :=
  run (fun v => v) sample_int 3 sample_probe "2" (simulated_server (sample_db 3))
      sample_clock (no_files pyval).

Definition sample_outcome : RunOutcome pyval :=
  match sample_run with
  | Some out => out
  | None =>
      {| files_after := no_files pyval; logged := [];
         connected := false; requests_sent := [];
         fetched := []; saved_as := ""; run_raised := None; run_console := [] |}
  end.

(* ================================================================== *)
(** * Properties                                                        *)
(* ================================================================== *)

(** ** Strings and lists *)

Lemma str_length_app (a b : string) :
  String.length (a ++ b) = String.length a + String.length b.
Proof.
  induction a as [|c a IH]; simpl; [reflexivity | now rewrite IH].
Qed.

Lemma str_take_length (n : nat) : forall s,
  n <= String.length s -> String.length (str_take n s) = n.
Proof.
  induction n as [|n IH]; intros [|c s] H; simpl in *; try reflexivity; try lia.
  rewrite IH; [reflexivity | lia].
Qed.

Lemma ellipsize_long (n : nat) (s : string) :
  n < String.length s ->
  ellipsize n s = str_take n s ++ "..." /\ String.length (ellipsize n s) = n + 3.
Proof.
  intros H. unfold ellipsize.
  destruct (Nat.ltb_spec n (String.length s)) as [_|Hle]; [|lia].
  split; [reflexivity|].
  rewrite str_length_app, str_take_length by lia. reflexivity.
Qed.

Lemma ellipsize_short (n : nat) (s : string) :
  String.length s <= n -> ellipsize n s = s.
Proof.
  intros H. unfold ellipsize.
  destruct (Nat.ltb_spec n (String.length s)); [lia | reflexivity].
Qed.

Lemma In_lastn {A} (n : nat) (x : A) (l : list A) : In x (lastn n l) -> In x l.
Proof.
  unfold lastn. intros H.
  rewrite <- (firstn_skipn (List.length l - n) l). apply in_or_app. now right.
Qed.

Lemma forallb_lastn {A} (ok : A -> bool) (n : nat) (l : list A) :
  forallb ok l = true -> forallb ok (lastn n l) = true.
Proof.
  rewrite !forallb_forall. intros H x Hx. apply H. eapply In_lastn; eauto.
Qed.

Lemma lastn_length {A} (n : nat) (l : list A) :
  List.length (lastn n l) = Nat.min n (List.length l).
Proof.
  unfold lastn. rewrite length_skipn. lia.
Qed.

(** [l[-n:]] when the last [n] elements are set apart, and when there are
    no more than [n]. *)
Lemma lastn_kept {A} (n : nat) (l older kept : list A) :
  l = (older ++ kept)%list ->
  List.length kept = n \/ (older = [] /\ List.length kept <= n) ->
  lastn n l = kept.
Proof.
  intros -> [H|[-> H]]; unfold lastn.
  - rewrite length_app, H.
    replace (List.length older + n - n) with (List.length older + 0) by lia.
    rewrite skipn_app, Nat.add_0_r, skipn_all.
    replace (List.length older - List.length older) with 0 by lia. reflexivity.
  - cbn [app]. replace (List.length kept - n) with 0 by lia. reflexivity.
Qed.

Lemma mapM_map {A B} (f : A -> result B) (g : A -> B) (l : list A) :
  (forall x, In x l -> f x = Ok (g x)) -> mapM f l = Ok (map g l).
Proof.
  induction l as [|x l IH]; intros H; simpl; [reflexivity|].
  rewrite (H x) by now left. simpl.
  rewrite IH by (intros y Hy; apply H; now right). reflexivity.
Qed.

(** ** The probes, on records of the right shape *)

Lemma truncate_str (n : nat) (s : string) :
  truncate n (PStr s) = Ok (PStr (ellipsize n s)).
Proof.
  unfold truncate, ellipsize. simpl.
  destruct (Nat.ltb n (String.length s)); reflexivity.
Qed.

Lemma is_str_inv (v : pyval) : is_str v = true -> exists s, v = PStr s.
Proof. destruct v; simpl; try discriminate. eauto. Qed.

Lemma named_inv (sub : string) (v : pyval) :
  named sub v = true -> exists kv, v = PDict kv /\ opt_key sub is_str kv = true.
Proof. destruct v; simpl; try discriminate. eauto. Qed.

Lemma entry_is_str (k default : string) (kv : list (string * pyval)) :
  opt_key k is_str kv = true ->
  exists s, entry k (PStr default) (PDict kv) = PStr s.
Proof.
  unfold opt_key, entry. destruct (lookup k kv) as [v|]; intros H.
  - now apply is_str_inv.
  - eauto.
Qed.

(** [x.get(k, {}).get(sub, default)] on a record whose entry [k] is absent
    or a record. *)
Lemma get_nested_named (kv : list (string * pyval)) (k sub default : string) :
  opt_key k (named sub) kv = true ->
  get_nested (PDict kv) k sub default
  = Ok (entry sub (PStr default) (entry k (PDict []) (PDict kv)))
  /\ exists s, entry sub (PStr default) (entry k (PDict []) (PDict kv)) = PStr s.
Proof.
  unfold opt_key, get_nested. simpl.
  destruct (lookup k kv) as [v|] eqn:E; intros H.
  - apply named_inv in H as (akv & -> & Hs). simpl. split; [reflexivity|].
    now apply entry_is_str.
  - simpl. eauto.
Qed.

(** [a.get('displayName', p) if a else p] on null or a record. *)
Lemma display_name_or_shape (kv : list (string * pyval)) (k placeholder : string) :
  opt_key k (nullable (named "displayName")) kv = true ->
  exists s,
    display_name_or (entry k PNone (PDict kv)) placeholder = Ok (PStr s)
    /\ (lookup k kv = None \/ lookup k kv = Some PNone -> s = placeholder).
Proof.
  unfold opt_key, entry. destruct (lookup k kv) as [v|] eqn:E; intros H.
  - destruct v; simpl in H; try discriminate.
    + exists placeholder. split; [reflexivity | reflexivity].
    + unfold display_name_or. destruct (py_truthy (PDict kv0)) eqn:T.
      * destruct (entry_is_str "displayName" placeholder kv0 H) as [s Hs].
        exists s. simpl. unfold entry in Hs. rewrite Hs.
        split; [reflexivity|]. intros [?|?]; discriminate.
      * exists placeholder. split; [reflexivity|]. reflexivity.
  - exists placeholder. split; reflexivity.
Qed.

Lemma comment_line_shape (c : pyval) :
  comment_ok c = true -> comment_line c = Ok (spec_comment_line c).
Proof.
  destruct c as [| | | | |kv]; simpl; try discriminate.
  intros H. apply andb_prop in H as [Ha Hb].
  unfold comment_line, spec_comment_line, author_name.
  destruct (get_nested_named kv "author" "displayName" "Unknown" Ha) as [-> _].
  cbn [bind].
  destruct (entry_is_str "body" "" kv Hb) as [b Eb].
  change (py_get (PDict kv) "body" (PStr "")) with (Ok (entry "body" (PStr "") (PDict kv))).
  rewrite Eb. cbn [bind]. rewrite truncate_str. reflexivity.
Qed.

Lemma history_item_line_shape (author item : pyval) (h : pyval) :
  item_ok item = true ->
  author = entry "displayName" (PStr "Unknown") (entry "author" (PDict []) h) ->
  history_item_line author item = Ok (spec_history_line h item).
Proof.
  destruct item as [| | | | |kv]; simpl; try discriminate.
  intros _ ->. reflexivity.
Qed.

Lemma history_lines_shape (h : pyval) :
  history_ok h = true -> history_lines h = Ok (spec_history_lines h).
Proof.
  destruct h as [| | | | |kv]; simpl; try discriminate.
  intros H. apply andb_prop in H as [Ha Hi].
  unfold history_lines, spec_history_lines, items_of.
  destruct (get_nested_named kv "author" "displayName" "Unknown" Ha) as [-> _].
  cbn [bind].
  change (py_get (PDict kv) "items" (PList [])) with (Ok (entry "items" (PList []) (PDict kv))).
  cbn [bind].
  assert (Hl : exists l, entry "items" (PList []) (PDict kv) = PList l
                         /\ forallb item_ok l = true).
  { unfold opt_key in Hi. unfold entry.
    destruct (lookup "items" kv) as [v|]; [|exists []; split; reflexivity].
    destruct v as [| | | |l|]; simpl in Hi; try discriminate. eauto. }
  destruct Hl as (l & -> & Hl). cbn [py_iter bind].
  apply mapM_map. intros x Hx.
  apply history_item_line_shape; [|reflexivity].
  rewrite forallb_forall in Hl. now apply Hl.
Qed.

Lemma extract_comments_shape (kv : list (string * pyval)) :
  opt_key "comment" (dict_of (opt_key "comments" (list_of comment_ok))) kv = true ->
  forall ticket, entry "fields" PNone ticket = PDict kv ->
  extract_comments (PDict kv) = Ok (map spec_comment_line (lastn 3 (comments_of ticket))).
Proof.
  intros H ticket Ef. unfold comments_of. rewrite Ef.
  unfold extract_comments, opt_key in *. simpl.
  destruct (lookup "comment" kv) as [cf|]; [|reflexivity].
  destruct cf as [| | | | |ckv]; simpl in H; try discriminate.
  destruct ckv as [|kv0 ckv]; [reflexivity|].
  remember (kv0 :: ckv) as c. simpl.
  replace (match c with [] => false | _ :: _ => true end) with true by now subst c.
  destruct (lookup "comments" c) as [v|]; [|reflexivity].
  destruct v as [| | | |l|]; simpl in H; try discriminate.
  simpl. apply mapM_map. intros x Hx. apply comment_line_shape.
  apply (forallb_lastn _ 3) in H. rewrite forallb_forall in H. now apply H.
Qed.

Lemma concat_map_flat_map {A B} (f : A -> list B) (l : list A) :
  List.concat (map f l) = flat_map f l.
Proof. induction l as [|x l IH]; simpl; [reflexivity | now rewrite IH]. Qed.

Lemma extract_history_shape (kv : list (string * pyval)) :
  opt_key "changelog" (dict_of (opt_key "histories" (list_of history_ok))) kv = true ->
  extract_history (PDict kv)
  = Ok (flat_map spec_history_lines (lastn 2 (histories_of (PDict kv)))).
Proof.
  intros H. unfold histories_of, extract_history, opt_key in *. simpl.
  destruct (lookup "changelog" kv) as [cl|]; [|reflexivity].
  destruct cl as [| | | | |ckv]; simpl in H; try discriminate.
  destruct ckv as [|kv0 ckv]; [reflexivity|].
  remember (kv0 :: ckv) as c. simpl.
  replace (match c with [] => false | _ :: _ => true end) with true by now subst c.
  destruct (lookup "histories" c) as [v|]; [|reflexivity].
  destruct v as [| | | |l|]; simpl in H; try discriminate.
  simpl. rewrite (mapM_map history_lines spec_history_lines).
  - simpl. now rewrite concat_map_flat_map.
  - intros x Hx. apply history_lines_shape.
    apply (forallb_lastn _ 2) in H. rewrite forallb_forall in H. now apply H.
Qed.

Lemma py_get_dict (kv : list (string * pyval)) (k : string) (default : pyval) :
  py_get (PDict kv) k default = Ok (entry k default (PDict kv)).
Proof. reflexivity. Qed.

Lemma date_part_shape (kv : list (string * pyval)) (k : string) :
  opt_key k is_str kv = true ->
  exists s, py_slice_to 10 (entry k (PStr "") (PDict kv)) = Ok (PStr s).
Proof.
  intros H. destruct (entry_is_str k "" kv H) as [s ->]. simpl. eauto.
Qed.

Lemma truncate_description_shape (kv : list (string * pyval)) :
  opt_key "description" (nullable is_str) kv = true ->
  exists d,
    truncate_description (entry "description" (PStr "") (PDict kv)) = Ok d
    /\ (if py_truthy d then py_str d else "No description")
       = match lookup "description" kv with
         | Some (PStr s) => if String.eqb s "" then "No description" else ellipsize 300 s
         | _ => "No description"
         end.
Proof.
  unfold opt_key, entry. destruct (lookup "description" kv) as [v|]; intros H.
  - destruct v as [| | |s| |]; simpl in H; try discriminate.
    + exists PNone. split; reflexivity.
    + unfold truncate_description. destruct (py_truthy (PStr s)) eqn:T.
      * rewrite truncate_str. exists (PStr (ellipsize 300 s)). split; [reflexivity|].
        simpl in T. destruct (String.eqb s "") eqn:E; [discriminate|].
        assert (Hne : ellipsize 300 s <> "").
        { unfold ellipsize. destruct (Nat.ltb 300 (String.length s)).
          - destruct s; [discriminate|]. simpl. discriminate.
          - intros ->. discriminate. }
        simpl. apply String.eqb_neq in Hne. now rewrite Hne.
      * exists (PStr s). split; [reflexivity|]. rewrite T.
        simpl in T. destruct (String.eqb s ""); [reflexivity | discriminate].
  - exists (PStr ""). split; reflexivity.
Qed.

(** The projection of a well-shaped ticket returns, and its parts are the
    ones the rules describe. *)
Lemma project_ticket_shape (ticket : pyval) :
  well_shaped ticket = true ->
  exists p,
    project_ticket ticket = Ok p
    /\ p_description p = spec_description ticket
    /\ p_comments p = map spec_comment_line (lastn 3 (comments_of ticket))
    /\ p_history p = flat_map spec_history_lines (lastn 2 (histories_of ticket))
    /\ (missing_or_null ticket "assignee" -> p_assignee_name p = "Unassigned")
    /\ (missing_or_null ticket "reporter" -> p_reporter_name p = "Unknown").
Proof.
  destruct ticket as [| | | | |kv]; simpl; try discriminate.
  destruct (lookup "key" kv) as [key|] eqn:Ek; [|discriminate].
  destruct key as [| | |key| |]; try discriminate.
  destruct (lookup "fields" kv) as [fields|] eqn:Ef; [|discriminate].
  intros H. apply andb_prop in H as [Hf Hc].
  destruct fields as [| | | | |fkv]; simpl in Hf; try discriminate.
  repeat match type of Hf with _ && _ = true => apply andb_prop in Hf as [Hf ?] end.
  assert (Efields : entry "fields" PNone (PDict kv) = PDict fkv)
    by (unfold entry; now rewrite Ef).
  unfold project_ticket, spec_description, missing_or_null, field_of.
  rewrite Efields. unfold py_getitem. rewrite Ef, Ek. cbn [bind].
  rewrite !py_get_dict. cbn [bind].
  pose proof (get_nested_named fkv "status" "name" "Unknown") as [-> _]; [assumption|].
  cbn [bind].
  pose proof (get_nested_named fkv "priority" "name" "Unknown") as [-> _]; [assumption|].
  cbn [bind].
  pose proof (get_nested_named fkv "issuetype" "name" "Unknown") as [-> _]; [assumption|].
  cbn [bind].
  destruct (display_name_or_shape fkv "assignee" "Unassigned") as (a & -> & Ha); [assumption|].
  cbn [bind].
  destruct (display_name_or_shape fkv "reporter" "Unknown") as (r & -> & Hr); [assumption|].
  cbn [bind].
  destruct (date_part_shape fkv "created") as (c & ->); [assumption|].
  destruct (date_part_shape fkv "updated") as (u & ->); [assumption|].
  cbn [bind].
  destruct (truncate_description_shape fkv) as (d & -> & Hd); [assumption|].
  cbn [bind].
  rewrite (@extract_comments_shape fkv H (PDict kv) Efields).
  cbn [bind].
  rewrite extract_history_shape by assumption.
  cbn [bind].
  eexists. split; [reflexivity|]. cbn [p_description p_comments p_history
    p_assignee_name p_reporter_name py_str].
  repeat split; auto.
Qed.

(** A text is its first [n] characters followed by the others. *)
Lemma str_take_drop (n : nat) : forall s, s = str_take n s ++ str_drop n s.
Proof.
  induction n as [|n IH]; intros [|c s]; simpl; try reflexivity.
  now rewrite <- IH.
Qed.

(** The stored comments of a well-shaped ticket are records with an author
    record and a text body. *)
Lemma well_shaped_comments (ticket : pyval) :
  well_shaped ticket = true -> forallb comment_ok (comments_of ticket) = true.
Proof.
  destruct ticket as [| | | | |kv]; simpl; try discriminate.
  destruct (lookup "key" kv) as [key|]; [|discriminate].
  destruct key as [| | |key| |]; try discriminate.
  unfold comments_of, entry at 3.
  destruct (lookup "fields" kv) as [fields|]; [|discriminate].
  intros H. apply andb_prop in H as [Hf _].
  destruct fields as [| | | | |fkv]; simpl in Hf; try discriminate.
  repeat match type of Hf with _ && _ = true => apply andb_prop in Hf as [Hf ?] end.
  unfold opt_key, entry in *.
  destruct (lookup "comment" fkv) as [cf|]; [|reflexivity].
  destruct cf as [| | | | |ckv]; simpl in *; try discriminate.
  destruct (lookup "comments" ckv) as [v|]; [|reflexivity].
  destruct v as [| | | |l|]; simpl in *; try discriminate. assumption.
Qed.

(** The line of a comment: the body as it is up to 150 characters, its first
    150 characters and the marker beyond. *)
Lemma spec_comment_line_cases (c : pyval) :
  comment_ok c = true ->
  exists b,
    entry "body" (PStr "") c = PStr b
    /\ (String.length b <= 150 ->
        spec_comment_line c = "  " ++ author_name c ++ ": " ++ b)
    /\ (150 < String.length b ->
        exists cut rest,
          b = cut ++ rest
          /\ String.length cut = 150
          /\ spec_comment_line c = "  " ++ author_name c ++ ": " ++ cut ++ "...").
Proof.
  destruct c as [| | | | |kv]; simpl; try discriminate.
  intros H. apply andb_prop in H as [_ Hb].
  destruct (entry_is_str "body" "" kv Hb) as [b Eb].
  exists b. split; [exact Eb|]. unfold spec_comment_line. rewrite Eb. cbn [py_str].
  split.
  - intros Hle. now rewrite ellipsize_short.
  - intros Hlt. exists (str_take 150 b), (str_drop 150 b).
    split; [apply str_take_drop|].
    split; [apply str_take_length; lia|].
    now destruct (ellipsize_long 150 b Hlt) as [-> _].
Qed.

Lemma str_app_assoc (a b c : string) : (a ++ b) ++ c = a ++ b ++ c.
Proof. induction a as [|x a IH]; simpl; [reflexivity | now rewrite IH]. Qed.

(** [a.get('displayName', p) if a else p] on null or a record, exactly. *)
Lemma display_name_or_person (kv : list (string * pyval)) (k placeholder : string) :
  opt_key k (nullable (named "displayName")) kv = true ->
  display_name_or (entry k PNone (PDict kv)) placeholder
  = Ok (PStr (match lookup k kv with
              | Some (PDict (e :: akv)) =>
                  py_str (entry "displayName" (PStr placeholder) (PDict (e :: akv)))
              | _ => placeholder
              end)).
Proof.
  unfold opt_key, entry. destruct (lookup k kv) as [v|]; intros H; [|reflexivity].
  destruct v as [| | | | |akv]; simpl in H; try discriminate; [reflexivity|].
  destruct akv as [|e akv]; [reflexivity|].
  destruct (entry_is_str "displayName" placeholder (e :: akv) H) as [s Hs].
  unfold display_name_or. cbn [py_truthy py_get]. unfold entry in Hs.
  rewrite Hs. reflexivity.
Qed.

(** The two persons of the projection of a well-shaped ticket. *)
Lemma project_ticket_people (ticket : pyval) :
  well_shaped ticket = true ->
  exists p,
    project_ticket ticket = Ok p
    /\ p_assignee_name p = person_of ticket "assignee" "Unassigned"
    /\ p_reporter_name p = person_of ticket "reporter" "Unknown".
Proof.
  destruct ticket as [| | | | |kv]; simpl; try discriminate.
  destruct (lookup "key" kv) as [key|] eqn:Ek; [|discriminate].
  destruct key as [| | |key| |]; try discriminate.
  destruct (lookup "fields" kv) as [fields|] eqn:Ef; [|discriminate].
  intros H. apply andb_prop in H as [Hf Hc].
  destruct fields as [| | | | |fkv]; simpl in Hf; try discriminate.
  repeat match type of Hf with _ && _ = true => apply andb_prop in Hf as [Hf ?] end.
  assert (Efields : entry "fields" PNone (PDict kv) = PDict fkv)
    by (unfold entry; now rewrite Ef).
  unfold project_ticket, person_of, field_of.
  rewrite Efields. unfold py_getitem. rewrite Ef, Ek. cbn [bind].
  rewrite !py_get_dict. cbn [bind].
  pose proof (get_nested_named fkv "status" "name" "Unknown") as [-> _]; [assumption|].
  cbn [bind].
  pose proof (get_nested_named fkv "priority" "name" "Unknown") as [-> _]; [assumption|].
  cbn [bind].
  pose proof (get_nested_named fkv "issuetype" "name" "Unknown") as [-> _]; [assumption|].
  cbn [bind].
  rewrite (display_name_or_person fkv "assignee" "Unassigned") by assumption.
  cbn [bind].
  rewrite (display_name_or_person fkv "reporter" "Unknown") by assumption.
  cbn [bind].
  destruct (date_part_shape fkv "created") as (c & ->); [assumption|].
  destruct (date_part_shape fkv "updated") as (u & ->); [assumption|].
  cbn [bind].
  destruct (truncate_description_shape fkv) as (d & -> & Hd); [assumption|].
  cbn [bind].
  rewrite (@extract_comments_shape fkv H (PDict kv) Efields).
  cbn [bind].
  rewrite extract_history_shape by assumption.
  cbn [bind].
  eexists. split; [reflexivity|]. cbn [p_assignee_name p_reporter_name py_str].
  split; reflexivity.
Qed.

(* ------------------------------------------------------------------ *)
(** ** The ticket projection                                            *)
(* ------------------------------------------------------------------ *)

(** C4. In the projection of a ticket of the data model's shape whose
    description is longer than 300 characters, the description is its first
    300 characters followed by the marker "...", 303 characters in all; so
    it is for a description of 500 characters. *)
Theorem description_truncated_to_300 (ticket : pyval) (d : string) :
  well_shaped ticket = true ->
  field_of ticket "description" = Some (PStr d) ->
  300 < String.length d ->
  exists p,
    project_ticket ticket = Ok p
    /\ p_description p = str_take 300 d ++ "..."
    /\ String.length (p_description p) = 303.
Proof.
  intros Hs Hd Hlen.
  destruct (project_ticket_shape ticket Hs) as (p & Hp & Hdesc & _).
  exists p. split; [assumption|].
  unfold spec_description in Hdesc. rewrite Hd in Hdesc.
  destruct (String.eqb_spec d "") as [->|_]; [simpl in Hlen; lia|].
  destruct (ellipsize_long 300 d Hlen) as [E L].
  rewrite Hdesc, <- E. split; [reflexivity | exact L].
Qed.

Lemma description_truncated_to_300_witness :
  exists p,
    project_ticket sample_ticket = Ok p
    /\ p_description p = str_take 300 (str_repeat "d"%char 500) ++ "..."
    /\ String.length (p_description p) = 303.
Proof.
  apply (@description_truncated_to_300 sample_ticket (str_repeat "d"%char 500)).
  - reflexivity.
  - reflexivity.
  - vm_compute. lia.
Defined.

(** C5. In the projection of a ticket of the data model's shape, the history
    lines come from the last 2 history entries only: whatever entries come
    before the last two give no line, and when there are two entries or
    fewer all are kept.  The kept entries are taken in stored order, and
    each field-change item of a kept entry gives exactly one line: two
    spaces of indentation, then
    [<author>: <field> changed from '<old>' to '<new>']. *)
Theorem history_last_two_entries (ticket : pyval) :
  well_shaped ticket = true ->
  exists p,
    project_ticket ticket = Ok p
    /\ forall older kept,
         histories_of ticket = (older ++ kept)%list ->
         List.length kept = 2 \/ (older = [] /\ List.length kept <= 2) ->
         p_history p
         = flat_map
             (fun h =>
                map (fun item =>
                       "  " ++ author_name h ++ ": "
                         ++ py_str (entry "field" (PStr "") item)
                         ++ " changed from '"
                         ++ py_str (entry "fromString" (PStr "") item)
                         ++ "' to '"
                         ++ py_str (entry "toString" (PStr "") item) ++ "'")
                    (items_of h))
             kept
         /\ List.length (p_history p) = List.length (flat_map items_of kept).
Proof.
  intros Hs.
  destruct (project_ticket_shape ticket Hs) as (p & Hp & _ & _ & Hh & _).
  exists p. split; [assumption|]. intros older kept E Hk.
  rewrite Hh, (lastn_kept 2 _ older kept E Hk). clear.
  split; [reflexivity|].
  unfold spec_history_lines.
  induction kept as [|h hs IH]; simpl; [reflexivity|].
  now rewrite !length_app, length_map, IH.
Qed.

Lemma history_last_two_entries_witness :
  exists p,
    project_ticket sample_ticket = Ok p
    /\ forall older kept,
         histories_of sample_ticket = (older ++ kept)%list ->
         List.length kept = 2 \/ (older = [] /\ List.length kept <= 2) ->
         p_history p
         = flat_map
             (fun h =>
                map (fun item =>
                       "  " ++ author_name h ++ ": "
                         ++ py_str (entry "field" (PStr "") item)
                         ++ " changed from '"
                         ++ py_str (entry "fromString" (PStr "") item)
                         ++ "' to '"
                         ++ py_str (entry "toString" (PStr "") item) ++ "'")
                    (items_of h))
             kept
         /\ List.length (p_history p) = List.length (flat_map items_of kept).
Proof.
  apply (@history_last_two_entries sample_ticket). reflexivity.
Defined.

(** The history lines of the sample ticket: the first of its three entries
    is dropped. *)
Example sample_history_lines :
  exists p,
    project_ticket sample_ticket = Ok p
    /\ p_history p
       = ["  Bob: priority changed from 'Low' to 'High'";
          "  Bob: assignee changed from 'Bob' to 'Cid'";
          "  Cid: assignee changed from 'Cid' to ''"].
Proof. eexists. split; reflexivity. Qed.

(** C8. In the projection of a ticket of the data model's shape, the comment
    lines come from the last 3 stored comments only: whatever comments come
    before the last three give no line, and when there are three comments or
    fewer all are kept.  The kept comments give one line each, in stored
    order: two spaces, the display name of the author, a colon and the
    body, which is cut to its first 150 characters followed by the marker
    "..." when it is longer than 150.  Of five comments the third, fourth
    and fifth are kept. *)
Theorem comments_last_three (ticket : pyval) :
  well_shaped ticket = true ->
  exists p,
    project_ticket ticket = Ok p
    /\ (forall older kept,
          comments_of ticket = (older ++ kept)%list ->
          List.length kept = 3 \/ (older = [] /\ List.length kept <= 3) ->
          Forall2
            (fun c line =>
               exists b,
                 entry "body" (PStr "") c = PStr b
                 /\ (String.length b <= 150 ->
                     line = "  " ++ author_name c ++ ": " ++ b)
                 /\ (150 < String.length b ->
                     exists cut rest,
                       b = cut ++ rest
                       /\ String.length cut = 150
                       /\ line = "  " ++ author_name c ++ ": " ++ cut ++ "..."))
            kept (p_comments p))
    /\ (forall c1 c2 c3 c4 c5,
          comments_of ticket = [c1; c2; c3; c4; c5] ->
          p_comments p
          = [spec_comment_line c3; spec_comment_line c4; spec_comment_line c5]).
Proof.
  intros Hs.
  destruct (project_ticket_shape ticket Hs) as (p & Hp & _ & Hc & _).
  pose proof (well_shaped_comments ticket Hs) as Hok.
  exists p. split; [assumption|]. split.
  - intros older kept E Hk. rewrite Hc, (lastn_kept 3 _ older kept E Hk).
    assert (Hkept : forallb comment_ok kept = true).
    { rewrite E, forallb_app in Hok. now apply andb_prop in Hok as [_ ?]. }
    clear - Hkept. induction kept as [|c kept IH]; cbn [map]; constructor.
    + cbn [forallb] in Hkept. apply andb_prop in Hkept as [Hc _].
      exact (spec_comment_line_cases c Hc).
    + apply IH. cbn [forallb] in Hkept. now apply andb_prop in Hkept as [_ ?].
  - intros c1 c2 c3 c4 c5 E. rewrite Hc, E. reflexivity.
Qed.

Lemma comments_last_three_witness :
  exists p,
    project_ticket sample_ticket = Ok p
    /\ (forall older kept,
          comments_of sample_ticket = (older ++ kept)%list ->
          List.length kept = 3 \/ (older = [] /\ List.length kept <= 3) ->
          Forall2
            (fun c line =>
               exists b,
                 entry "body" (PStr "") c = PStr b
                 /\ (String.length b <= 150 ->
                     line = "  " ++ author_name c ++ ": " ++ b)
                 /\ (150 < String.length b ->
                     exists cut rest,
                       b = cut ++ rest
                       /\ String.length cut = 150
                       /\ line = "  " ++ author_name c ++ ": " ++ cut ++ "..."))
            kept (p_comments p))
    /\ (forall c1 c2 c3 c4 c5,
          comments_of sample_ticket = [c1; c2; c3; c4; c5] ->
          p_comments p
          = [spec_comment_line c3; spec_comment_line c4; spec_comment_line c5]).
Proof.
  apply (@comments_last_three sample_ticket). reflexivity.
Defined.

(** The comment lines of the sample ticket. *)
Example sample_comment_lines :
  exists p,
    project_ticket sample_ticket = Ok p
    /\ p_comments p
       = ["  Cid: third";
          "  Dee: " ++ str_repeat "x"%char 150 ++ "...";
          "  Eve: fifth"].
Proof. eexists. split; reflexivity. Qed.

(** C6. On tickets of the data model's shape the projection never raises:
    every ticket yields its block, the labelled lines of the template filled
    with the projected values and closed by the separator line, and the
    whole list yields the blocks joined by line ends.  An assignee, a
    reporter or a description that is missing or null is rendered as
    "Unassigned", "Unknown" and "No description": the block then has the
    line [Assignee: Unassigned], [Reporter: Unknown] or
    [Description: No description]. *)
Theorem projection_total_with_placeholders (ts : list pyval) :
  forallb well_shaped ts = true ->
  exists blocks,
    prepare_ticket_data_for_analysis (PList ts) = Ok (String.concat nl blocks)
    /\ Forall2
         (fun t block =>
            exists p,
              project_ticket t = Ok p
              /\ ticket_summary t = Ok block
              /\ block
                 = nl ++ "Ticket: " ++ p_key p ++ nl
                      ++ "Title: " ++ p_summary p ++ nl
                      ++ "Type: " ++ p_issue_type p ++ nl
                      ++ "Status: " ++ p_status p ++ nl
                      ++ "Priority: " ++ p_priority p ++ nl
                      ++ "Assignee: " ++ p_assignee_name p ++ nl
                      ++ "Reporter: " ++ p_reporter_name p ++ nl
                      ++ "Created: " ++ p_created p ++ nl
                      ++ "Updated: " ++ p_updated p ++ nl
                      ++ "Description: " ++ p_description p ++ nl
                      ++ "Recent Comments:" ++ nl
                      ++ match p_comments p with
                         | [] => "No comments"
                         | lines => String.concat nl lines
                         end ++ nl
                      ++ "Recent History:" ++ nl
                      ++ match p_history p with
                         | [] => "No recent changes"
                         | lines => String.concat nl lines
                         end ++ nl
                      ++ "---" ++ nl
              /\ p_assignee_name p = person_of t "assignee" "Unassigned"
              /\ p_reporter_name p = person_of t "reporter" "Unknown"
              /\ (missing_or_null t "assignee" ->
                  p_assignee_name p = "Unassigned"
                  /\ has_line "Assignee: Unassigned" block)
              /\ (missing_or_null t "reporter" ->
                  p_reporter_name p = "Unknown"
                  /\ has_line "Reporter: Unknown" block)
              /\ (missing_or_null t "description" ->
                  p_description p = "No description"
                  /\ has_line "Description: No description" block))
         ts blocks.
Proof.
  intros Hall. unfold prepare_ticket_data_for_analysis. cbn [py_iter bind].
  assert (Hm : exists blocks,
             mapM ticket_summary ts = Ok blocks
             /\ Forall2
                  (fun t block =>
                     exists p,
                       project_ticket t = Ok p
                       /\ ticket_summary t = Ok block
                       /\ block
                          = nl ++ "Ticket: " ++ p_key p ++ nl
                               ++ "Title: " ++ p_summary p ++ nl
                               ++ "Type: " ++ p_issue_type p ++ nl
                               ++ "Status: " ++ p_status p ++ nl
                               ++ "Priority: " ++ p_priority p ++ nl
                               ++ "Assignee: " ++ p_assignee_name p ++ nl
                               ++ "Reporter: " ++ p_reporter_name p ++ nl
                               ++ "Created: " ++ p_created p ++ nl
                               ++ "Updated: " ++ p_updated p ++ nl
                               ++ "Description: " ++ p_description p ++ nl
                               ++ "Recent Comments:" ++ nl
                               ++ match p_comments p with
                                  | [] => "No comments"
                                  | lines => String.concat nl lines
                                  end ++ nl
                               ++ "Recent History:" ++ nl
                               ++ match p_history p with
                                  | [] => "No recent changes"
                                  | lines => String.concat nl lines
                                  end ++ nl
                               ++ "---" ++ nl
                       /\ p_assignee_name p = person_of t "assignee" "Unassigned"
                       /\ p_reporter_name p = person_of t "reporter" "Unknown"
                       /\ (missing_or_null t "assignee" ->
                           p_assignee_name p = "Unassigned"
                           /\ has_line "Assignee: Unassigned" block)
                       /\ (missing_or_null t "reporter" ->
                           p_reporter_name p = "Unknown"
                           /\ has_line "Reporter: Unknown" block)
                       /\ (missing_or_null t "description" ->
                           p_description p = "No description"
                           /\ has_line "Description: No description" block))
                  ts blocks).
  { induction ts as [|t ts IH]; cbn [mapM forallb] in *.
    - exists []. split; [reflexivity | constructor].
    - apply andb_prop in Hall as [Ht Hts].
      destruct (project_ticket_shape t Ht) as (p & Hp & Hd & _ & _ & Ha & Hr).
      destruct (project_ticket_people t Ht) as (p' & Hp' & Ea & Er).
      rewrite Hp in Hp'. injection Hp' as <-.
      destruct (IH Hts) as (blocks & -> & Hblocks).
      unfold ticket_summary at 1. rewrite Hp. cbn [bind].
      eexists. split; [reflexivity|]. constructor; [|exact Hblocks].
      exists p. split; [exact Hp|].
      split; [unfold ticket_summary; now rewrite Hp|].
      split; [unfold render, p_comments_text, p_history_text, join_or;
              destruct (p_comments p), (p_history p); reflexivity|].
      split; [exact Ea|]. split; [exact Er|].
      unfold render, p_comments_text, p_history_text, join_or, has_line.
      split; [|split].
      + intros Hm. split; [now apply Ha|]. rewrite (Ha Hm).
        exists (nl ++ "Ticket: " ++ p_key p ++ nl
                   ++ "Title: " ++ p_summary p ++ nl
                   ++ "Type: " ++ p_issue_type p ++ nl
                   ++ "Status: " ++ p_status p ++ nl
                   ++ "Priority: " ++ p_priority p).
        eexists. rewrite !str_app_assoc. reflexivity.
      + intros Hm. split; [now apply Hr|]. rewrite (Hr Hm).
        exists (nl ++ "Ticket: " ++ p_key p ++ nl
                   ++ "Title: " ++ p_summary p ++ nl
                   ++ "Type: " ++ p_issue_type p ++ nl
                   ++ "Status: " ++ p_status p ++ nl
                   ++ "Priority: " ++ p_priority p ++ nl
                   ++ "Assignee: " ++ p_assignee_name p).
        eexists. rewrite !str_app_assoc. reflexivity.
      + intros Hm.
        assert (Ed : p_description p = "No description")
          by (rewrite Hd; unfold spec_description;
              destruct Hm as [E|E]; now rewrite E).
        split; [exact Ed|]. rewrite Ed.
        exists (nl ++ "Ticket: " ++ p_key p ++ nl
                   ++ "Title: " ++ p_summary p ++ nl
                   ++ "Type: " ++ p_issue_type p ++ nl
                   ++ "Status: " ++ p_status p ++ nl
                   ++ "Priority: " ++ p_priority p ++ nl
                   ++ "Assignee: " ++ p_assignee_name p ++ nl
                   ++ "Reporter: " ++ p_reporter_name p ++ nl
                   ++ "Created: " ++ p_created p ++ nl
                   ++ "Updated: " ++ p_updated p).
        eexists. rewrite !str_app_assoc. reflexivity. }
  destruct Hm as (blocks & -> & Hblocks). cbn [bind].
  exists blocks. split; [reflexivity | exact Hblocks].
Qed.

Lemma projection_total_with_placeholders_witness :
  exists blocks,
    prepare_ticket_data_for_analysis (PList [sample_ticket; bare_ticket])
    = Ok (String.concat nl blocks)
    /\ Forall2
         (fun t block =>
            exists p,
              project_ticket t = Ok p
              /\ ticket_summary t = Ok block
              /\ block
                 = nl ++ "Ticket: " ++ p_key p ++ nl
                      ++ "Title: " ++ p_summary p ++ nl
                      ++ "Type: " ++ p_issue_type p ++ nl
                      ++ "Status: " ++ p_status p ++ nl
                      ++ "Priority: " ++ p_priority p ++ nl
                      ++ "Assignee: " ++ p_assignee_name p ++ nl
                      ++ "Reporter: " ++ p_reporter_name p ++ nl
                      ++ "Created: " ++ p_created p ++ nl
                      ++ "Updated: " ++ p_updated p ++ nl
                      ++ "Description: " ++ p_description p ++ nl
                      ++ "Recent Comments:" ++ nl
                      ++ match p_comments p with
                         | [] => "No comments"
                         | lines => String.concat nl lines
                         end ++ nl
                      ++ "Recent History:" ++ nl
                      ++ match p_history p with
                         | [] => "No recent changes"
                         | lines => String.concat nl lines
                         end ++ nl
                      ++ "---" ++ nl
              /\ p_assignee_name p = person_of t "assignee" "Unassigned"
              /\ p_reporter_name p = person_of t "reporter" "Unknown"
              /\ (missing_or_null t "assignee" ->
                  p_assignee_name p = "Unassigned"
                  /\ has_line "Assignee: Unassigned" block)
              /\ (missing_or_null t "reporter" ->
                  p_reporter_name p = "Unknown"
                  /\ has_line "Reporter: Unknown" block)
              /\ (missing_or_null t "description" ->
                  p_description p = "No description"
                  /\ has_line "Description: No description" block))
         [sample_ticket; bare_ticket] blocks.
Proof.
  apply (projection_total_with_placeholders [sample_ticket; bare_ticket]).
  reflexivity.
Defined.

(** The sample ticket has a null assignee and no reporter. *)
Example sample_placeholders :
  exists p,
    project_ticket sample_ticket = Ok p
    /\ p_assignee_name p = "Unassigned"
    /\ p_reporter_name p = "Unknown".
Proof. eexists. repeat split; reflexivity. Qed.

(** Outside the shape of the data model the projection can raise: a null
    status has no [get]. *)
Example null_status_raises :
  project_ticket null_status_ticket = Raise AttributeError.
Proof. reflexivity. Qed.

(* ------------------------------------------------------------------ *)
(** ** The paginated fetch loop                                         *)
(* ------------------------------------------------------------------ *)

Lemma firstn_add {A} (a b : nat) : forall l : list A,
  firstn (a + b) l = (firstn a l ++ firstn b (skipn a l))%list.
Proof.
  induction a as [|a IH]; intros [|x l]; simpl;
    try reflexivity; try (now rewrite firstn_nil).
  now rewrite IH.
Qed.

Lemma at_round_init (db : list pyval) : at_round db 0 fetch_init.
Proof. repeat split. Qed.

Lemma page_at_round (db : list pyval) (k : nat) (st : FetchState) :
  at_round db k st ->
  page db (next_request st) = firstn 100 (skipn (100 * k) db)
  /\ next_request st = page_request k.
Proof.
  intros (_ & Hs & _). unfold page, next_request, page_request. cbn [startAt maxResults].
  rewrite Hs, Nat2Z.id. split; reflexivity.
Qed.

(** A round against the simulated server, where tickets are left to fetch. *)
Lemma iteration_simulated (db : list pyval) (cap : option Z) (k : nat) (st : FetchState) :
  at_round db k st ->
  100 * k < List.length db ->
  let all := firstn (100 * S k) db in
  let total := Z.of_nat (List.length db) in
  let sent := (issued st ++ [page_request k])%list in
  let out := (console st ++ [MsgProgress (List.length all) total])%list in
  iteration (simulated_server db) cap st
  = if cap_reached cap (List.length all) then
      Break {| all_tickets := slice_to (match cap with Some c => c | None => 0%Z end) all;
               start_at := start_at st; total_available := Some total;
               issued := sent; console := out |}
    else if (total <=? Z.of_nat (List.length all))%Z then
      Break {| all_tickets := all; start_at := start_at st;
               total_available := Some total; issued := sent; console := out |}
    else
      Continue {| all_tickets := all; start_at := (start_at st + batch_size)%Z;
                  total_available := Some total; issued := sent; console := out |}.
Proof.
  intros Hr Hlt. destruct (page_at_round db k st Hr) as [Hp Hq].
  destruct Hr as (Ha & Hs & Hi).
  unfold iteration, simulated_server. fold (next_request st).
  rewrite Hp, Hq. cbn [Z.eqb negb Pos.eqb].
  assert (Hall : (all_tickets st ++ firstn 100 (skipn (100 * k) db))%list
                 = firstn (100 * S k) db).
  { rewrite Ha. replace (100 * S k) with (100 * k + 100) by lia.
    now rewrite firstn_add. }
  destruct (firstn 100 (skipn (100 * k) db)) as [|x xs] eqn:E.
  - exfalso. apply (f_equal (@List.length pyval)) in E.
    rewrite length_firstn, length_skipn in E. cbn [List.length] in E. lia.
  - rewrite Hall. reflexivity.
Qed.

(** The first round against a simulated server that has no ticket. *)
Lemma iteration_simulated_empty (cap : option Z) (st : FetchState) :
  iteration (simulated_server []) cap st
  = Break {| all_tickets := all_tickets st; start_at := start_at st;
             total_available := Some 0%Z;
             issued := (issued st ++ [next_request st])%list;
             console := console st |}.
Proof.
  unfold iteration, simulated_server, page. rewrite skipn_nil, firstn_nil.
  reflexivity.
Qed.

Lemma at_round_next (db : list pyval) (k : nat) (st : FetchState) (t : option Z)
    (out : list FetchMsg) :
  at_round db k st ->
  at_round db (S k)
    {| all_tickets := firstn (100 * S k) db; start_at := (start_at st + batch_size)%Z;
       total_available := t; issued := (issued st ++ [page_request k])%list;
       console := out |}.
Proof.
  intros (_ & Hs & Hi). repeat split; cbn [all_tickets start_at issued].
  - rewrite Hs. unfold batch_size. lia.
  - rewrite Hi, seq_S, map_app. reflexivity.
Qed.

Lemma capped_nil (cap : option Z) : capped cap [] = [].
Proof.
  destruct cap as [c|]; simpl; [|reflexivity].
  destruct (c =? 0)%Z; [reflexivity | apply firstn_nil].
Qed.

(** Against the simulated server the loop ends, with the tickets the cap
    leaves, once the fuel covers the pages that remain. *)
Lemma fetch_loop_simulated (db : list pyval) (cap : option Z) :
  (forall c, cap = Some c -> (0 <= c)%Z) ->
  forall fuel k st,
    at_round db k st ->
    100 * k < List.length db \/ k = 0 ->
    (forall c, cap = Some c -> c <> 0%Z -> (Z.of_nat (100 * k) < c)%Z) ->
    List.length db < 100 * (k + fuel) ->
    exists st',
      fetch_loop fuel (simulated_server db) cap st = Some (Break st')
      /\ all_tickets st' = capped cap db
      /\ total_available st' = Some (Z.of_nat (List.length db)).
Proof.
  intros Hcap fuel. induction fuel as [|fuel IH]; intros k st Hr Hk Hc Hfuel.
  - exfalso. destruct Hk as [Hk | ->]; lia.
  - cbn [fetch_loop].
    destruct (Nat.eq_dec (List.length db) 0) as [Hz|Hnz].
    + assert (Hdb : db = []) by now apply length_zero_iff_nil.
      assert (k = 0) as -> by (destruct Hk; [lia | assumption]).
      subst db. rewrite iteration_simulated_empty.
      eexists. split; [reflexivity|]. cbn [all_tickets total_available].
      destruct Hr as (-> & _). rewrite firstn_nil, capped_nil. split; reflexivity.
    + assert (Hlt : 100 * k < List.length db) by (destruct Hk; [assumption | subst k; lia]).
      rewrite (iteration_simulated db cap k st Hr Hlt).
      pose proof (length_firstn (100 * S k) db) as Hlen.
      destruct (cap_reached cap (List.length (firstn (100 * S k) db))) eqn:Ecap.
      * eexists. split; [reflexivity|]. cbn [all_tickets total_available].
        split; [|reflexivity].
        unfold cap_reached in Ecap. destruct cap as [c|]; [|discriminate].
        apply andb_prop in Ecap as [Enz Ele].
        apply Z.leb_le in Ele. pose proof (Hcap c eq_refl) as Hc0.
        unfold slice_to, capped. destruct (Z.ltb_spec c 0) as [?|_]; [lia|].
        destruct (c =? 0)%Z; [discriminate|].
        rewrite firstn_firstn. f_equal. lia.
      * destruct (Z.leb_spec (Z.of_nat (List.length db))
                    (Z.of_nat (List.length (firstn (100 * S k) db)))) as [Hle|Hgt].
        -- eexists. split; [reflexivity|]. cbn [all_tickets total_available].
           split; [|reflexivity].
           assert (Hall : firstn (100 * S k) db = db) by (apply firstn_all2; lia).
           rewrite Hall in *. unfold capped, cap_reached in *.
           destruct cap as [c|]; [|reflexivity].
           destruct (Z.eqb_spec c 0) as [_|Hne]; [reflexivity|].
           cbn [negb andb] in Ecap. apply Z.leb_gt in Ecap.
           symmetry. apply firstn_all2. lia.
        -- destruct (IH (S k) _ (at_round_next db k st
                      (Some (Z.of_nat (List.length db)))
                      (console st ++ [MsgProgress (List.length (firstn (100 * S k) db))
                                        (Z.of_nat (List.length db))])%list Hr))
             as (st' & Hloop & Hres).
           ++ left. lia.
           ++ intros c -> Hne. unfold cap_reached in Ecap.
              destruct (Z.eqb_spec c 0) as [?|_]; [contradiction|].
              cbn [negb andb] in Ecap. apply Z.leb_gt in Ecap. lia.
           ++ lia.
           ++ exists st'. split; [exact Hloop | exact Hres].
Qed.

(** [fetch_tickets] against the simulated server, with fuel for every
    page. *)
Lemma fetch_tickets_simulated (db : list pyval) (cap : option Z) (fuel : nat) :
  (forall c, cap = Some c -> (0 <= c)%Z) ->
  List.length db / 100 < fuel ->
  exists st,
    fetch_tickets fuel (simulated_server db) cap = Some (capped cap db, st).
Proof.
  intros Hcap Hfuel.
  destruct (fetch_loop_simulated db cap Hcap fuel 0 fetch_init (at_round_init db))
    as (st' & Hloop & Hall & _).
  - now right.
  - intros c -> Hne. specialize (Hcap c eq_refl). simpl. lia.
  - pose proof (Nat.div_mod_eq (List.length db) 100) as D.
    pose proof (Nat.mod_upper_bound (List.length db) 100) as M. lia.
  - unfold fetch_tickets. rewrite Hloop. cbn [fetch_finish].
    rewrite Hall. eauto.
Qed.

(** C2. Against the simulated server holding [db], [fetch_tickets] returns:
    with a cap [c > 0] the first [min c T] tickets of [db], [T] being the
    number of tickets; with no cap all of [db].  The order is the server's. *)
Theorem fetch_returns_min_of_cap_and_total (db : list pyval) (cap : option Z)
    (fuel : nat) :
  (forall c, cap = Some c -> (0 < c)%Z) ->
  List.length db / 100 < fuel ->
  exists l st,
    fetch_tickets fuel (simulated_server db) cap = Some (l, st)
    /\ match cap with
       | Some c =>
           l = firstn (Z.to_nat c) db
           /\ Z.of_nat (List.length l) = Z.min c (Z.of_nat (List.length db))
       | None => l = db
       end.
Proof.
  intros Hcap Hfuel.
  destruct (fetch_tickets_simulated db cap fuel) as [st Hst].
  - intros c Hc. specialize (Hcap c Hc). lia.
  - assumption.
  - exists (capped cap db), st. split; [assumption|].
    destruct cap as [c|]; [|reflexivity].
    specialize (Hcap c eq_refl). unfold capped.
    destruct (Z.eqb_spec c 0) as [?|_]; [lia|].
    split; [reflexivity|]. rewrite length_firstn. lia.
Qed.

Lemma fetch_returns_min_of_cap_and_total_witness :
  exists l st,
    fetch_tickets 6 (simulated_server (sample_db 500)) (Some 50%Z) = Some (l, st)
    /\ l = firstn (Z.to_nat 50) (sample_db 500)
    /\ Z.of_nat (List.length l) = Z.min 50 (Z.of_nat (List.length (sample_db 500))).
Proof.
  apply (fetch_returns_min_of_cap_and_total (sample_db 500) (Some 50%Z) 6).
  - intros c E. injection E as <-. lia.
  - vm_compute. lia.
Defined.

(** The scenario of a cap of 50 against 500 tickets: one page request, 50
    tickets, and the console tells that 450 more are available. *)
Example cap_50_of_500 :
  exists st,
    fetch_tickets 6 (simulated_server (sample_db 500)) (Some 50%Z)
    = Some (firstn 50 (sample_db 500), st)
    /\ issued st = [{| startAt := 0; maxResults := 100 |}]
    /\ console st = [MsgProgress 100 500; MsgFetchedTotal 50; MsgMoreAvailable 450].
Proof. eexists. split; [vm_compute; reflexivity | split; reflexivity]. Qed.

(** The loop advances by its own page size: against a server that serves
    pages of 50, half of 200 tickets are never requested. *)
Example short_pages_skip_tickets :
  exists l st,
    fetch_tickets 10 (short_page_server 50 (sample_db 200)) None = Some (l, st)
    /\ List.length l = 100
    /\ issued st = [page_request 0; page_request 1; page_request 2].
Proof. eexists. eexists. split; [vm_compute; reflexivity | split; reflexivity]. Qed.

Lemma cap_not_reached (cap : option Z) (total : Z) (n : nat) :
  no_smaller_cap cap total -> (Z.of_nat n < total)%Z -> cap_reached cap n = false.
Proof.
  unfold no_smaller_cap, cap_reached. destruct cap as [c|]; [|reflexivity].
  intros [->|H] Hn; [reflexivity|].
  destruct (Z.leb_spec c (Z.of_nat n)); [lia | apply andb_false_r].
Qed.

Lemma page_length (db : list pyval) (k : nat) :
  List.length (page db (page_request k)) = Nat.min 100 (List.length db - 100 * k).
Proof.
  unfold page, page_request. cbn [startAt maxResults].
  rewrite Nat2Z.id, length_firstn, length_skipn. reflexivity.
Qed.

(** C7. Against the simulated server holding 250 tickets, and with no cap
    below 250, the loop issues exactly the three page requests at offsets 0,
    100 and 200, which return 100, 100 and 50 tickets, and then ends with
    all 250 tickets. *)
Theorem three_requests_for_250 (db : list pyval) (cap : option Z) (fuel : nat) :
  List.length db = 250 ->
  no_smaller_cap cap 250 ->
  3 <= fuel ->
  exists st,
    fetch_tickets fuel (simulated_server db) cap = Some (db, st)
    /\ issued st = [page_request 0; page_request 1; page_request 2]
    /\ map (fun r => List.length (page db r)) (issued st) = [100; 100; 50].
Proof.
  intros Hlen Hcap Hfuel.
  destruct fuel as [|[|[|fuel]]]; try lia.
  assert (Hl : forall k, List.length (firstn (100 * S k) db) = Nat.min (100 * S k) 250)
    by (intros k; now rewrite length_firstn, Hlen).
  unfold fetch_tickets. cbn [fetch_loop].
  (* first page *)
  rewrite (iteration_simulated db cap 0 fetch_init (at_round_init db)) by lia.
  rewrite Hl, Hlen.
  rewrite (cap_not_reached cap 250 _ Hcap) by lia.
  destruct (Z.leb_spec (Z.of_nat 250) (Z.of_nat (Nat.min (100 * 1) 250))) as [?|_]; [lia|].
  (* second page *)
  match goal with |- context [iteration _ _ ?s] =>
    assert (H1 : at_round db 1 s)
      by (pose proof (at_round_next db 0 fetch_init (total_available s) (console s)
                        (at_round_init db)) as R; exact R)
  end.
  rewrite (iteration_simulated db cap 1 _ H1) by lia.
  rewrite Hl, Hlen.
  rewrite (cap_not_reached cap 250 _ Hcap) by lia.
  destruct (Z.leb_spec (Z.of_nat 250) (Z.of_nat (Nat.min (100 * 2) 250))) as [?|_]; [lia|].
  (* third page *)
  match goal with |- context [iteration _ _ ?s] =>
    assert (H2 : at_round db 2 s)
      by (pose proof (at_round_next db 1 _ (total_available s) (console s) H1) as R;
          exact R)
  end.
  rewrite (iteration_simulated db cap 2 _ H2) by lia.
  rewrite Hl, Hlen.
  assert (Hall : firstn (100 * 3) db = db) by (apply firstn_all2; lia).
  rewrite Hall.
  assert (Hpages : map (fun r => List.length (page db r))
                     [page_request 0; page_request 1; page_request 2] = [100; 100; 50]).
  { cbn [map]. rewrite !page_length, Hlen. reflexivity. }
  destruct (cap_reached cap (Nat.min (100 * 3) 250)) eqn:Ecap.
  - eexists. cbn [fetch_finish all_tickets issued]. split; [|split].
    + f_equal. f_equal.
      unfold cap_reached in Ecap. destruct cap as [c|]; [|discriminate].
      apply andb_prop in Ecap as [Enz Ele]. apply Z.leb_le in Ele.
      destruct Hcap as [->|Hc]; [discriminate|].
      unfold slice_to. destruct (Z.ltb_spec c 0); [lia|].
      apply firstn_all2. lia.
    + reflexivity.
    + exact Hpages.
  - destruct (Z.leb_spec (Z.of_nat 250) (Z.of_nat (Nat.min (100 * 3) 250))) as [_|?]; [|lia].
    eexists. cbn [fetch_finish all_tickets issued]. split; [|split].
    + reflexivity.
    + reflexivity.
    + exact Hpages.
Qed.

Lemma three_requests_for_250_witness :
  exists st,
    fetch_tickets 3 (simulated_server (sample_db 250)) None = Some (sample_db 250, st)
    /\ issued st = [page_request 0; page_request 1; page_request 2]
    /\ map (fun r => List.length (page (sample_db 250) r)) (issued st) = [100; 100; 50].
Proof.
  apply (three_requests_for_250 (sample_db 250) None 3).
  - vm_compute. reflexivity.
  - exact I.
  - lia.
Defined.

(** A round that goes on has stored a total above the tickets it holds. *)
Lemma iteration_continue_total (server : Server) (cap : option Z) (st st' : FetchState) :
  iteration server cap st = Continue st' ->
  exists t,
    total_available st' = Some t
    /\ (Z.of_nat (List.length (all_tickets st')) < t)%Z.
Proof.
  unfold iteration.
  destruct (server (List.length (issued st)) _) as [|code body]; [discriminate|].
  destruct (negb (code =? 200)%Z); [discriminate|].
  destruct body as [|issues total]; [discriminate|].
  destruct (match issues with Some l => l | None => [] end) as [|x xs]; [discriminate|].
  destruct (cap_reached cap _); [discriminate|].
  match goal with |- context [(?t <=? ?n)%Z] => destruct (Z.leb_spec t n) as [?|Hlt] end;
    [discriminate|].
  intros E. injection E as <-. cbn [total_available all_tickets]. eauto.
Qed.

Lemma after_rounds_total (server : Server) (cap : option Z) (n : nat) :
  forall st0 st,
    after_rounds (S n) server cap st0 = Some st ->
    exists t,
      total_available st = Some t
      /\ (Z.of_nat (List.length (all_tickets st)) < t)%Z.
Proof.
  induction n as [|n IH]; intros st0 st H; cbn [after_rounds] in H;
    destruct (iteration server cap st0) as [st1| |] eqn:E; try discriminate.
  - injection H as <-. eapply iteration_continue_total; eauto.
  - apply (IH st1 st). exact H.
Qed.

Lemma fetch_loop_after_rounds (server : Server) (cap : option Z) (n : nat) :
  forall st0 st fuel,
    after_rounds n server cap st0 = Some st ->
    fetch_loop (n + fuel) server cap st0 = fetch_loop fuel server cap st.
Proof.
  induction n as [|n IH]; intros st0 st fuel H; cbn [after_rounds] in H.
  - now injection H as <-.
  - cbn [Nat.add fetch_loop].
    destruct (iteration server cap st0) as [st1| |]; try discriminate.
    now apply IH.
Qed.

(** A failed page request ends the loop at once, with the state as it was. *)
Lemma iteration_failed (server : Server) (cap : option Z) (st : FetchState) :
  failed (server (List.length (issued st)) (next_request st)) = true ->
  exists st',
    (iteration server cap st = Break st' \/ iteration server cap st = Except st')
    /\ all_tickets st' = all_tickets st
    /\ total_available st' = total_available st
    /\ issued st' = (issued st ++ [next_request st])%list.
Proof.
  unfold iteration, failed. fold (next_request st).
  destruct (server (List.length (issued st)) (next_request st)) as [|code body].
  - intros _. eexists. split; [right; reflexivity|]. repeat split.
  - destruct (negb (code =? 200)%Z).
    + intros _. eexists. split; [left; reflexivity|]. repeat split.
    + destruct body as [|issues total]; [|discriminate].
      intros _. eexists. split; [right; reflexivity|]. repeat split.
Qed.

(** C3. When the page request that follows [n] completed rounds fails
    (transport error, status other than 200, unreadable payload) and tickets
    have been accumulated, the loop ends with that request, [fetch_tickets]
    returns the accumulated tickets, and they are fewer than the total the
    server declared. *)
Theorem failed_page_returns_accumulated (server : Server) (cap : option Z)
    (n fuel : nat) (st : FetchState) :
  after_rounds n server cap fetch_init = Some st ->
  all_tickets st <> [] ->
  failed (server (List.length (issued st)) (next_request st)) = true ->
  n < fuel ->
  exists st',
    fetch_tickets fuel server cap = Some (all_tickets st, st')
    /\ issued st' = (issued st ++ [next_request st])%list
    /\ exists t,
         total_available st' = Some t
         /\ (Z.of_nat (List.length (all_tickets st)) < t)%Z.
Proof.
  intros Hrounds Hacc Hfail Hfuel.
  assert (Htotal : exists t, total_available st = Some t
                     /\ (Z.of_nat (List.length (all_tickets st)) < t)%Z).
  { destruct n as [|n].
    - cbn [after_rounds] in Hrounds. injection Hrounds as <-. now elim Hacc.
    - eapply after_rounds_total; eauto. }
  destruct Htotal as (t & Ht & Hlt).
  destruct (iteration_failed server cap st Hfail) as (st1 & Hit & Ha & Htot & Hiss).
  unfold fetch_tickets.
  replace fuel with (n + S (fuel - S n)) by lia.
  rewrite (fetch_loop_after_rounds server cap n fetch_init st _ Hrounds).
  cbn [fetch_loop].
  destruct Hit as [-> | ->]; cbn [fetch_finish].
  - eexists. split; [rewrite Ha; reflexivity|]. cbn [issued total_available].
    split; [assumption|]. exists t. rewrite Htot. now split.
  - assert (Hsame : match all_tickets st1 with [] => [] | l => l end = all_tickets st)
      by (rewrite Ha; destruct (all_tickets st); reflexivity).
    rewrite Hsame. eexists. split; [reflexivity|].
    cbn [issued total_available]. split; [assumption|].
    exists t. rewrite Htot. now split.
Qed.

Lemma failed_page_returns_accumulated_witness :
  exists st',
    fetch_tickets 2 flaky_server None = Some (all_tickets after_first_page, st')
    /\ issued st' = (issued after_first_page ++ [next_request after_first_page])%list
    /\ exists t,
         total_available st' = Some t
         /\ (Z.of_nat (List.length (all_tickets after_first_page)) < t)%Z.
Proof.
  apply (failed_page_returns_accumulated flaky_server None 1 2 after_first_page).
  - vm_compute. reflexivity.
  - vm_compute. discriminate.
  - vm_compute. reflexivity.
  - lia.
Defined.

(** The flaky server: the 100 tickets of the first page are returned, of
    the 250 declared. *)
Example flaky_fetch :
  exists st,
    fetch_tickets 2 flaky_server None = Some (firstn 100 (sample_db 250), st)
    /\ total_available st = Some 250%Z
    /\ console st = [MsgProgress 100 250; MsgFetchError].
Proof. eexists. split; [vm_compute; reflexivity | split; reflexivity]. Qed.

Lemma iteration_cap_zero (server : Server) (st : FetchState) :
  iteration server (Some 0%Z) st = iteration server None st.
Proof. reflexivity. Qed.

Lemma fetch_loop_cap_zero (server : Server) (fuel : nat) :
  forall st, fetch_loop fuel server (Some 0%Z) st = fetch_loop fuel server None st.
Proof.
  induction fuel as [|fuel IH]; intros st; cbn [fetch_loop]; [reflexivity|].
  rewrite iteration_cap_zero.
  destruct (iteration server None st); try reflexivity. apply IH.
Qed.

(** C10. A cap of 0 is no cap: for every server [fetch_tickets] with a cap
    of 0 does what it does with none, and against the simulated server it
    returns all the tickets. *)
Theorem cap_zero_is_no_cap (server : Server) (fuel : nat) (db : list pyval) :
  fetch_tickets fuel server (Some 0%Z) = fetch_tickets fuel server None
  /\ exists st,
       fetch_tickets (S (List.length db / 100)) (simulated_server db) (Some 0%Z)
       = Some (db, st).
Proof.
  split.
  - unfold fetch_tickets. now rewrite fetch_loop_cap_zero.
  - destruct (fetch_tickets_simulated db (Some 0%Z) (S (List.length db / 100)))
      as [st Hst].
    + intros c E. injection E as <-. lia.
    + lia.
    + exists st. exact Hst.
Qed.

(* ------------------------------------------------------------------ *)
(** ** The snapshot file                                                *)
(* ------------------------------------------------------------------ *)

(** A save that returns a name has written the snapshot under that name. *)
Lemma save_succeeded (Text : Type) (dumps : pyval -> Text) (now : Clock)
    (fs fs' : Files Text) (ts : list pyval) (filename : option string)
    (name : string) (msg : SaveMsg) :
  save_tickets_to_json dumps now fs ts filename = (fs', name, msg) ->
  name <> "" ->
  fs' = write_file fs name (dumps (snapshot now ts)).
Proof.
  unfold save_tickets_to_json. intros H Hname.
  match type of H with
  | match writing ?f ?n with _ => _ end = _ => destruct (writing f n)
  end; injection H as <- <- _; [reflexivity | now elim Hname | now elim Hname].
Qed.

(** Loading a file whose text reads as a snapshot. *)
Lemma load_snapshot (Text : Type) (loads : Text -> option pyval) (fs : Files Text)
    (name : string) (text : Text) (now : Clock) (ts : list pyval) (an : Analyzer) :
  loads text = Some (snapshot now ts) ->
  exists msgs,
    load_ticket_data loads (write_file fs name text) an name
    = (true,
       {| ollama_model := ollama_model an; ticket_data := snapshot now ts;
          tickets := PList ts |},
       msgs).
Proof.
  intros Hjson. unfold load_ticket_data, write_file. cbn [reading].
  rewrite String.eqb_refl, Hjson. eexists. reflexivity.
Qed.

Section RoundTrip.

Variable Text : Type.
Variable dumps : pyval -> Text.
Variable loads : Text -> option pyval.


End RoundTrip.


(** The keys that survive the round trip of three tickets. *)
Example sample_round_trip_keys :
  first_key (PList (sample_db 3)) = Some (PStr "L2-1")
  /\ last_key (PList (sample_db 3)) = Some (PStr "L2-3").
Proof. split; reflexivity. Qed.

(* ------------------------------------------------------------------ *)
(** ** The summary analysis                                             *)
(* ------------------------------------------------------------------ *)

Lemma str_app_nil_r (s : string) : s ++ "" = s.
Proof. induction s as [|c s IH]; simpl; [reflexivity | now rewrite IH]. Qed.

Lemma completion_requests_app (a b : list Event) :
  completion_requests (a ++ b) = (completion_requests a ++ completion_requests b)%list.
Proof. apply filter_app. Qed.

(** Saving an analysis sends nothing to the text-completion service. *)
Lemma save_analysis_no_request (an : Analyzer) (env : Env) (analysis kind : string) :
  completion_requests (save_analysis an env analysis kind) = [].
Proof.
  unfold save_analysis.
  destruct (can_write env _); [|reflexivity].
  destruct (bind (py_get (ticket_data an) "fetch_timestamp" (PStr "Unknown")) _);
    [|reflexivity].
  destruct (py_len (tickets an)); reflexivity.
Qed.

(** The summary analysis of a snapshot with no ticket does send a request
    to the text-completion service. *)
Lemma summary_on_empty_sends_request :
  completion_requests (fst (quick_summary empty_analyzer sample_env)) <> [].
Proof. vm_compute. discriminate. Qed.

(** C1, as the code has it. The summary analysis of a snapshot whose ticket
    list is empty tells the user "No tickets to display" and then issues
    exactly one completion request, whose content is the summary
    instruction alone, followed by no ticket. *)
Theorem summary_on_empty_still_requests (model : string) (data : pyval) (env : Env) :
  let an := {| ollama_model := model; ticket_data := data; tickets := PList [] |} in
  (exists rest,
     fst (quick_summary an env)
     = ([Say MsgGeneratingQuickSummary; Say MsgNoTicketsToDisplay;
         Say (MsgAnalyzing model); Say MsgMayTakeAMoment;
         Chat model prompt_summary] ++ rest)%list)
  /\ completion_requests (fst (quick_summary an env)) = [Chat model prompt_summary]
  /\ snd (quick_summary an env) = Ok tt.
Proof.
  intros an.
  assert (Hq : exists tail,
             quick_summary an env
             = (([Say MsgGeneratingQuickSummary; Say MsgNoTicketsToDisplay;
                  Say (MsgAnalyzing model); Say MsgMayTakeAMoment;
                  Chat model prompt_summary] ++ tail)%list, Ok tt)
             /\ completion_requests tail = []).
  { unfold quick_summary, display_ticket_table, analyze_with_ollama.
    cbn [an tickets ollama_model py_truthy negb prepare_ticket_data_for_analysis
         py_iter bind mapM String.concat].
    change (assoc "summary" prompts) with (Some prompt_summary).
    cbv iota. rewrite str_app_nil_r.
    destruct (ollama_chat env model prompt_summary) as [content|];
      destruct (String.eqb (save_answer env) "y").
    - eexists. split; [cbn [app]; reflexivity|].
      unfold completion_requests. cbn [filter].
      apply save_analysis_no_request.
    - eexists. split; [cbn [app]; reflexivity|]. reflexivity.
    - eexists. split; [cbn [app]; reflexivity|].
      unfold completion_requests. cbn [filter].
      apply save_analysis_no_request.
    - eexists. split; [cbn [app]; reflexivity|]. reflexivity. }
  destruct Hq as (tail & -> & Htail). cbn [fst snd]. split; [eauto|].
  split; [|reflexivity].
  rewrite completion_requests_app, Htail. reflexivity.
Qed.


(* ================================================================== *)
(** * Further properties                                                *)
(* ================================================================== *)

(* ------------------------------------------------------------------ *)
(** ** The fetch loop against any server                                *)
(* ------------------------------------------------------------------ *)

(** What holds before every round and is handed on by a round that goes on
    holds, in the form for stops, when the loop ends. *)
Lemma fetch_loop_rule (server : Server) (cap : option Z)
    (P : nat -> FetchState -> Prop) (Q : nat -> Step -> Prop) :
  (forall k st, P k st ->
     match iteration server cap st with
     | Continue st' => P (S k) st'
     | stop => Q k stop
     end) ->
  forall fuel k st stop,
    P k st ->
    fetch_loop fuel server cap st = Some stop ->
    exists n, k <= n /\ n < k + fuel /\ Q n stop.
Proof.
  intros Hstep fuel. induction fuel as [|fuel IH]; intros k st stop HP Hloop;
    cbn [fetch_loop] in Hloop; [discriminate|].
  specialize (Hstep k st HP).
  destruct (iteration server cap st) as [st'| |] eqn:E.
  - destruct (IH (S k) st' stop Hstep Hloop) as (n & Hle & Hlt & HQ).
    exists n. repeat split; [lia | lia | exact HQ].
  - injection Hloop as <-. exists k. repeat split; [lia | lia | exact Hstep].
  - injection Hloop as <-. exists k. repeat split; [lia | lia | exact Hstep].
Qed.

Lemma pages_received_S (server : Server) (k : nat) :
  pages_received server (S k)
  = (pages_received server k ++ issues_of (server k (page_request k)))%list.
Proof.
  unfold pages_received. rewrite seq_S, flat_map_app. cbn [flat_map Nat.add].
  now rewrite app_nil_r.
Qed.

Lemma slice_to_prefix (m : Z) (l : list pyval) :
  exists rest, l = (slice_to m l ++ rest)%list.
Proof.
  unfold slice_to. destruct (m <? 0)%Z; eexists; symmetry; apply firstn_skipn.
Qed.

(** One round from a paging state: it sends the request of index [k]; if
    it goes on the loop is paging at [k + 1], and if it stops the tickets
    held are a prefix of the pages received. *)
Lemma iteration_paging (server : Server) (cap : option Z) (k : nat) (st : FetchState) :
  paging server k st ->
  match iteration server cap st with
  | Continue st' => paging server (S k) st'
  | stop =>
      issued (step_state stop) = map page_request (seq 0 (S k))
      /\ exists rest,
           pages_received server (S k) = (all_tickets (step_state stop) ++ rest)%list
  end.
Proof.
  intros (Hi & Hs & Ha).
  assert (Hreq : {| startAt := start_at st; maxResults := batch_size |} = page_request k)
    by (unfold page_request; now rewrite Hs).
  assert (Hn : List.length (issued st) = k)
    by (rewrite Hi, length_map, length_seq; reflexivity).
  assert (Hsent : (issued st ++ [page_request k])%list = map page_request (seq 0 (S k)))
    by (rewrite Hi, seq_S, map_app; reflexivity).
  unfold iteration. rewrite Hreq, Hn, pages_received_S.
  destruct (server k (page_request k)) as [|code body] eqn:Er; cbn [issues_of].
  - cbn [step_state issued all_tickets]. split; [exact Hsent|].
    exists []. now rewrite Ha.
  - destruct (Z.eqb_spec code 200) as [->|Hne]; cbn [negb].
    + destruct body as [|issues total].
      * cbn [step_state issued all_tickets]. split; [exact Hsent|].
        exists []. now rewrite Ha.
      * destruct issues as [l|]; cbn [Z.eqb Pos.eqb].
        -- destruct l as [|x l].
           ++ cbn [step_state issued all_tickets]. split; [exact Hsent|].
              exists []. now rewrite Ha.
           ++ destruct (cap_reached cap _).
              ** cbn [step_state issued all_tickets]. split; [exact Hsent|].
                 rewrite <- Ha. apply slice_to_prefix.
              ** destruct (Z.leb _ _).
                 --- cbn [step_state issued all_tickets]. split; [exact Hsent|].
                     exists []. now rewrite Ha, app_nil_r.
                 --- repeat split; cbn [issued start_at all_tickets].
                     +++ exact Hsent.
                     +++ rewrite Hs. unfold batch_size. lia.
                     +++ rewrite pages_received_S, Er, Ha. reflexivity.
        -- cbn [step_state issued all_tickets]. split; [exact Hsent|].
           exists []. now rewrite Ha.
    + apply Z.eqb_neq in Hne.
      destruct body as [|[l|] total]; cbn [step_state issued all_tickets];
        rewrite ?Hne; (split; [exact Hsent|]); exists []; now rewrite Ha.
Qed.

Lemma paging_init (server : Server) : paging server 0 fetch_init.
Proof. repeat split. Qed.

Lemma fetch_finish_keeps (stop : Step) :
  fst (fetch_finish stop) = all_tickets (step_state stop)
  /\ issued (snd (fetch_finish stop)) = issued (step_state stop).
Proof.
  destruct stop as [st|st|st]; cbn [fetch_finish step_state fst snd issued];
    split; try reflexivity.
  now destruct (all_tickets st).
Qed.

Lemma fetch_tickets_paging (server : Server) (cap : option Z) (fuel : nat)
    (l : list pyval) (st : FetchState) :
  fetch_tickets fuel server cap = Some (l, st) ->
  exists n,
    n < fuel
    /\ issued st = map page_request (seq 0 (S n))
    /\ exists rest, pages_received server (S n) = (l ++ rest)%list.
Proof.
  unfold fetch_tickets.
  destruct (fetch_loop fuel server cap fetch_init) as [stop|] eqn:Hloop; [|discriminate].
  intros H. injection H as Hres.
  destruct (fetch_loop_rule server cap (paging server)
              (fun k stop =>
                 issued (step_state stop) = map page_request (seq 0 (S k))
                 /\ exists rest,
                      pages_received server (S k)
                      = (all_tickets (step_state stop) ++ rest)%list)
              (iteration_paging server cap)
              fuel 0 fetch_init stop (paging_init server) Hloop)
    as (n & _ & Hlt & Hiss & rest & Hrest).
  destruct (fetch_finish_keeps stop) as [Hf Hs].
  rewrite Hres in Hf, Hs. cbn [fst snd] in Hf, Hs.
  exists n. split; [lia|]. split; [now rewrite Hs|].
  exists rest. now rewrite Hf.
Qed.

(** X1. Whatever the server answers, the requests of a fetch are the page
    requests of index 0, 1, 2, ...: offsets 0, 100, 200, ... in this order,
    each asking for 100 tickets, at least one and no more than the rounds
    run. *)
Theorem fetch_requests_step_by_100 (server : Server) (cap : option Z) (fuel : nat)
    (l : list pyval) (st : FetchState) :
  fetch_tickets fuel server cap = Some (l, st) ->
  exists n,
    n < fuel
    /\ issued st = map page_request (seq 0 (S n))
    /\ forall i, i <= n ->
         nth_error (issued st) i
         = Some {| startAt := Z.of_nat (100 * i); maxResults := 100 |}.
Proof.
  intros H. destruct (fetch_tickets_paging server cap fuel l st H) as (n & Hn & Hi & _).
  exists n. split; [exact Hn|]. split; [exact Hi|].
  intros i Hle. rewrite Hi. rewrite nth_error_map.
  rewrite nth_error_seq. destruct (Nat.ltb_spec i (S n)); [|lia]. reflexivity.
Qed.

Lemma fetch_requests_step_by_100_witness :
  exists n,
    n < 5
    /\ issued (snd capped_fetch) = map page_request (seq 0 (S n))
    /\ forall i, i <= n ->
         nth_error (issued (snd capped_fetch)) i
         = Some {| startAt := Z.of_nat (100 * i); maxResults := 100 |}.
Proof.
  apply (fetch_requests_step_by_100 (simulated_server (sample_db 250)) (Some 120%Z) 5
           (fst capped_fetch) (snd capped_fetch)).
  vm_compute. reflexivity.
Defined.

(** X2. Whatever the server answers, the tickets a fetch returns are a
    prefix of the pages it received, in the order received: nothing is
    reordered, dropped from the middle or added. *)
Theorem fetch_returns_prefix_of_pages (server : Server) (cap : option Z) (fuel : nat)
    (l : list pyval) (st : FetchState) :
  fetch_tickets fuel server cap = Some (l, st) ->
  exists rest,
    pages_received server (List.length (issued st)) = (l ++ rest)%list.
Proof.
  intros H. destruct (fetch_tickets_paging server cap fuel l st H)
    as (n & _ & Hi & rest & Hrest).
  exists rest. rewrite Hi, length_map, length_seq. exact Hrest.
Qed.

Lemma fetch_returns_prefix_of_pages_witness :
  exists rest,
    pages_received (simulated_server (sample_db 250))
      (List.length (issued (snd capped_fetch)))
    = (fst capped_fetch ++ rest)%list.
Proof.
  apply (fetch_returns_prefix_of_pages (simulated_server (sample_db 250))
           (Some 120%Z) 5 (fst capped_fetch) (snd capped_fetch)).
  vm_compute. reflexivity.
Defined.

Lemma slice_to_length (c : Z) (l : list pyval) :
  (0 < c)%Z -> (Z.of_nat (List.length (slice_to c l)) <= c)%Z.
Proof.
  intros Hc. unfold slice_to. destruct (Z.ltb_spec c 0); [lia|].
  rewrite length_firstn. lia.
Qed.

(** A round under a cap [c > 0]: below the cap before, below the cap after
    if the loop goes on, and at most the cap if it stops. *)
Lemma iteration_under_cap (server : Server) (c : Z) (st : FetchState) :
  (0 < c)%Z ->
  (Z.of_nat (List.length (all_tickets st)) < c)%Z ->
  match iteration server (Some c) st with
  | Continue st' => (Z.of_nat (List.length (all_tickets st')) < c)%Z
  | stop => (Z.of_nat (List.length (all_tickets (step_state stop))) <= c)%Z
  end.
Proof.
  intros Hc Hlt. unfold iteration.
  destruct (server _ _) as [|code body]; cbn [step_state all_tickets]; [lia|].
  destruct (negb (code =? 200)%Z); cbn [step_state all_tickets]; [lia|].
  destruct body as [|issues total]; cbn [step_state all_tickets]; [lia|].
  destruct (match issues with Some l => l | None => [] end) as [|x xs];
    cbn [step_state all_tickets]; [lia|].
  unfold cap_reached.
  destruct (Z.eqb_spec c 0) as [?|_]; [lia|]. cbn [negb andb].
  destruct (Z.leb_spec c (Z.of_nat (List.length (all_tickets st ++ x :: xs)%list)))
    as [Hle|Hgt]; cbn [step_state all_tickets].
  - now apply slice_to_length.
  - destruct (Z.leb _ _); cbn [step_state all_tickets]; lia.
Qed.

(** X3. Whatever the server answers, a fetch with a cap [c > 0] never
    returns more than [c] tickets. *)
Theorem fetch_never_exceeds_cap (server : Server) (c : Z) (fuel : nat)
    (l : list pyval) (st : FetchState) :
  (0 < c)%Z ->
  fetch_tickets fuel server (Some c) = Some (l, st) ->
  (Z.of_nat (List.length l) <= c)%Z.
Proof.
  intros Hc. unfold fetch_tickets.
  destruct (fetch_loop fuel server (Some c) fetch_init) as [stop|] eqn:Hloop;
    [|discriminate].
  intros H. injection H as Hres.
  destruct (fetch_loop_rule server (Some c)
              (fun _ s => (Z.of_nat (List.length (all_tickets s)) < c)%Z)
              (fun _ stop =>
                 (Z.of_nat (List.length (all_tickets (step_state stop))) <= c)%Z)
              (fun _ s Hs => iteration_under_cap server c s Hc Hs)
              fuel 0 fetch_init stop)
    as (_ & _ & _ & Hq); [exact Hc | exact Hloop |].
  destruct (fetch_finish_keeps stop) as [Hf _].
  rewrite Hres in Hf. cbn [fst] in Hf. now rewrite Hf.
Qed.

Lemma fetch_never_exceeds_cap_witness :
  (Z.of_nat (List.length (fst capped_fetch)) <= 120)%Z.
Proof.
  apply (fetch_never_exceeds_cap (simulated_server (sample_db 250)) 120 5
           (fst capped_fetch) (snd capped_fetch)).
  - lia.
  - vm_compute. reflexivity.
Defined.

(** A round that goes on has added a ticket and holds fewer tickets than
    the total the response declared. *)
Lemma iteration_continue_grows (server : Server) (cap : option Z) (st st' : FetchState) :
  iteration server cap st = Continue st' ->
  List.length (all_tickets st) < List.length (all_tickets st')
  /\ exists t,
       declared_total (server (List.length (issued st)) (next_request st)) = Some t
       /\ (Z.of_nat (List.length (all_tickets st')) < t)%Z.
Proof.
  unfold iteration. fold (next_request st).
  destruct (server (List.length (issued st)) (next_request st)) as [|code body];
    [discriminate|].
  cbn [declared_total].
  destruct (Z.eqb_spec code 200) as [->|?]; cbn [negb]; [|discriminate].
  destruct body as [|issues total]; [discriminate|].
  destruct (match issues with Some l => l | None => [] end) as [|x xs]; [discriminate|].
  destruct (cap_reached cap _); [discriminate|].
  match goal with |- context [(?t <=? ?n)%Z] => destruct (Z.leb_spec t n) as [?|Hlt] end;
    [discriminate|].
  intros E. injection E as <-. cbn [all_tickets]. split.
  - rewrite length_app. cbn [List.length]. lia.
  - eauto.
Qed.

Lemma fetch_loop_bounded_total (server : Server) (cap : option Z) (bound : Z) :
  (forall n req t, declared_total (server n req) = Some t -> (t <= bound)%Z) ->
  forall fuel st,
    (bound < Z.of_nat (List.length (all_tickets st)) + Z.of_nat (S fuel))%Z ->
    exists stop, fetch_loop (S fuel) server cap st = Some stop.
Proof.
  intros Hb fuel. induction fuel as [|fuel IH]; intros st Hfuel;
    cbn [fetch_loop]; destruct (iteration server cap st) as [st'| |] eqn:E; eauto.
  - exfalso. destruct (iteration_continue_grows server cap st st' E)
      as (Hg & t & Ht & Hlt).
    specialize (Hb _ _ _ Ht). lia.
  - destruct (iteration_continue_grows server cap st st' E)
      as (Hg & t & Ht & Hlt).
    apply (IH st'). lia.
Qed.

(** X4. The loop ends against every server whose declared totals stay
    below a bound: with any cap, [bound] + 1 rounds are enough for
    [fetch_tickets] to return, whatever else the server answers. *)
Theorem fetch_terminates_under_bounded_total (server : Server) (cap : option Z)
    (bound : Z) :
  (forall n req t, declared_total (server n req) = Some t -> (t <= bound)%Z) ->
  exists l st, fetch_tickets (S (Z.to_nat bound)) server cap = Some (l, st).
Proof.
  intros Hb. unfold fetch_tickets.
  destruct (fetch_loop_bounded_total server cap bound Hb (Z.to_nat bound) fetch_init)
    as [stop ->].
  - cbn [fetch_init all_tickets List.length]. lia.
  - destruct (fetch_finish stop) as [l st]. eauto.
Qed.

Lemma fetch_terminates_under_bounded_total_witness :
  exists l st, fetch_tickets (S (Z.to_nat 250)) flaky_server None = Some (l, st).
Proof.
  apply (fetch_terminates_under_bounded_total flaky_server None 250).
  intros n req t. destruct n as [|n]; cbn [flaky_server].
  - unfold simulated_server. cbn [declared_total Z.eqb Pos.eqb].
    intros E. injection E as <-. vm_compute. discriminate.
  - discriminate.
Defined.

Lemma slice_to_nil (c : Z) : slice_to c [] = [].
Proof. unfold slice_to. destruct (c <? 0)%Z; apply firstn_nil. Qed.

(** X5. A negative cap, which the prompt of [run] accepts, ends the fetch
    with its first request whatever the server answers: what is returned is
    the first page without its last [|c|] tickets. *)
Theorem negative_cap_cuts_first_page (server : Server) (c : Z) (fuel : nat) :
  (c < 0)%Z ->
  let first := issues_of (server 0 (page_request 0)) in
  exists st,
    fetch_tickets (S fuel) server (Some c)
    = Some (firstn (Z.to_nat (Z.of_nat (List.length first) + c)) first, st)
    /\ issued st = [page_request 0].
Proof.
  intros Hc first. subst first.
  assert (Hs : forall l, slice_to c l
                 = firstn (Z.to_nat (Z.of_nat (List.length l) + c)) l).
  { intros l. unfold slice_to. destruct (Z.ltb_spec c 0); [reflexivity | lia]. }
  unfold fetch_tickets. cbn [fetch_loop]. unfold iteration.
  change {| startAt := start_at fetch_init; maxResults := batch_size |}
    with (page_request 0).
  change (List.length (issued fetch_init)) with 0.
  destruct (server 0 (page_request 0)) as [|code body]; cbn [issues_of].
  - eexists. cbn [fetch_finish all_tickets fetch_init]. rewrite firstn_nil.
    split; reflexivity.
  - destruct (Z.eqb_spec code 200) as [->|Hne]; cbn [negb].
    + destruct body as [|[[|x xs]|] total]; cbn [Z.eqb Pos.eqb];
        try (eexists; cbn [fetch_finish all_tickets fetch_init]; rewrite firstn_nil;
             split; reflexivity).
      unfold cap_reached.
      destruct (Z.eqb_spec c 0) as [?|_]; [lia|]. cbn [negb andb].
      destruct (Z.leb_spec c (Z.of_nat (List.length (all_tickets fetch_init ++ x :: xs)%list)))
        as [_|?]; [|lia].
      eexists. cbn [fetch_finish all_tickets fetch_init app]. rewrite Hs.
      split; reflexivity.
    + eexists. cbn [fetch_finish all_tickets fetch_init].
      destruct body as [|[l|] total]; rewrite firstn_nil; split; reflexivity.
Qed.

Lemma negative_cap_cuts_first_page_witness :
  let first := issues_of (simulated_server (sample_db 250) 0 (page_request 0)) in
  exists st,
    fetch_tickets (S 4) (simulated_server (sample_db 250)) (Some (-5)%Z)
    = Some (firstn (Z.to_nat (Z.of_nat (List.length first) + -5)) first, st)
    /\ issued st = [page_request 0].
Proof.
  apply (negative_cap_cuts_first_page (simulated_server (sample_db 250)) (-5) 4).
  lia.
Defined.

(** A cap of -5 against 250 tickets: 95 tickets come back. *)
Example negative_cap_95 :
  exists st,
    fetch_tickets 5 (simulated_server (sample_db 250)) (Some (-5)%Z)
    = Some (firstn 95 (sample_db 250), st).
Proof. eexists. vm_compute. reflexivity. Qed.

(** Against the simulated server the loop stops in the round that first
    covers the tickets to return. *)
Lemma fetch_loop_simulated_requests (db : list pyval) (cap : option Z) :
  (forall c, cap = Some c -> (0 <= c)%Z) ->
  forall fuel k st,
    at_round db k st ->
    100 * k < List.length (capped cap db) \/ k = 0 ->
    List.length db < 100 * (k + fuel) ->
    exists st' n,
      fetch_loop fuel (simulated_server db) cap st = Some (Break st')
      /\ issued st' = map page_request (seq 0 (S n))
      /\ (100 * n < List.length (capped cap db) \/ n = 0)
      /\ List.length (capped cap db) <= 100 * S n.
Proof.
  intros Hcap.
  assert (Hm : List.length (capped cap db) <= List.length db).
  { unfold capped. destruct cap as [c|]; [|lia].
    destruct (c =? 0)%Z; [lia|]. rewrite length_firstn. lia. }
  intros fuel. induction fuel as [|fuel IH]; intros k st Hr Hk Hfuel.
  - exfalso. destruct Hk as [Hk | ->]; lia.
  - cbn [fetch_loop].
    destruct (Nat.eq_dec (List.length db) 0) as [Hz|Hnz].
    + assert (Hdb : db = []) by now apply length_zero_iff_nil.
      assert (k = 0) as -> by (destruct Hk; [lia | assumption]).
      subst db. rewrite iteration_simulated_empty.
      destruct Hr as (_ & Hs & Hi).
      eexists. exists 0. split; [reflexivity|]. cbn [issued].
      split; [|split].
      * rewrite Hi. unfold next_request, page_request. now rewrite Hs.
      * now right.
      * rewrite capped_nil. cbn [List.length]. lia.
    + assert (Hlt : 100 * k < List.length db) by (destruct Hk; [lia | subst k; lia]).
      rewrite (iteration_simulated db cap k st Hr Hlt).
      pose proof (length_firstn (100 * S k) db) as Hlen.
      assert (Hsent : (issued st ++ [page_request k])%list
                      = map page_request (seq 0 (S k))).
      { destruct Hr as (_ & _ & ->). now rewrite seq_S, map_app. }
      destruct (cap_reached cap (List.length (firstn (100 * S k) db))) eqn:Ecap.
      * eexists. exists k. split; [reflexivity|]. cbn [issued].
        split; [exact Hsent|]. split; [exact Hk|].
        unfold cap_reached in Ecap. destruct cap as [c|]; [|discriminate].
        apply andb_prop in Ecap as [Enz Ele]. apply Z.leb_le in Ele.
        unfold capped. destruct (c =? 0)%Z; [discriminate|].
        rewrite length_firstn. lia.
      * destruct (Z.leb_spec (Z.of_nat (List.length db))
                    (Z.of_nat (List.length (firstn (100 * S k) db)))) as [Hle|Hgt].
        -- eexists. exists k. split; [reflexivity|]. cbn [issued].
           split; [exact Hsent|]. split; [exact Hk|]. lia.
        -- assert (Hnext : 100 * S k < List.length (capped cap db)).
           { unfold capped, cap_reached in *. destruct cap as [c|]; [|lia].
             destruct (Z.eqb_spec c 0) as [?|_]; [lia|].
             cbn [negb andb] in Ecap. apply Z.leb_gt in Ecap.
             rewrite length_firstn. lia. }
           destruct (IH (S k) _ (at_round_next db k st
                      (Some (Z.of_nat (List.length db)))
                      (console st ++ [MsgProgress (List.length (firstn (100 * S k) db))
                                        (Z.of_nat (List.length db))])%list Hr))
             as (st' & n & Hloop & Hres).
           ++ left. exact Hnext.
           ++ lia.
           ++ exists st', n. split; [exact Hloop | exact Hres].
Qed.

(** X6. Against the simulated server a fetch sends as many page requests
    as it takes pages of 100 to cover the tickets it returns, and one
    request when there is none to return: with [m] tickets returned,
    [max 1 (ceil (m / 100))] requests. *)
Theorem simulated_fetch_request_count (db : list pyval) (cap : option Z) (fuel : nat) :
  (forall c, cap = Some c -> (0 <= c)%Z) ->
  List.length db / 100 < fuel ->
  exists l st,
    fetch_tickets fuel (simulated_server db) cap = Some (l, st)
    /\ l = capped cap db
    /\ List.length (issued st) = Nat.max 1 ((List.length l + 99) / 100).
Proof.
  intros Hcap Hfuel.
  assert (Hf : List.length db < 100 * (0 + fuel)).
  { pose proof (Nat.div_mod_eq (List.length db) 100) as D.
    pose proof (Nat.mod_upper_bound (List.length db) 100) as M. lia. }
  destruct (fetch_loop_simulated_requests db cap Hcap fuel 0 fetch_init
              (at_round_init db) (or_intror eq_refl) Hf)
    as (st' & n & Hloop & Hiss & Hn & Hm).
  destruct (fetch_loop_simulated db cap Hcap fuel 0 fetch_init (at_round_init db))
    as (st'' & Hloop' & Hall & _).
  - now right.
  - intros c -> Hne. specialize (Hcap c eq_refl). simpl. lia.
  - exact Hf.
  - rewrite Hloop in Hloop'. injection Hloop' as <-.
    unfold fetch_tickets. rewrite Hloop. cbn [fetch_finish].
    eexists. eexists. split; [reflexivity|]. split; [exact Hall|].
    cbn [issued]. rewrite Hiss, length_map, length_seq, Hall.
    set (m := List.length (capped cap db)) in *.
    destruct (Nat.eq_dec m 0) as [Hz|Hnz].
    + rewrite Hz in *. assert (n = 0) as -> by lia. reflexivity.
    + assert (Hlt : 100 * n < m) by (destruct Hn; [assumption | subst n; lia]).
      assert (E : (m + 99) / 100 = S n).
      { symmetry. apply (Nat.div_unique (m + 99) 100 (S n) (m + 99 - 100 * S n)); lia. }
      rewrite E. lia.
Qed.

Lemma simulated_fetch_request_count_witness :
  exists l st,
    fetch_tickets 5 (simulated_server (sample_db 250)) (Some 120%Z) = Some (l, st)
    /\ l = capped (Some 120%Z) (sample_db 250)
    /\ List.length (issued st) = Nat.max 1 ((List.length l + 99) / 100).
Proof.
  apply (simulated_fetch_request_count (sample_db 250) (Some 120%Z) 5).
  - intros c E. injection E as <-. lia.
  - vm_compute. lia.
Defined.

(** X7. Against the simulated server the console ends with the number of
    tickets fetched, followed by the number still available exactly when
    fewer tickets than the server holds were returned. *)
Theorem simulated_fetch_reports_shortfall (db : list pyval) (cap : option Z)
    (fuel : nat) :
  (forall c, cap = Some c -> (0 <= c)%Z) ->
  List.length db / 100 < fuel ->
  exists l st earlier,
    fetch_tickets fuel (simulated_server db) cap = Some (l, st)
    /\ console st
       = (earlier ++ MsgFetchedTotal (List.length l)
            :: (if Nat.ltb (List.length l) (List.length db)
                then [MsgMoreAvailable (Z.of_nat (List.length db - List.length l))]
                else []))%list.
Proof.
  intros Hcap Hfuel.
  destruct (fetch_loop_simulated db cap Hcap fuel 0 fetch_init (at_round_init db))
    as (st' & Hloop & Hall & Htot).
  - now right.
  - intros c -> Hne. specialize (Hcap c eq_refl). simpl. lia.
  - pose proof (Nat.div_mod_eq (List.length db) 100) as D.
    pose proof (Nat.mod_upper_bound (List.length db) 100) as M. lia.
  - unfold fetch_tickets. rewrite Hloop. cbn [fetch_finish].
    eexists. eexists. exists (console st'). split; [reflexivity|].
    cbn [console]. rewrite Htot. f_equal. f_equal.
    destruct (Nat.ltb_spec (List.length (all_tickets st')) (List.length db)) as [Hlt|Hge].
    + destruct (Z.eqb_spec (Z.of_nat (List.length db)) 0) as [?|_]; [lia|].
      destruct (Z.ltb_spec (Z.of_nat (List.length (all_tickets st')))
                  (Z.of_nat (List.length db))) as [_|?]; [|lia].
      cbn [negb andb app]. do 3 f_equal. lia.
    + destruct (Z.ltb_spec (Z.of_nat (List.length (all_tickets st')))
                  (Z.of_nat (List.length db))) as [?|_]; [lia|].
      now rewrite andb_false_r.
Qed.

Lemma simulated_fetch_reports_shortfall_witness :
  exists l st earlier,
    fetch_tickets 6 (simulated_server (sample_db 500)) (Some 50%Z) = Some (l, st)
    /\ console st
       = (earlier ++ MsgFetchedTotal (List.length l)
            :: (if Nat.ltb (List.length l) (List.length (sample_db 500))
                then [MsgMoreAvailable
                        (Z.of_nat (List.length (sample_db 500) - List.length l))]
                else []))%list.
Proof.
  apply (simulated_fetch_reports_shortfall (sample_db 500) (Some 50%Z) 6).
  - intros c E. injection E as <-. lia.
  - vm_compute. lia.
Defined.

(** A round against the overstating server while tickets are left. *)
Lemma iteration_overstating (db : list pyval) (extra k : nat) (st : FetchState) :
  at_round db k st ->
  0 < extra ->
  100 * k < List.length db ->
  iteration (overstating_server db extra) None st
  = Continue {| all_tickets := firstn (100 * S k) db;
                start_at := (start_at st + batch_size)%Z;
                total_available := Some (Z.of_nat (List.length db + extra));
                issued := (issued st ++ [page_request k])%list;
                console :=
                  (console st
                     ++ [MsgProgress (List.length (firstn (100 * S k) db))
                           (Z.of_nat (List.length db + extra))])%list |}.
Proof.
  intros Hr Hx Hlt. destruct (page_at_round db k st Hr) as [Hp Hq].
  destruct Hr as (Ha & Hs & Hi).
  unfold iteration, overstating_server. fold (next_request st).
  rewrite Hp, Hq. cbn [Z.eqb negb Pos.eqb cap_reached].
  assert (Hall : (all_tickets st ++ firstn 100 (skipn (100 * k) db))%list
                 = firstn (100 * S k) db).
  { rewrite Ha. replace (100 * S k) with (100 * k + 100) by lia.
    now rewrite firstn_add. }
  destruct (firstn 100 (skipn (100 * k) db)) as [|x xs] eqn:E.
  - exfalso. apply (f_equal (@List.length pyval)) in E.
    rewrite length_firstn, length_skipn in E. cbn [List.length] in E. lia.
  - rewrite Hall.
    destruct (Z.leb_spec (Z.of_nat (List.length db + extra))
                (Z.of_nat (List.length (firstn (100 * S k) db)))) as [Hle|_];
      [|reflexivity].
    rewrite length_firstn in Hle. lia.
Qed.

(** The round after the last ticket: the page is empty and the loop ends. *)
Lemma iteration_overstating_end (db : list pyval) (extra k : nat) (st : FetchState) :
  at_round db k st ->
  List.length db <= 100 * k ->
  iteration (overstating_server db extra) None st
  = Break {| all_tickets := db; start_at := start_at st;
             total_available := Some (Z.of_nat (List.length db + extra));
             issued := (issued st ++ [page_request k])%list;
             console := console st |}.
Proof.
  intros Hr Hge. destruct (page_at_round db k st Hr) as [Hp Hq].
  destruct Hr as (Ha & Hs & Hi).
  unfold iteration, overstating_server. fold (next_request st).
  rewrite Hp, Hq. cbn [Z.eqb negb Pos.eqb].
  rewrite (skipn_all2 db Hge), firstn_nil.
  rewrite Ha, (firstn_all2 db Hge). reflexivity.
Qed.

Lemma fetch_loop_overstating (db : list pyval) (extra : nat) :
  0 < extra ->
  forall fuel k st,
    at_round db k st ->
    0 < fuel ->
    List.length db + 100 <= 100 * (k + fuel) ->
    exists st' n,
      fetch_loop fuel (overstating_server db extra) None st = Some (Break st')
      /\ all_tickets st' = db
      /\ total_available st' = Some (Z.of_nat (List.length db + extra))
      /\ issued st' = map page_request (seq 0 (S n))
      /\ List.length db <= 100 * n
      /\ page db (page_request n) = [].
Proof.
  intros Hx fuel. induction fuel as [|fuel IH]; intros k st Hr Hpos Hfuel; [lia|].
  cbn [fetch_loop].
  assert (Hsent : (issued st ++ [page_request k])%list = map page_request (seq 0 (S k))).
  { destruct Hr as (_ & _ & ->). now rewrite seq_S, map_app. }
  destruct (Nat.le_gt_cases (List.length db) (100 * k)) as [Hge|Hlt].
  - rewrite (iteration_overstating_end db extra k st Hr Hge).
    eexists. exists k. split; [reflexivity|]. cbn [all_tickets total_available issued].
    repeat split; try assumption.
    unfold page, page_request. cbn [startAt maxResults].
    rewrite Nat2Z.id, (skipn_all2 db Hge). apply firstn_nil.
  - rewrite (iteration_overstating db extra k st Hr Hx Hlt).
    destruct (IH (S k) _ (at_round_next db k st
                (Some (Z.of_nat (List.length db + extra)))
                (console st ++ [MsgProgress (List.length (firstn (100 * S k) db))
                                  (Z.of_nat (List.length db + extra))])%list Hr))
      as (st' & n & Hloop & Hres); [lia | lia |].
    exists st', n. split; [exact Hloop | exact Hres].
Qed.

(** X8. When the server declares more tickets than its pages deliver, a
    fetch with no cap still ends: it goes on until a page comes back
    empty, returns every ticket the server holds, and reports the
    difference as still available. *)
Theorem overstated_total_ends_on_empty_page (db : list pyval) (extra fuel : nat) :
  0 < extra ->
  List.length db / 100 + 1 < fuel ->
  exists st n earlier,
    fetch_tickets fuel (overstating_server db extra) None = Some (db, st)
    /\ issued st = map page_request (seq 0 (S n))
    /\ page db (page_request n) = []
    /\ console st
       = (earlier ++ [MsgFetchedTotal (List.length db);
                      MsgMoreAvailable (Z.of_nat extra)])%list.
Proof.
  intros Hx Hfuel.
  destruct (fetch_loop_overstating db extra Hx fuel 0 fetch_init (at_round_init db))
    as (st' & n & Hloop & Hall & Htot & Hiss & _ & Hpage).
  - lia.
  - pose proof (Nat.div_mod_eq (List.length db) 100) as D.
    pose proof (Nat.mod_upper_bound (List.length db) 100) as M. lia.
  - unfold fetch_tickets. rewrite Hloop. cbn [fetch_finish].
    eexists. exists n, (console st'). rewrite Hall. split; [reflexivity|].
    cbn [issued console]. split; [exact Hiss|]. split; [exact Hpage|].
    rewrite Htot.
    destruct (Z.eqb_spec (Z.of_nat (List.length db + extra)) 0) as [?|_]; [lia|].
    destruct (Z.ltb_spec (Z.of_nat (List.length db))
                (Z.of_nat (List.length db + extra))) as [_|?]; [|lia].
    cbn [negb andb app].
    replace (Z.of_nat (List.length db + extra) - Z.of_nat (List.length db))%Z
      with (Z.of_nat extra) by lia.
    reflexivity.
Qed.

Lemma overstated_total_ends_on_empty_page_witness :
  exists st n earlier,
    fetch_tickets 5 (overstating_server (sample_db 250) 7) None
    = Some (sample_db 250, st)
    /\ issued st = map page_request (seq 0 (S n))
    /\ page (sample_db 250) (page_request n) = []
    /\ console st
       = (earlier ++ [MsgFetchedTotal (List.length (sample_db 250));
                      MsgMoreAvailable (Z.of_nat 7)])%list.
Proof.
  apply (overstated_total_ends_on_empty_page (sample_db 250) 7 5).
  - lia.
  - vm_compute. lia.
Defined.

(* ------------------------------------------------------------------ *)
(** ** Saving and loading snapshots                                     *)
(* ------------------------------------------------------------------ *)

Section Snapshots.

Variable Text : Type.
Variable dumps : pyval -> Text.
Variable loads : Text -> option pyval.


(** X10. What a load that fails leaves behind.  When the file is missing,
    when it cannot be opened or read, or when its text does not parse, the
    analyzer is as it was, and the console line is "File not found", "Error
    loading file" or "Invalid JSON".  When the text parses but the document
    is not usable, the line is "Error loading file" and the analyzer has
    already taken the document as its [ticket_data]; its [tickets] are as
    before when the document is not an object, and are the [tickets] entry
    of the document, a value without a length, when it is one. *)
Theorem failed_load_state (fs : Files Text) (an : Analyzer) (filename : string) :
  forall an' msgs,
    load_ticket_data loads fs an filename = (false, an', msgs) ->
    match reading fs filename with
    | NoSuchFile => an' = an /\ msgs = [MsgFileNotFound]
    | Unreadable => an' = an /\ msgs = [MsgLoadError]
    | Holds text =>
        match loads text with
        | None => an' = an /\ msgs = [MsgInvalidJson]
        | Some data =>
            msgs = [MsgLoadError]
            /\ ollama_model an' = ollama_model an
            /\ ticket_data an' = data
            /\ match data with
               | PDict kv =>
                   tickets an' = entry "tickets" (PList []) data
                   /\ has_len (tickets an') = false
               | _ => tickets an' = tickets an
               end
        end
    end.
Proof.
  intros an' msgs. unfold load_ticket_data.
  destruct (reading fs filename) as [| |text];
    [intros H; injection H as <- <-; split; reflexivity ..|].
  destruct (loads text) as [data|];
    [|intros H; injection H as <- <-; split; reflexivity].
  destruct data as [| | | | |kv]; cbn [py_get];
    try (intros H; injection H as <- <-; repeat split).
  change (match lookup "tickets" kv with Some v => v | None => PList [] end)
    with (entry "tickets" (PList []) (PDict kv)).
  destruct (entry "tickets" (PList []) (PDict kv)) as [| | |x|l|d];
    cbn [py_len]; intros H; try discriminate H;
    injection H as <- <-; repeat split.
Qed.

End Snapshots.


Lemma failed_load_state_witness :
  match reading list_file "list.json" with
  | NoSuchFile => list_loaded = fresh_analyzer /\ [MsgLoadError] = [MsgFileNotFound]
  | Unreadable => list_loaded = fresh_analyzer /\ [MsgLoadError] = [MsgLoadError]
  | Holds text =>
      match Some text with
      | None => list_loaded = fresh_analyzer /\ [MsgLoadError] = [MsgInvalidJson]
      | Some data =>
          [MsgLoadError] = [MsgLoadError]
          /\ ollama_model list_loaded = ollama_model fresh_analyzer
          /\ ticket_data list_loaded = data
          /\ match data with
             | PDict kv =>
                 tickets list_loaded = entry "tickets" (PList []) data
                 /\ has_len (tickets list_loaded) = false
             | _ => tickets list_loaded = tickets fresh_analyzer
             end
      end
  end.
Proof.
  apply (failed_load_state pyval (fun v => Some v) list_file fresh_analyzer
           "list.json" list_loaded [MsgLoadError]).
  reflexivity.
Defined.

(** The file that holds a list, not an object: the load fails, and the
    analyzer holds the list as its [ticket_data]. *)
Example load_of_a_list :
  load_ticket_data (fun v => Some v) list_file fresh_analyzer "list.json"
  = (false, list_loaded, [MsgLoadError])
  /\ ticket_data list_loaded = PList [sample_ticket]
  /\ tickets list_loaded = tickets fresh_analyzer.
Proof. repeat split. Qed.

(* ------------------------------------------------------------------ *)
(** ** More on the ticket projection                                    *)
(* ------------------------------------------------------------------ *)

Lemma str_take_le (n : nat) : forall s, String.length (str_take n s) <= n.
Proof.
  induction n as [|n IH]; intros [|c s]; simpl; try lia.
  specialize (IH s). lia.
Qed.

Lemma ellipsize_le (n : nat) (s : string) : String.length (ellipsize n s) <= n + 3.
Proof.
  unfold ellipsize. destruct (Nat.ltb_spec n (String.length s)).
  - rewrite str_length_app. pose proof (str_take_le n s). simpl. lia.
  - lia.
Qed.

Lemma entry_text (k : string) (kv : list (string * pyval)) :
  opt_key k is_str kv = true ->
  entry k (PStr "") (PDict kv)
  = PStr (match lookup k kv with Some (PStr s) => s | _ => "" end).
Proof.
  unfold opt_key, entry. destruct (lookup k kv) as [v|]; [|reflexivity].
  destruct v; simpl; try discriminate. reflexivity.
Qed.

(** The head of the projection of a well-shaped ticket. *)
Lemma project_ticket_header (ticket : pyval) :
  well_shaped ticket = true ->
  exists p,
    project_ticket ticket = Ok p
    /\ PStr (p_key p) = entry "key" PNone ticket
    /\ p_summary p = text_field ticket "summary"
    /\ p_issue_type p = name_of ticket "issuetype"
    /\ p_status p = name_of ticket "status"
    /\ p_priority p = name_of ticket "priority"
    /\ p_created p = str_take 10 (text_field ticket "created")
    /\ p_updated p = str_take 10 (text_field ticket "updated").
Proof.
  destruct ticket as [| | | | |kv]; simpl; try discriminate.
  destruct (lookup "key" kv) as [key|] eqn:Ek; [|discriminate].
  destruct key as [| | |key| |]; try discriminate.
  destruct (lookup "fields" kv) as [fields|] eqn:Ef; [|discriminate].
  intros H. apply andb_prop in H as [Hf Hc].
  destruct fields as [| | | | |fkv]; simpl in Hf; try discriminate.
  repeat match type of Hf with _ && _ = true => apply andb_prop in Hf as [Hf ?] end.
  assert (Efields : entry "fields" PNone (PDict kv) = PDict fkv)
    by (unfold entry; now rewrite Ef).
  unfold project_ticket, text_field, name_of, field_of.
  rewrite Efields. unfold py_getitem. rewrite Ef, Ek. cbn [bind].
  rewrite !py_get_dict. cbn [bind].
  pose proof (get_nested_named fkv "status" "name" "Unknown") as [-> _]; [assumption|].
  cbn [bind].
  pose proof (get_nested_named fkv "priority" "name" "Unknown") as [-> _]; [assumption|].
  cbn [bind].
  pose proof (get_nested_named fkv "issuetype" "name" "Unknown") as [-> _]; [assumption|].
  cbn [bind].
  destruct (display_name_or_shape fkv "assignee" "Unassigned") as (a & -> & Ha); [assumption|].
  cbn [bind].
  destruct (display_name_or_shape fkv "reporter" "Unknown") as (r & -> & Hr); [assumption|].
  cbn [bind].
  rewrite (entry_text "created" fkv), (entry_text "updated" fkv),
    (entry_text "summary" fkv) by assumption.
  cbn [py_slice_to bind].
  destruct (truncate_description_shape fkv) as (d & -> & Hd); [assumption|].
  cbn [bind].
  rewrite (@extract_comments_shape fkv H (PDict kv) Efields).
  cbn [bind].
  rewrite extract_history_shape by assumption.
  cbn [bind].
  eexists. split; [reflexivity|].
  cbn [p_key p_summary p_issue_type p_status p_priority p_created p_updated py_str].
  repeat split.
Qed.

(** X12. In the projection of a well-shaped ticket the two dates are the
    first 10 characters of the stored timestamps (the date part of an ISO
    timestamp), never longer, and empty when the timestamp is absent. *)
Theorem dates_cut_to_ten (ticket : pyval) :
  well_shaped ticket = true ->
  exists p,
    project_ticket ticket = Ok p
    /\ p_created p = str_take 10 (text_field ticket "created")
    /\ p_updated p = str_take 10 (text_field ticket "updated")
    /\ String.length (p_created p) <= 10
    /\ String.length (p_updated p) <= 10.
Proof.
  intros Hs.
  destruct (project_ticket_header ticket Hs)
    as (p & Hp & _ & _ & _ & _ & _ & Hc & Hu).
  exists p. rewrite Hc, Hu. repeat split; try assumption; apply str_take_le.
Qed.

Lemma dates_cut_to_ten_witness :
  exists p,
    project_ticket sample_ticket = Ok p
    /\ p_created p = str_take 10 (text_field sample_ticket "created")
    /\ p_updated p = str_take 10 (text_field sample_ticket "updated")
    /\ String.length (p_created p) <= 10
    /\ String.length (p_updated p) <= 10.
Proof. apply (dates_cut_to_ten sample_ticket). reflexivity. Defined.

(** The dates of the sample ticket. *)
Example sample_dates :
  exists p,
    project_ticket sample_ticket = Ok p
    /\ p_created p = "2024-06-20" /\ p_updated p = "2024-06-24".
Proof. eexists. repeat split; reflexivity. Qed.

(** X13. In the projection of a well-shaped ticket the key and the summary
    are the stored ones, uncut, and type, status and priority are the
    stored names, "Unknown" standing for an entry or a name that is
    absent. *)
Theorem header_fields_verbatim (ticket : pyval) :
  well_shaped ticket = true ->
  exists p,
    project_ticket ticket = Ok p
    /\ PStr (p_key p) = entry "key" PNone ticket
    /\ p_summary p = text_field ticket "summary"
    /\ p_issue_type p = name_of ticket "issuetype"
    /\ p_status p = name_of ticket "status"
    /\ p_priority p = name_of ticket "priority"
    /\ (forall k, field_of ticket k = None -> name_of ticket k = "Unknown").
Proof.
  intros Hs.
  destruct (project_ticket_header ticket Hs)
    as (p & Hp & Hk & Hsum & Ht & Hst & Hpr & _).
  exists p. repeat split; try assumption.
  intros k. unfold field_of, name_of.
  destruct (entry "fields" PNone ticket) as [| | | | |fkv]; try reflexivity.
  unfold entry at 2. now intros ->.
Qed.

Lemma header_fields_verbatim_witness :
  exists p,
    project_ticket sample_ticket = Ok p
    /\ PStr (p_key p) = entry "key" PNone sample_ticket
    /\ p_summary p = text_field sample_ticket "summary"
    /\ p_issue_type p = name_of sample_ticket "issuetype"
    /\ p_status p = name_of sample_ticket "status"
    /\ p_priority p = name_of sample_ticket "priority"
    /\ (forall k, field_of sample_ticket k = None -> name_of sample_ticket k = "Unknown").
Proof. apply (header_fields_verbatim sample_ticket). reflexivity. Defined.

(** X14. The projected description of a well-shaped ticket is never longer
    than 303 characters, and a description of 1 to 300 characters is kept
    as it is: the cut starts at 301. *)
Theorem description_bounded (ticket : pyval) :
  well_shaped ticket = true ->
  exists p,
    project_ticket ticket = Ok p
    /\ String.length (p_description p) <= 303
    /\ (forall d,
          field_of ticket "description" = Some (PStr d) ->
          1 <= String.length d <= 300 ->
          p_description p = d).
Proof.
  intros Hs.
  destruct (project_ticket_shape ticket Hs) as (p & Hp & Hd & _).
  exists p. split; [assumption|]. rewrite Hd. unfold spec_description. split.
  - destruct (field_of ticket "description") as [[| | |d| |]|]; simpl; try lia.
    destruct (String.eqb d ""); [simpl; lia|]. apply (ellipsize_le 300 d).
  - intros d -> [Hlo Hhi].
    destruct (String.eqb_spec d "") as [->|_]; [simpl in Hlo; lia|].
    now apply ellipsize_short.
Qed.

Lemma description_bounded_witness :
  exists p,
    project_ticket sample_ticket = Ok p
    /\ String.length (p_description p) <= 303
    /\ (forall d,
          field_of sample_ticket "description" = Some (PStr d) ->
          1 <= String.length d <= 300 ->
          p_description p = d).
Proof. apply (description_bounded sample_ticket). reflexivity. Defined.

Lemma spec_comment_line_length (c : pyval) :
  String.length (spec_comment_line c) <= String.length (author_name c) + 157.
Proof.
  unfold spec_comment_line. rewrite !str_length_app.
  pose proof (ellipsize_le 150 (py_str (entry "body" (PStr "") c))). simpl. lia.
Qed.

(** X15. The projection of a well-shaped ticket has at most three comment
    lines, as many as there are comments when these are fewer, and each
    line is at most 157 characters longer than the display name of its
    author. *)
Theorem comment_lines_bounded (ticket : pyval) :
  well_shaped ticket = true ->
  exists p,
    project_ticket ticket = Ok p
    /\ List.length (p_comments p) = Nat.min 3 (List.length (comments_of ticket))
    /\ (forall line, In line (p_comments p) ->
          exists c,
            In c (comments_of ticket)
            /\ line = spec_comment_line c
            /\ String.length line <= String.length (author_name c) + 157).
Proof.
  intros Hs.
  destruct (project_ticket_shape ticket Hs) as (p & Hp & _ & Hc & _).
  exists p. split; [assumption|]. rewrite Hc. split.
  - now rewrite length_map, lastn_length.
  - intros line Hin. apply in_map_iff in Hin as (c & <- & Hin).
    exists c. split; [eapply In_lastn; eauto|]. split; [reflexivity|].
    apply spec_comment_line_length.
Qed.

Lemma comment_lines_bounded_witness :
  exists p,
    project_ticket sample_ticket = Ok p
    /\ List.length (p_comments p) = Nat.min 3 (List.length (comments_of sample_ticket))
    /\ (forall line, In line (p_comments p) ->
          exists c,
            In c (comments_of sample_ticket)
            /\ line = spec_comment_line c
            /\ String.length line <= String.length (author_name c) + 157).
Proof. apply (comment_lines_bounded sample_ticket). reflexivity. Defined.

(** X16. A well-shaped ticket without comments is rendered with the line
    "No comments", and one whose last two history entries hold no item
    with the line "No recent changes". *)
Theorem empty_sections_have_placeholders (ticket : pyval) :
  well_shaped ticket = true ->
  exists p,
    project_ticket ticket = Ok p
    /\ (comments_of ticket = [] -> p_comments_text p = "No comments")
    /\ (flat_map items_of (lastn 2 (histories_of ticket)) = [] ->
        p_history_text p = "No recent changes").
Proof.
  intros Hs.
  destruct (project_ticket_shape ticket Hs) as (p & Hp & _ & Hc & Hh & _).
  exists p. split; [assumption|]. unfold p_comments_text, p_history_text.
  rewrite Hc, Hh. clear Hc Hh. split.
  - intros ->. reflexivity.
  - intros E. unfold spec_history_lines.
    assert (Hnil : flat_map (fun h => map (spec_history_line h) (items_of h))
                     (lastn 2 (histories_of ticket)) = []).
    { induction (lastn 2 (histories_of ticket)) as [|h hs IH]; [reflexivity|].
      cbn [flat_map] in *. apply app_eq_nil in E as [E1 E2].
      rewrite E1, (IH E2). reflexivity. }
    rewrite Hnil. reflexivity.
Qed.

Lemma empty_sections_have_placeholders_witness :
  exists p,
    project_ticket bare_ticket = Ok p
    /\ (comments_of bare_ticket = [] -> p_comments_text p = "No comments")
    /\ (flat_map items_of (lastn 2 (histories_of bare_ticket)) = [] ->
        p_history_text p = "No recent changes").
Proof. apply (empty_sections_have_placeholders bare_ticket). reflexivity. Defined.

(** The block of the bare ticket. *)
Example bare_ticket_block :
  ticket_summary bare_ticket
  = Ok (nl ++ "Ticket: L2-9" ++ nl ++ "Title: " ++ nl ++ "Type: Unknown" ++ nl
           ++ "Status: Unknown" ++ nl ++ "Priority: Unknown" ++ nl
           ++ "Assignee: Unassigned" ++ nl ++ "Reporter: Unknown" ++ nl
           ++ "Created: " ++ nl ++ "Updated: " ++ nl
           ++ "Description: No description" ++ nl
           ++ "Recent Comments:" ++ nl ++ "No comments" ++ nl
           ++ "Recent History:" ++ nl ++ "No recent changes" ++ nl
           ++ "---" ++ nl).
Proof. reflexivity. Qed.

Lemma mapM_ok_iff {A B} (f : A -> result B) (l : list A) (ys : list B) :
  mapM f l = Ok ys <-> Forall2 (fun x y => f x = Ok y) l ys.
Proof.
  revert ys. induction l as [|x l IH]; intros ys; cbn [mapM].
  - split.
    + intros H. injection H as <-. constructor.
    + intros H. inversion H. reflexivity.
  - split.
    + destruct (f x) as [y|e] eqn:Ex; cbn [bind]; [|discriminate].
      destruct (mapM f l) as [ys'|e] eqn:El; cbn [bind]; [|discriminate].
      intros H. injection H as <-. constructor; [assumption|]. now apply IH.
    + intros H. inversion H as [|x' y l' ys' Hx Hl]; subst.
      rewrite Hx. cbn [bind]. apply IH in Hl. rewrite Hl. reflexivity.
Qed.

Lemma mapM_raise_iff {A B} (f : A -> result B) (l : list A) (e : exn) :
  mapM f l = Raise e <->
  exists before x after,
    l = (before ++ x :: after)%list
    /\ Forall (fun b => exists y, f b = Ok y) before
    /\ f x = Raise e.
Proof.
  induction l as [|x l IH]; cbn [mapM].
  - split; [discriminate|].
    intros (before & x & after & E & _). destruct before; discriminate.
  - split.
    + destruct (f x) as [y|e'] eqn:Ex; cbn [bind].
      * destruct (mapM f l) as [ys|e'] eqn:El; cbn [bind]; [discriminate|].
        intros H. injection H as ->.
        destruct (proj1 IH eq_refl) as (before & x' & after & -> & Hb & Hx).
        exists (x :: before), x', after. repeat split; [|assumption].
        constructor; eauto.
      * intros H. injection H as ->. exists [], x, l. repeat split; [constructor|assumption].
    + intros (before & x' & after & E & Hb & Hx).
      destruct before as [|b before]; cbn [app] in E; injection E as -> ->.
      * rewrite Hx. reflexivity.
      * inversion Hb as [|b' bs [y Hy] Hrest]; subst.
        rewrite Hy. cbn [bind].
        assert (Hl : mapM f (before ++ x' :: after)%list = Raise e)
          by (apply IH; eauto 6).
        rewrite Hl. reflexivity.
Qed.

(** X17. The text for the analysis is all or nothing: it is the blocks of
    all the tickets, joined by a newline, when every ticket has a block,
    and otherwise the call raises what the first ticket without a block
    raises, the blocks made before it being lost. *)
Theorem prepare_all_or_nothing (ts : list pyval) :
  (forall text,
     prepare_ticket_data_for_analysis (PList ts) = Ok text <->
     exists blocks,
       Forall2 (fun t b => ticket_summary t = Ok b) ts blocks
       /\ text = String.concat nl blocks)
  /\ (forall e,
       prepare_ticket_data_for_analysis (PList ts) = Raise e <->
       exists before t after,
         ts = (before ++ t :: after)%list
         /\ Forall (fun b => exists block, ticket_summary b = Ok block) before
         /\ ticket_summary t = Raise e).
Proof.
  unfold prepare_ticket_data_for_analysis. cbn [py_iter bind]. split.
  - intros text. split.
    + destruct (mapM ticket_summary ts) as [blocks|e] eqn:E; cbn [bind]; [|discriminate].
      intros H. injection H as <-. exists blocks. split; [|reflexivity].
      now apply mapM_ok_iff.
    + intros (blocks & Hb & ->). apply mapM_ok_iff in Hb. rewrite Hb. reflexivity.
  - intros e. rewrite <- mapM_raise_iff.
    destruct (mapM ticket_summary ts) as [blocks|e']; cbn [bind]; split;
      try discriminate; intros H; injection H as ->; reflexivity.
Qed.

Lemma bind_nke {A B} (m : result A) (f : A -> result B) :
  never_key_error m -> (forall a, never_key_error (f a)) ->
  never_key_error (bind m f).
Proof.
  unfold never_key_error. destruct m as [a|e]; cbn [bind]; intros Hm Hf.
  - apply Hf.
  - intros E. apply Hm. injection E as ->. reflexivity.
Qed.

Lemma mapM_nke {A B} (f : A -> result B) (l : list A) :
  (forall x, never_key_error (f x)) -> never_key_error (mapM f l).
Proof.
  intros Hf. induction l as [|x l IH]; cbn [mapM]; [discriminate|].
  apply bind_nke; [apply Hf|]. intros y.
  apply bind_nke; [exact IH|]. intros ys. discriminate.
Qed.

Lemma py_get_nke (d : pyval) (k : string) (v : pyval) : never_key_error (py_get d k v).
Proof. destruct d; discriminate. Qed.

Lemma py_len_nke (v : pyval) : never_key_error (py_len v).
Proof. destruct v; discriminate. Qed.

Lemma py_slice_to_nke (n : nat) (v : pyval) : never_key_error (py_slice_to n v).
Proof. destruct v; discriminate. Qed.

Lemma py_slice_last_nke (n : nat) (v : pyval) : never_key_error (py_slice_last n v).
Proof. destruct v; discriminate. Qed.

Lemma py_iter_nke (v : pyval) : never_key_error (py_iter v).
Proof. destruct v; discriminate. Qed.

Lemma py_add_str_nke (v : pyval) (s : string) : never_key_error (py_add_str v s).
Proof. destruct v; discriminate. Qed.

Lemma py_contains_nke (k : string) (v : pyval) : never_key_error (py_contains k v).
Proof. destruct v; discriminate. Qed.

Create HintDb nke.

#[local] Hint Resolve py_get_nke py_len_nke py_slice_to_nke py_slice_last_nke
  py_iter_nke py_add_str_nke py_contains_nke : nke.

Ltac nke :=
  repeat first
    [ solve [ auto with nke ]
    | solve [ unfold never_key_error; discriminate ]
    | apply bind_nke; [| intros ? ]
    | apply mapM_nke; intros ? ].

Lemma get_nested_nke (d : pyval) (k sub default : string) :
  never_key_error (get_nested d k sub default).
Proof. unfold get_nested. nke. Qed.

Lemma display_name_or_nke (a : pyval) (placeholder : string) :
  never_key_error (display_name_or a placeholder).
Proof. unfold display_name_or. destruct (py_truthy a); nke. Qed.

Lemma truncate_nke (n : nat) (v : pyval) : never_key_error (truncate n v).
Proof.
  unfold truncate. apply bind_nke; [nke|]. intros len.
  destruct (Nat.ltb n len); nke.
Qed.

#[local] Hint Resolve get_nested_nke display_name_or_nke truncate_nke : nke.

Lemma comment_line_nke (c : pyval) : never_key_error (comment_line c).
Proof. unfold comment_line. nke. Qed.

Lemma history_lines_nke (h : pyval) : never_key_error (history_lines h).
Proof. unfold history_lines, history_item_line. nke. Qed.

(** The subscript behind the test [k in d] finds its key. *)
Lemma guarded_getitem_nke (k : string) (d : pyval) :
  py_contains k d = Ok true -> never_key_error (py_getitem d k).
Proof.
  destruct d as [| | | | |kv]; cbn [py_contains py_getitem]; try discriminate.
  destruct (lookup k kv); [discriminate|]. intros H. discriminate.
Qed.

Lemma extract_comments_nke (fields : pyval) : never_key_error (extract_comments fields).
Proof.
  unfold extract_comments. apply bind_nke; [nke|]. intros cf.
  destruct (py_truthy cf); [|discriminate].
  destruct (py_contains "comments" cf) as [[|]|e] eqn:E; cbn [bind].
  - apply bind_nke; [now apply guarded_getitem_nke|]. intros all.
    apply bind_nke; [nke|]. intros kept. apply bind_nke; [nke|]. intros items.
    apply mapM_nke. apply comment_line_nke.
  - discriminate.
  - pose proof (py_contains_nke "comments" cf) as H. rewrite E in H.
    intros E'. apply H. injection E' as ->. reflexivity.
Qed.

Lemma extract_history_nke (ticket : pyval) : never_key_error (extract_history ticket).
Proof.
  unfold extract_history. apply bind_nke; [nke|]. intros cl.
  destruct (py_truthy cl); [|discriminate].
  destruct (py_contains "histories" cl) as [[|]|e] eqn:E; cbn [bind].
  - apply bind_nke; [now apply guarded_getitem_nke|]. intros all.
    apply bind_nke; [nke|]. intros kept. apply bind_nke; [nke|]. intros items.
    apply bind_nke; [|discriminate].
    apply mapM_nke. apply history_lines_nke.
  - discriminate.
  - pose proof (py_contains_nke "histories" cl) as H. rewrite E in H.
    intros E'. apply H. injection E' as ->. reflexivity.
Qed.

(** With a slice of an object raising [TypeError] (as it does up to
    Python 3.11), the projection of a ticket raises [KeyError] exactly when
    the ticket is an object without a [fields] entry or without a [key]
    entry: every other entry is read with a default or behind a membership
    test. *)
Theorem key_error_only_without_fields_or_key (ticket : pyval) :
  project_ticket ticket = Raise KeyError <->
  exists kv,
    ticket = PDict kv
    /\ (lookup "fields" kv = None \/ lookup "key" kv = None).
Proof.
  split.
  - destruct ticket as [| | | | |kv]; try discriminate.
    intros H. exists kv. split; [reflexivity|].
    destruct (lookup "fields" kv) as [fields|] eqn:Ef; [|now left].
    destruct (lookup "key" kv) as [key|] eqn:Ek; [|now right].
    exfalso. revert H. unfold project_ticket, py_getitem. rewrite Ef, Ek. cbn [bind].
    change (never_key_error
      (summary <- py_get fields "summary" (PStr "") ;;
       description <- py_get fields "description" (PStr "") ;;
       status <- get_nested fields "status" "name" "Unknown" ;;
       priority <- get_nested fields "priority" "name" "Unknown" ;;
       issue_type <- get_nested fields "issuetype" "name" "Unknown" ;;
       assignee <- py_get fields "assignee" PNone ;;
       assignee_name <- display_name_or assignee "Unassigned" ;;
       reporter <- py_get fields "reporter" PNone ;;
       reporter_name <- display_name_or reporter "Unknown" ;;
       created <- (c <- py_get fields "created" (PStr "") ;; py_slice_to 10 c) ;;
       updated <- (u <- py_get fields "updated" (PStr "") ;; py_slice_to 10 u) ;;
       description <- truncate_description description ;;
       comments <- extract_comments fields ;;
       history_items <- extract_history (PDict kv) ;;
       Ok {| p_key := py_str key;
             p_summary := py_str summary;
             p_issue_type := py_str issue_type;
             p_status := py_str status;
             p_priority := py_str priority;
             p_assignee_name := py_str assignee_name;
             p_reporter_name := py_str reporter_name;
             p_created := py_str created;
             p_updated := py_str updated;
             p_description :=
               if py_truthy description then py_str description else "No description";
             p_comments := comments;
             p_history := history_items |})).
    repeat first
      [ apply extract_comments_nke
      | apply extract_history_nke
      | solve [ auto with nke ]
      | solve [ unfold never_key_error; discriminate ]
      | (unfold truncate_description;
         match goal with |- never_key_error (if ?b then _ else _) => destruct b end)
      | apply bind_nke; [| intros ? ] ].
  - intros (kv & -> & [H|H]); unfold project_ticket, py_getitem.
    + rewrite H. reflexivity.
    + destruct (lookup "fields" kv); rewrite ?H; reflexivity.
Qed.

(* ------------------------------------------------------------------ *)
(** ** The analyses and the completion service                          *)
(* ------------------------------------------------------------------ *)

(** X18. Every call of [analyze_with_ollama] sends exactly one completion
    request: the instruction template named by the analysis type, the
    summary template for any other name, followed by the ticket text as it
    is.  The result is the answer of the service, or the fixed failure
    sentence when the call raises. *)
Theorem analyze_sends_one_request (an : Analyzer) (env : Env)
    (ticket_text analysis_type : string) :
  exists template,
    completion_requests (fst (analyze_with_ollama an env ticket_text analysis_type))
    = [Chat (ollama_model an) (template ++ ticket_text)]
    /\ (analysis_type = "summary" -> template = prompt_summary)
    /\ (analysis_type = "detailed" -> template = prompt_detailed)
    /\ (analysis_type = "trends" -> template = prompt_trends)
    /\ (analysis_type <> "detailed" -> analysis_type <> "trends" ->
        template = prompt_summary)
    /\ snd (analyze_with_ollama an env ticket_text analysis_type)
       = match ollama_chat env (ollama_model an) (template ++ ticket_text) with
         | Some content => content
         | None => analysis_failed
         end.
Proof.
  unfold analyze_with_ollama, prompts. cbn [assoc].
  destruct (String.eqb_spec analysis_type "summary") as [->|Hs].
  - exists prompt_summary.
    destruct (ollama_chat env (ollama_model an) (prompt_summary ++ ticket_text));
      repeat split; try reflexivity; discriminate.
  - destruct (String.eqb_spec analysis_type "detailed") as [->|Hd].
    + exists prompt_detailed.
      destruct (ollama_chat env (ollama_model an) (prompt_detailed ++ ticket_text));
        repeat split; try reflexivity; try discriminate; intros; congruence.
    + destruct (String.eqb_spec analysis_type "trends") as [->|Ht].
      * exists prompt_trends.
        destruct (ollama_chat env (ollama_model an) (prompt_trends ++ ticket_text));
          repeat split; try reflexivity; try discriminate; intros; congruence.
      * exists prompt_summary.
        destruct (ollama_chat env (ollama_model an) (prompt_summary ++ ticket_text));
          repeat split; try reflexivity; intros; congruence.
Qed.

(** X19. [test_ollama_connection] returns [True] exactly when the service
    lists at least one model; the analyzer then uses a listed model: the
    configured one when it is listed, the first listed otherwise.  The
    snapshot the analyzer holds is never touched. *)
Theorem connection_test_picks_listed_model (an : Analyzer)
    (listing : option (list string)) :
  forall ok an' lines,
    test_ollama_connection an listing = (ok, an', lines) ->
    (ok = true <-> exists first rest, listing = Some (first :: rest))
    /\ (ok = true ->
        exists available,
          listing = Some available
          /\ In (ollama_model an') available
          /\ (In (ollama_model an) available -> ollama_model an' = ollama_model an)
          /\ (~ In (ollama_model an) available ->
              Some (ollama_model an') = hd_error available))
    /\ ticket_data an' = ticket_data an
    /\ tickets an' = tickets an.
Proof.
  intros ok an' lines. unfold test_ollama_connection.
  destruct listing as [available|].
  - destruct (existsb (String.eqb (ollama_model an)) available) eqn:E.
    + intros H. injection H as <- <- <-.
      apply existsb_exists in E as (m & Hin & Hm). apply String.eqb_eq in Hm. subst m.
      split; [|split; [|split; reflexivity]].
      * split; [intros _|reflexivity]. destruct available as [|a l]; [contradiction|eauto].
      * intros _. exists available. repeat split; auto. intros Hn. contradiction.
    + assert (Hnot : ~ In (ollama_model an) available).
      { intros Hin. assert (existsb (String.eqb (ollama_model an)) available = true).
        { apply existsb_exists. exists (ollama_model an). split; [assumption|].
          apply String.eqb_refl. }
        congruence. }
      destruct available as [|a l]; intros H; injection H as <- <- <-.
      * split; [|split; [|split; reflexivity]].
        -- split; [discriminate|]. intros (f & r & Hl). discriminate.
        -- discriminate.
      * split; [|split; [|split; reflexivity]].
        -- split; [intros _; eauto | reflexivity].
        -- intros _. exists (a :: l). cbn [ollama_model hd_error].
           repeat split; [now left | intros Hin; contradiction].
  - intros H. injection H as <- <- <-.
    split; [|split; [|split; reflexivity]].
    + split; [discriminate|]. intros (f & r & Hl). discriminate.
    + discriminate.
Qed.

Lemma connection_test_picks_listed_model_witness :
  (true = true <-> exists first rest, Some ["mistral"; "phi3"] = Some (first :: rest))
  /\ (true = true ->
      exists available,
        Some ["mistral"; "phi3"] = Some available
        /\ In "mistral" available
        /\ (In (ollama_model fresh_analyzer) available ->
            "mistral" = ollama_model fresh_analyzer)
        /\ (~ In (ollama_model fresh_analyzer) available ->
            Some "mistral" = hd_error available))
  /\ PNone = ticket_data fresh_analyzer
  /\ PList [] = tickets fresh_analyzer.
Proof.
  apply (connection_test_picks_listed_model fresh_analyzer (Some ["mistral"; "phi3"])
           true
           {| ollama_model := "mistral"; ticket_data := PNone; tickets := PList [] |}
           [MsgModelNotFound "llama3.2" ["mistral"; "phi3"]; MsgUsingInstead "mistral"]).
  reflexivity.
Defined.

Lemma analyze_requests (an : Analyzer) (env : Env) (ticket_text analysis_type : string) :
  completion_requests (fst (analyze_with_ollama an env ticket_text analysis_type))
  = [Chat (ollama_model an) (template_of analysis_type ++ ticket_text)]
  /\ file_writes (fst (analyze_with_ollama an env ticket_text analysis_type)) = [].
Proof.
  unfold analyze_with_ollama. fold (template_of analysis_type).
  destruct (ollama_chat env (ollama_model an) (template_of analysis_type ++ ticket_text));
    split; reflexivity.
Qed.

Lemma display_quiet (an : Analyzer) :
  completion_requests (fst (display_ticket_table an)) = []
  /\ file_writes (fst (display_ticket_table an)) = [].
Proof.
  unfold display_ticket_table.
  destruct (negb (py_truthy (tickets an))); [split; reflexivity|].
  destruct (bind (py_iter (tickets an)) _); split; reflexivity.
Qed.

Lemma save_analysis_writes (an : Analyzer) (env : Env) (analysis kind : string) :
  forall ev, In ev (file_writes (save_analysis an env analysis kind)) ->
             exists content, ev = FileWrite (analysis_file kind env) content.
Proof.
  unfold save_analysis. fold (analysis_file kind env).
  destruct (can_write env (analysis_file kind env)); [|intros ev []].
  destruct (bind (py_get (ticket_data an) "fetch_timestamp" (PStr "Unknown")) _)
    as [part|x].
  - destruct (py_len (tickets an)) as [n|x]; cbn [file_writes filter];
      intros ev [<-|[]]; eauto.
  - cbn [file_writes filter]. intros ev [<-|[]]; eauto.
Qed.

Lemma file_writes_app (a b : list Event) :
  file_writes (a ++ b) = (file_writes a ++ file_writes b)%list.
Proof. apply filter_app. Qed.

(** What [quick_summary] does, by the outcome of the table and of the
    projection. *)
Lemma quick_summary_cases (an : Analyzer) (env : Env) :
  match snd (display_ticket_table an),
        prepare_ticket_data_for_analysis (tickets an) with
  | Ok _, Ok ticket_text =>
      snd (quick_summary an env) = Ok tt
      /\ completion_requests (fst (quick_summary an env))
         = [Chat (ollama_model an) (prompt_summary ++ ticket_text)]
      /\ file_writes (fst (quick_summary an env))
         = if String.eqb (save_answer env) "y"
           then file_writes
                  (save_analysis an env
                     (snd (analyze_with_ollama an env ticket_text "summary")) "summary")
           else []
  | Raise e, _ | Ok _, Raise e =>
      snd (quick_summary an env) = Raise e
      /\ completion_requests (fst (quick_summary an env)) = []
      /\ file_writes (fst (quick_summary an env)) = []
  end.
Proof.
  unfold quick_summary.
  destruct (display_quiet an) as [Hdr Hdw].
  destruct (display_ticket_table an) as [shown [u|e]]; cbn [fst snd] in *.
  - destruct (prepare_ticket_data_for_analysis (tickets an)) as [text|e].
    + destruct (analyze_requests an env text "summary") as [Har Haw].
      destruct (analyze_with_ollama an env text "summary") as [analyzed analysis].
      cbn [fst snd] in *.
      destruct (String.eqb (save_answer env) "y"); cbn [fst snd];
        (split; [reflexivity|]); split;
        rewrite ?completion_requests_app, ?file_writes_app, ?Hdr, ?Hdw, ?Har, ?Haw,
          ?save_analysis_no_request; reflexivity.
    + cbn [fst snd]. split; [reflexivity|]. split.
      * now rewrite completion_requests_app, Hdr.
      * now rewrite file_writes_app, Hdw.
  - cbn [fst snd]. split; [reflexivity|]. split.
    + now rewrite completion_requests_app, Hdr.
    + now rewrite file_writes_app, Hdw.
Qed.

(** X20. [quick_summary] sends the completion service the whole text or
    nothing: when the table and the projection of every ticket succeed it
    returns after exactly one request, made of the summary template and the
    text of all tickets; when either raises, it raises the same exception
    and no request is sent. *)
Theorem quick_summary_all_or_nothing (an : Analyzer) (env : Env) :
  match snd (display_ticket_table an),
        prepare_ticket_data_for_analysis (tickets an) with
  | Ok _, Ok ticket_text =>
      snd (quick_summary an env) = Ok tt
      /\ completion_requests (fst (quick_summary an env))
         = [Chat (ollama_model an) (prompt_summary ++ ticket_text)]
  | Raise e, _ | Ok _, Raise e =>
      snd (quick_summary an env) = Raise e
      /\ completion_requests (fst (quick_summary an env)) = []
  end.
Proof.
  pose proof (quick_summary_cases an env) as H.
  destruct (snd (display_ticket_table an)) as [u|e];
    [destruct (prepare_ticket_data_for_analysis (tickets an)) as [text|e]|];
    destruct H as (H1 & H2 & _); split; assumption.
Qed.

(** X21. [quick_summary] writes a file only when the reply to the save
    prompt is "y" and the analysis did not raise, and then no other file
    than [ticket_analysis_summary_<stamp>.txt]. *)
Theorem quick_summary_saves_on_yes (an : Analyzer) (env : Env)
    (filename content : string) :
  In (FileWrite filename content) (fst (quick_summary an env)) ->
  save_answer env = "y"
  /\ snd (quick_summary an env) = Ok tt
  /\ filename = analysis_file "summary" env.
Proof.
  intros Hin.
  assert (Hw : In (FileWrite filename content) (file_writes (fst (quick_summary an env))))
    by (apply filter_In; split; [assumption | reflexivity]).
  pose proof (quick_summary_cases an env) as H.
  destruct (snd (display_ticket_table an)) as [u|e];
    [destruct (prepare_ticket_data_for_analysis (tickets an)) as [text|e]|];
    destruct H as (H1 & _ & H3); rewrite H3 in Hw; try contradiction.
  destruct (String.eqb_spec (save_answer env) "y") as [Hy|_]; [|contradiction].
  apply save_analysis_writes in Hw as (c & E). injection E as -> _.
  repeat split; assumption.
Qed.

Lemma quick_summary_saves_on_yes_witness :
  save_answer saving_env = "y"
  /\ snd (quick_summary sample_analyzer saving_env) = Ok tt
  /\ "ticket_analysis_summary_20240624_163000.txt" = analysis_file "summary" saving_env.
Proof.
  apply (quick_summary_saves_on_yes sample_analyzer saving_env
           "ticket_analysis_summary_20240624_163000.txt" saved_summary_text).
  vm_compute. tauto.
Defined.

Lemma requests_of_app (a b : list Action) :
  requests_of (a ++ b) = (requests_of a ++ requests_of b)%list.
Proof. apply flat_map_app. Qed.

Lemma requests_of_did (events : list Event) :
  requests_of (map Did events) = completion_requests events.
Proof.
  induction events as [|e events IH]; [reflexivity|].
  cbn [map requests_of flat_map completion_requests filter].
  fold (requests_of (map Did events)). fold (completion_requests events).
  rewrite IH. destruct e; reflexivity.
Qed.

(** What the other two analyses do, by the outcome of the table (when
    shown) and of the projection. *)
Lemma other_analysis_cases (opening heading : RunMsg) (shows_table : bool)
    (analysis_type : string) (an : Analyzer) (env : Env) :
  match (if shows_table then snd (display_ticket_table an) else Ok tt),
        prepare_ticket_data_for_analysis (tickets an) with
  | Ok _, Ok ticket_text =>
      snd (other_analysis opening heading shows_table analysis_type an env) = Ok tt
      /\ requests_of (fst (other_analysis opening heading shows_table analysis_type an env))
         = [Chat (ollama_model an) (template_of analysis_type ++ ticket_text)]
  | Raise e, _ | Ok _, Raise e =>
      snd (other_analysis opening heading shows_table analysis_type an env) = Raise e
      /\ requests_of (fst (other_analysis opening heading shows_table analysis_type an env))
         = []
  end.
Proof.
  unfold other_analysis.
  assert (Hshown : completion_requests
                     (fst (if shows_table then display_ticket_table an else ([], Ok tt)))
                   = []).
  { destruct shows_table; [apply display_quiet | reflexivity]. }
  assert (Hsnd : snd (if shows_table then display_ticket_table an else ([], Ok tt))
                 = (if shows_table then snd (display_ticket_table an) else Ok tt))
    by (destruct shows_table; reflexivity).
  rewrite <- Hsnd. clear Hsnd.
  destruct (if shows_table then display_ticket_table an else ([], Ok tt))
    as [shown [u|e]]; cbn [fst snd] in *.
  - destruct (prepare_ticket_data_for_analysis (tickets an)) as [text|e].
    + destruct (analyze_requests an env text analysis_type) as [Har _].
      destruct (analyze_with_ollama an env text analysis_type) as [analyzed analysis].
      cbn [fst snd] in *.
      destruct (String.eqb (save_answer env) "y"); cbn [fst snd];
        (split; [reflexivity|]);
        rewrite ?requests_of_app, ?requests_of_did, ?Hshown, ?Har,
          ?save_analysis_no_request; reflexivity.
    + cbn [fst snd]. split; [reflexivity|].
      now rewrite requests_of_app, requests_of_did, Hshown.
  - cbn [fst snd]. split; [reflexivity|].
    now rewrite requests_of_app, requests_of_did, Hshown.
Qed.

(** X22. The detailed and the trend analysis send the completion service
    the whole text or nothing, each under its own instruction template.
    The trend analysis shows no table, so only the projection can make it
    raise; the detailed analysis also raises what the table raises. *)
Theorem other_analyses_all_or_nothing (an : Analyzer) (env : Env) :
  match prepare_ticket_data_for_analysis (tickets an) with
  | Ok ticket_text =>
      snd (trend_analysis an env) = Ok tt
      /\ requests_of (fst (trend_analysis an env))
         = [Chat (ollama_model an) (prompt_trends ++ ticket_text)]
  | Raise e =>
      snd (trend_analysis an env) = Raise e
      /\ requests_of (fst (trend_analysis an env)) = []
  end
  /\ match snd (display_ticket_table an),
           prepare_ticket_data_for_analysis (tickets an) with
     | Ok _, Ok ticket_text =>
         snd (detailed_analysis an env) = Ok tt
         /\ requests_of (fst (detailed_analysis an env))
            = [Chat (ollama_model an) (prompt_detailed ++ ticket_text)]
     | Raise e, _ | Ok _, Raise e =>
         snd (detailed_analysis an env) = Raise e
         /\ requests_of (fst (detailed_analysis an env)) = []
     end.
Proof.
  split.
  - exact (other_analysis_cases MsgGeneratingTrends MsgTrendAnalysis false "trends" an env).
  - exact (other_analysis_cases MsgGeneratingDetailed MsgDetailedAnalysis true "detailed"
             an env).
Qed.

Lemma connection_model_listed (an an' : Analyzer) (listing : option (list string))
    (lines : list RunMsg) :
  test_ollama_connection an listing = (true, an', lines) ->
  exists available, listing = Some available /\ In (ollama_model an') available.
Proof.
  unfold test_ollama_connection. destruct listing as [available|]; [|discriminate].
  destruct (existsb (String.eqb (ollama_model an)) available) eqn:E.
  - intros H. injection H as <- <-. exists available. split; [reflexivity|].
    apply existsb_exists in E as (m & Hin & Hm). apply String.eqb_eq in Hm. now subst m.
  - destruct available as [|a l]; [discriminate|].
    intros H. injection H as <- <-. exists (a :: l). split; [reflexivity | now left].
Qed.

(** Each analysis sends no request or one, to the model of the analyzer. *)
Lemma summary_actions_requests (an : Analyzer) (env : Env) :
  requests_of (fst (summary_actions an env)) = []
  \/ exists content,
       requests_of (fst (summary_actions an env)) = [Chat (ollama_model an) content].
Proof.
  unfold summary_actions. cbn [fst]. rewrite requests_of_did.
  pose proof (quick_summary_cases an env) as H.
  destruct (snd (display_ticket_table an)) as [u|e];
    [destruct (prepare_ticket_data_for_analysis (tickets an)) as [text|e]|];
    destruct H as (_ & H2 & _); rewrite H2; eauto.
Qed.

Lemma other_analysis_requests (opening heading : RunMsg) (shows_table : bool)
    (analysis_type : string) (an : Analyzer) (env : Env) :
  requests_of (fst (other_analysis opening heading shows_table analysis_type an env)) = []
  \/ exists content,
       requests_of (fst (other_analysis opening heading shows_table analysis_type an env))
       = [Chat (ollama_model an) content].
Proof.
  pose proof (other_analysis_cases opening heading shows_table analysis_type an env) as H.
  destruct (if shows_table then snd (display_ticket_table an) else Ok tt) as [u|e];
    [destruct (prepare_ticket_data_for_analysis (tickets an)) as [text|e]|];
    destruct H as (_ & H2); rewrite H2; eauto.
Qed.

Lemma requests_of_told (lines : list RunMsg) : requests_of (map Told lines) = [].
Proof. induction lines as [|l lines IH]; [reflexivity | exact IH]. Qed.

(** X23. A completion request of [run_single_analysis] is the only one of
    the run, names a model that the service listed, and is sent only for
    the analysis types summary, detailed and trends: an unknown type, or a
    failed connection test, sends nothing. *)
Theorem single_analysis_request (an : Analyzer) (listing : option (list string))
    (env : Env) (analysis_type model content : string) :
  In (Chat model content)
     (requests_of (fst (run_single_analysis an listing env analysis_type))) ->
  (exists available, listing = Some available /\ In model available)
  /\ (analysis_type = "summary" \/ analysis_type = "detailed"
      \/ analysis_type = "trends")
  /\ requests_of (fst (run_single_analysis an listing env analysis_type))
     = [Chat model content].
Proof.
  unfold run_single_analysis.
  destruct (test_ollama_connection an listing) as [[[|] an'] lines] eqn:Et.
  - destruct (connection_model_listed an an' listing lines Et) as (available & Hl & Hin).
    assert (Hshape :
      forall done : list Action * result unit,
        (requests_of (fst done) = []
         \/ exists c, requests_of (fst done) = [Chat (ollama_model an') c]) ->
        In (Chat model content)
           (requests_of (fst (let (d, outcome) := done in
              ((ListModels :: map Told lines ++ [Told (MsgRunning analysis_type)]) ++ d,
               outcome)%list))) ->
        (exists available0, listing = Some available0 /\ In model available0)
        /\ requests_of (fst (let (d, outcome) := done in
              ((ListModels :: map Told lines ++ [Told (MsgRunning analysis_type)]) ++ d,
               outcome)%list)) = [Chat model content]).
    { intros [d outcome] Hd. cbn [fst] in *.
      rewrite requests_of_app. cbn [requests_of flat_map].
      fold (requests_of (map Told lines ++ [Told (MsgRunning analysis_type)])%list).
      rewrite requests_of_app, requests_of_told. cbn [requests_of flat_map app].
      fold (requests_of d).
      destruct Hd as [->|[c ->]]; [intros []|].
      intros [E|[]]. injection E as <- <-. split; [eauto | reflexivity]. }
    destruct (String.eqb_spec analysis_type "summary") as [->|Hs].
    + intros H. destruct (Hshape _ (summary_actions_requests an' env) H) as [H1 H2].
      repeat split; auto.
    + destruct (String.eqb_spec analysis_type "detailed") as [->|Hd].
      * intros H.
        destruct (Hshape _ (other_analysis_requests MsgGeneratingDetailed
                              MsgDetailedAnalysis true "detailed" an' env) H) as [H1 H2].
        repeat split; auto.
      * destruct (String.eqb_spec analysis_type "trends") as [->|Ht].
        -- intros H.
           destruct (Hshape _ (other_analysis_requests MsgGeneratingTrends
                                 MsgTrendAnalysis false "trends" an' env) H) as [H1 H2].
           repeat split; auto.
        -- intros H. exfalso.
           destruct (Hshape ([Told (MsgUnknownType analysis_type)], Ok tt)
                       (or_introl eq_refl) H) as [_ H2].
           cbn [fst] in H2. rewrite requests_of_app in H2.
           cbn [requests_of flat_map] in H2.
           fold (requests_of (map Told lines ++ [Told (MsgRunning analysis_type)])%list) in H2.
           rewrite requests_of_app, requests_of_told in H2. discriminate.
  - cbn [fst requests_of flat_map]. fold (requests_of (map Told lines)).
    rewrite requests_of_told. intros [].
Qed.

Lemma single_analysis_request_witness :
  (exists available, Some ["llama3.2"] = Some available /\ In "llama3.2" available)
  /\ ("summary" = "summary" \/ "summary" = "detailed" \/ "summary" = "trends")
  /\ requests_of
       (fst (run_single_analysis sample_analyzer (Some ["llama3.2"]) sample_env "summary"))
     = [Chat "llama3.2" sample_request_content].
Proof.
  apply (single_analysis_request sample_analyzer (Some ["llama3.2"]) sample_env
           "summary" "llama3.2" sample_request_content).
  vm_compute. left. reflexivity.
Defined.

(** X24. The menu loop ends at the choice "5": when some round chooses it
    the loop returns, and what is typed after it is never read. *)
Theorem menu_ends_at_exit (an : Analyzer) (before after : list Round) (five : Round) :
  choice five = "5" ->
  exists done,
    menu_loop an (before ++ five :: after) = Some done
    /\ menu_loop an (before ++ [five]) = Some done.
Proof.
  intros H5. induction before as [|r before IH]; cbn [app menu_loop].
  - rewrite H5. cbn [String.eqb Ascii.eqb Bool.eqb]. eauto.
  - destruct IH as ([later outcome] & -> & ->).
    destruct (String.eqb (choice r) "1");
      [destruct (summary_actions an (round_env r)) as [a [u|e]]; eauto|].
    destruct (String.eqb (choice r) "2");
      [destruct (detailed_analysis an (round_env r)) as [a [u|e]]; eauto|].
    destruct (String.eqb (choice r) "3");
      [destruct (trend_analysis an (round_env r)) as [a [u|e]]; eauto|].
    destruct (String.eqb (choice r) "4");
      [destruct (snd (display_ticket_table an)) as [u|e]; eauto|].
    destruct (String.eqb (choice r) "5"); eauto.
Qed.

Lemma menu_ends_at_exit_witness :
  exists done,
    menu_loop sample_analyzer (sample_rounds ++ exit_round :: [late_round]) = Some done
    /\ menu_loop sample_analyzer (sample_rounds ++ [exit_round]) = Some done.
Proof.
  apply (menu_ends_at_exit sample_analyzer sample_rounds [late_round] exit_round).
  reflexivity.
Defined.

Lemma requests_length_le_one (an : Analyzer) (requests : list Event) :
  (requests = [] \/ exists content, requests = [Chat (ollama_model an) content]) ->
  List.length requests <= 1.
Proof. intros [->|[c ->]]; simpl; lia. Qed.

(** X25. A session of the menu sends at most one completion request for
    each round that chooses an analysis (1, 2 or 3): showing the table, an
    invalid choice and the exit send none. *)
Theorem menu_requests_bounded (an : Analyzer) (rounds : list Round)
    (actions : list Action) (outcome : result unit) :
  menu_loop an rounds = Some (actions, outcome) ->
  List.length (requests_of actions) <= List.length (filter chooses_analysis rounds).
Proof.
  revert actions outcome.
  induction rounds as [|r rounds IH]; intros actions outcome; cbn [menu_loop];
    [discriminate|].
  assert (Hgo : forall (done : list Action * result unit) (bound : nat),
            List.length (requests_of (fst done)) <= bound ->
            match done with
            | (acts, Raise e) => Some (([Told MsgOptions; Did Ask] ++ acts)%list, Raise e)
            | (acts, Ok _) =>
                match menu_loop an rounds with
                | Some (later, o) =>
                    Some (([Told MsgOptions; Did Ask] ++ acts ++ later)%list, o)
                | None => None
                end
            end = Some (actions, outcome) ->
            List.length (requests_of actions)
            <= bound + List.length (filter chooses_analysis rounds)).
  { intros [acts [u|e]] bound Hb; cbn [fst] in Hb.
    - destruct (menu_loop an rounds) as [[later o]|]; [|discriminate].
      intros H. injection H as <- <-.
      specialize (IH later o eq_refl).
      change (requests_of (Told MsgOptions :: Did Ask :: acts ++ later)%list)
        with (requests_of (acts ++ later)%list).
      rewrite requests_of_app, length_app. lia.
    - intros H. injection H as <- <-.
      change (requests_of (Told MsgOptions :: Did Ask :: acts))
        with (requests_of acts).
      lia. }
  cbn [filter]. unfold chooses_analysis at 1.
  destruct (String.eqb (choice r) "1") eqn:E1; cbn [orb].
  - intros H. apply (Hgo _ 1) in H; [cbn [List.length]; lia|].
    apply (requests_length_le_one an), summary_actions_requests.
  - destruct (String.eqb (choice r) "2") eqn:E2; cbn [orb].
    + intros H. apply (Hgo _ 1) in H; [cbn [List.length]; lia|].
      apply (requests_length_le_one an), other_analysis_requests.
    + destruct (String.eqb (choice r) "3") eqn:E3; cbn [orb].
      * intros H. apply (Hgo _ 1) in H; [cbn [List.length]; lia|].
        apply (requests_length_le_one an), other_analysis_requests.
      * destruct (String.eqb (choice r) "4").
        -- intros H.
           apply (Hgo (map Did (fst (display_ticket_table an)),
                       snd (display_ticket_table an)) 0) in H; [lia|]. cbn [fst].
           rewrite requests_of_did. destruct (display_quiet an) as [-> _]. simpl. lia.
        -- destruct (String.eqb (choice r) "5").
           ++ intros H. injection H as <- <-. simpl. lia.
           ++ intros H. apply (Hgo ([Told MsgInvalidChoice], Ok tt) 0) in H; [lia|].
              simpl. lia.
Qed.

Lemma menu_requests_bounded_witness :
  List.length
    (requests_of
       (fst (match menu_loop sample_analyzer (late_round :: sample_rounds ++ [exit_round])
             with Some done => done | None => ([], Ok tt) end)))
  <= List.length (filter chooses_analysis (late_round :: sample_rounds ++ [exit_round])).
Proof.
  apply (menu_requests_bounded sample_analyzer
           (late_round :: sample_rounds ++ [exit_round]) _
           (snd (match menu_loop sample_analyzer
                         (late_round :: sample_rounds ++ [exit_round])
                 with Some done => done | None => ([], Ok tt) end))).
  vm_compute. reflexivity.
Defined.

(* ------------------------------------------------------------------ *)
(** ** The ticket table                                                 *)
(* ------------------------------------------------------------------ *)

Lemma table_row_shape (ticket : pyval) :
  well_shaped ticket = true ->
  table_row ticket
  = Ok (spec_row ticket (person_of ticket "assignee" "Unassigned")).
Proof.
  destruct ticket as [| | | | |kv]; simpl; try discriminate.
  destruct (lookup "key" kv) as [key|] eqn:Ek; [|discriminate].
  destruct key as [| | |key| |]; try discriminate.
  destruct (lookup "fields" kv) as [fields|] eqn:Ef; [|discriminate].
  intros H. apply andb_prop in H as [Hf Hc].
  destruct fields as [| | | | |fkv]; simpl in Hf; try discriminate.
  repeat match type of Hf with _ && _ = true => apply andb_prop in Hf as [Hf ?] end.
  assert (Efields : entry "fields" PNone (PDict kv) = PDict fkv)
    by (unfold entry; now rewrite Ef).
  unfold table_row, spec_row, text_field, name_of, person_of, field_of.
  rewrite Efields. unfold py_getitem. rewrite Ef, Ek. cbn [bind].
  rewrite !py_get_dict. cbn [bind].
  rewrite (entry_text "summary" fkv), (entry_text "updated" fkv) by assumption.
  cbn [py_len bind].
  set (sm := match lookup "summary" fkv with Some (PStr s) => s | _ => "" end).
  assert (Hcell :
    (if Nat.ltb 50 (String.length sm)
     then (cut <- py_slice_to 50 (PStr sm) ;; py_add_str cut "...")
     else Ok (PStr sm))
    = Ok (PStr (ellipsize 50 sm)))
    by (unfold ellipsize; destruct (Nat.ltb 50 (String.length sm)); reflexivity).
  rewrite Hcell. cbn [bind].
  destruct (get_nested_named fkv "status" "name" "Unknown") as [-> [st Est]];
    [assumption|].
  cbn [bind].
  destruct (get_nested_named fkv "priority" "name" "Unknown") as [-> [pr Epr]];
    [assumption|].
  cbn [bind].
  rewrite (display_name_or_person fkv "assignee" "Unassigned") by assumption.
  cbn [py_slice_to bind].
  rewrite Est, Epr. unfold entry. rewrite Ek. reflexivity.
Qed.

(** X26. For a non-empty list of tickets of the data model's shape
    [display_ticket_table] does not raise and shows one row per ticket, in
    order.  The cells of a row are the key, the summary (cut to its first 50
    characters and "..." when longer), the names of the status and of the
    priority, the display name of the assignee and the first 10 characters
    of the time of the last update; the assignee cell is "Unassigned" when
    the assignee is missing or null. *)
Theorem table_rows_of_well_shaped (model : string) (data : pyval) (ts : list pyval) :
  forallb well_shaped ts = true ->
  ts <> [] ->
  display_ticket_table {| ollama_model := model; ticket_data := data;
                          tickets := PList ts |}
  = ([Say MsgTicketOverview;
      ShowTable
        (map (fun t =>
                [entry "key" PNone t;
                 PStr (ellipsize 50 (text_field t "summary"));
                 PStr (name_of t "status");
                 PStr (name_of t "priority");
                 PStr (person_of t "assignee" "Unassigned");
                 PStr (str_take 10 (text_field t "updated"))])
             ts)],
     Ok tt)
  /\ (forall t, In t ts -> missing_or_null t "assignee" ->
        person_of t "assignee" "Unassigned" = "Unassigned")
  /\ (forall t, In t ts ->
        String.length (ellipsize 50 (text_field t "summary")) <= 53
        /\ String.length (str_take 10 (text_field t "updated")) <= 10).
Proof.
  intros Hall Hne. split; [|split].
  - unfold display_ticket_table. cbn [tickets py_truthy].
    destruct ts as [|t0 ts0]; [now elim Hne|]. cbn [negb py_iter bind].
    clear Hne. revert Hall. generalize (t0 :: ts0). clear t0 ts0. intros ts Hall.
    rewrite (mapM_map table_row
               (fun t => spec_row t (person_of t "assignee" "Unassigned"))).
    + reflexivity.
    + intros t Ht. apply table_row_shape.
      rewrite forallb_forall in Hall. now apply Hall.
  - intros t _ [E|E]; unfold person_of; now rewrite E.
  - intros t _. split; [apply ellipsize_le | apply str_take_le].
Qed.

Lemma table_rows_of_well_shaped_witness :
  display_ticket_table {| ollama_model := "llama3.2"; ticket_data := PNone;
                          tickets := PList [sample_ticket; bare_ticket] |}
  = ([Say MsgTicketOverview;
      ShowTable
        (map (fun t =>
                [entry "key" PNone t;
                 PStr (ellipsize 50 (text_field t "summary"));
                 PStr (name_of t "status");
                 PStr (name_of t "priority");
                 PStr (person_of t "assignee" "Unassigned");
                 PStr (str_take 10 (text_field t "updated"))])
             [sample_ticket; bare_ticket])],
     Ok tt)
  /\ (forall t, In t [sample_ticket; bare_ticket] -> missing_or_null t "assignee" ->
        person_of t "assignee" "Unassigned" = "Unassigned")
  /\ (forall t, In t [sample_ticket; bare_ticket] ->
        String.length (ellipsize 50 (text_field t "summary")) <= 53
        /\ String.length (str_take 10 (text_field t "updated")) <= 10).
Proof.
  apply (table_rows_of_well_shaped "llama3.2" PNone [sample_ticket; bare_ticket]).
  - reflexivity.
  - discriminate.
Defined.

(* ------------------------------------------------------------------ *)
(** ** The run of the fetcher                                           *)
(* ------------------------------------------------------------------ *)

Section RunProperties.

Variable Text : Type.
Variable dumps : pyval -> Text.
Variable loads : Text -> option pyval.
Variable py_int : string -> option Z.

(** A save under the default name touches no other name, and does one of
    three things: it writes the snapshot and returns the name; it fails to
    open the file and changes nothing; it fails while writing and leaves
    what was written by then. *)
Lemma save_default_frame (now : Clock) (fs fs' : Files Text) (ts : list pyval)
    (name : string) (line : SaveMsg) :
  save_tickets_to_json dumps now fs ts None = (fs', name, line) ->
  (forall other,
     other <> "jira_tickets_" ++ now_stamp now ++ ".json" ->
     reading fs' other = reading fs other)
  /\ match writing fs ("jira_tickets_" ++ now_stamp now ++ ".json") with
     | Completes =>
         name = "jira_tickets_" ++ now_stamp now ++ ".json"
         /\ fs' = write_file fs name (dumps (snapshot now ts))
     | OpenFails => name = "" /\ fs' = fs
     | WriteFails left_in_file =>
         name = ""
         /\ fs' = write_file fs ("jira_tickets_" ++ now_stamp now ++ ".json")
                  left_in_file
     end.
Proof.
  unfold save_tickets_to_json.
  set (dname := "jira_tickets_" ++ now_stamp now ++ ".json").
  assert (Hframe : forall text other, other <> dname ->
            reading (write_file fs dname text) other = reading fs other).
  { intros text other Hne. unfold write_file. cbn [reading].
    destruct (String.eqb_spec other dname); [contradiction | reflexivity]. }
  destruct (writing fs dname); intros H; injection H as <- <- _.
  - split; [apply Hframe | split; reflexivity].
  - split; [reflexivity | split; reflexivity].
  - split; [apply Hframe | split; reflexivity].
Qed.

(** A file just written, read back. *)
Lemma load_written (fs : Files Text) (ts : list pyval) (now : Clock)
    (name : string) (an : Analyzer) :
  loads (dumps (snapshot now ts)) = Some (snapshot now ts) ->
  exists an' msgs,
    load_ticket_data loads (write_file fs name (dumps (snapshot now ts))) an name
    = (true, an', msgs)
    /\ tickets an' = PList ts.
Proof.
  intros Hjson.
  destruct (load_snapshot Text loads fs name _ now ts an Hjson) as [msgs ->].
  eexists. eexists. split; reflexivity.
Qed.

Ltac unsaved :=
  split; [eexists; reflexivity|];
  split; [intros Hx; try discriminate Hx; repeat split|];
  split; [intros _; split; reflexivity|];
  split; [reflexivity|];
  split; [intros Hn; now elim Hn | intros _; now left].


End RunProperties.


(** The sample run: two of the three tickets, saved under the default
    name. *)
Example sample_run_outcome :
  fetched sample_outcome = firstn 2 (sample_db 3)
  /\ saved_as sample_outcome = "jira_tickets_20240624_163000.json"
  /\ requests_sent sample_outcome = [page_request 0].
Proof. repeat split; reflexivity. Qed.

(* ------------------------------------------------------------------ *)
(** ** From the server to the text for the model                        *)
(* ------------------------------------------------------------------ *)

Lemma table_rows_total (ts : list pyval) :
  forallb well_shaped ts = true -> exists rows, mapM table_row ts = Ok rows.
Proof.
  induction ts as [|t ts IH]; cbn [mapM forallb]; [eauto|].
  intros H. apply andb_prop in H as [Ht Hts].
  rewrite (table_row_shape t Ht).
  destruct (IH Hts) as [rows ->]. cbn [bind]. eauto.
Qed.

Lemma prepare_total (ts : list pyval) :
  forallb well_shaped ts = true ->
  exists text, prepare_ticket_data_for_analysis (PList ts) = Ok text.
Proof.
  intros Hall. unfold prepare_ticket_data_for_analysis. cbn [py_iter bind].
  assert (Hm : exists blocks, mapM ticket_summary ts = Ok blocks).
  { induction ts as [|t ts IH]; cbn [mapM forallb] in *; [eauto|].
    apply andb_prop in Hall as [Ht Hts].
    destruct (project_ticket_shape t Ht) as (p & Hp & _).
    unfold ticket_summary at 1. rewrite Hp. cbn [bind].
    destruct (IH Hts) as [blocks ->]. cbn [bind]. eauto. }
  destruct Hm as [blocks ->]. cbn [bind]. eauto.
Qed.

Section Pipeline.

Variable Text : Type.
Variable dumps : pyval -> Text.
Variable loads : Text -> option pyval.
Variable py_int : string -> option Z.

(** X29. From the server to the text for the model: when the connection
    test passes, the user asks for all tickets, the server holds at least
    one ticket, all of the data model's shape, and serves them faithfully,
    and the snapshot file can be written and read back, then [run] saves
    without raising, [load_ticket_data] on the saved file gives the
    analyzer exactly the tickets of the server, and their projection
    returns its text. *)
Theorem fetched_snapshot_projects (db : list pyval) (fuel : nat) (probe : Probe)
    (lines : list FetcherMsg) (now : Clock) (fs : Files Text) (an : Analyzer) :
  test_jira_connection probe = (true, lines) ->
  db <> [] ->
  forallb well_shaped db = true ->
  List.length db / 100 < fuel ->
  writable fs ("jira_tickets_" ++ now_stamp now ++ ".json") = true ->
  loads (dumps (snapshot now db)) = Some (snapshot now db) ->
  exists out an' msgs text,
    run dumps py_int fuel probe "" (simulated_server db) now fs = Some out
    /\ run_raised out = None
    /\ fetched out = db
    /\ load_ticket_data loads (files_after out) an (saved_as out) = (true, an', msgs)
    /\ tickets an' = PList db
    /\ prepare_ticket_data_for_analysis (tickets an') = Ok text.
Proof.
  intros Hprobe Hne Hshape Hfuel Hw Hjson.
  destruct (fetch_tickets_simulated db None fuel) as [st Hfetch];
    [discriminate | assumption |].
  destruct (table_rows_total db Hshape) as [rows Hrows].
  destruct (prepare_total db Hshape) as [text Htext].
  destruct (load_written Text dumps loads fs db now
              ("jira_tickets_" ++ now_stamp now ++ ".json") an Hjson)
    as (an' & msgs & Hload & Htickets).
  unfold run. rewrite Hprobe. unfold read_cap. cbn [String.eqb].
  rewrite Hfetch. cbn [capped].
  destruct db as [|t db']; [now elim Hne|].
  unfold display_ticket_summary. rewrite Hrows. cbn [bind].
  unfold writable in Hw. unfold save_tickets_to_json.
  destruct (writing fs ("jira_tickets_" ++ now_stamp now ++ ".json"));
    try discriminate Hw.
  eexists. exists an', msgs, text. split; [reflexivity|].
  cbn [run_raised fetched files_after saved_as].
  repeat split; try assumption. now rewrite Htickets.
Qed.

End Pipeline.

Lemma fetched_snapshot_projects_witness :
  exists out an' msgs text,
    run (fun v => v) sample_int 3 sample_probe "" (simulated_server (sample_db 3))
        sample_clock (no_files pyval) = Some out
    /\ run_raised out = None
    /\ fetched out = sample_db 3
    /\ load_ticket_data (fun v => Some v) (files_after out) fresh_analyzer (saved_as out)
       = (true, an', msgs)
    /\ tickets an' = PList (sample_db 3)
    /\ prepare_ticket_data_for_analysis (tickets an') = Ok text.
Proof.
  apply (fetched_snapshot_projects pyval (fun v => v) (fun v => Some v) sample_int
           (sample_db 3) 3 sample_probe [MsgConnected "Ann"] sample_clock
           (no_files pyval) fresh_analyzer).
  - reflexivity.
  - discriminate.
  - reflexivity.
  - vm_compute. lia.
  - reflexivity.
  - reflexivity.
Defined.
